(** * TOOL-M polling core: a shallow embedding

    The development follows two source files of the repository:

    - [backend/app/utils/snmp_engine.py]: [calc_bps], [format_mac_address],
      [oid_index], [get_lldp_neighbors], [poll_device] and the two-phase
      scheduler [poll_all_devices];
    - [backend/app/routers/topology.py]: the [backfill_links] end point.

    Python values are a small tagged union, Python exceptions an error
    monad, the SQLAlchemy session an explicit record of tables threaded
    through a state-and-exception monad.  Text is modelled over the code
    points 0..255 (Rocq's [string]); on that range [str.lower],
    [str.strip], [\d] and [encode('latin-1')] are written out in full. *)

From Stdlib Require Import ZArith List String Ascii Bool Lia.
From Stdlib Require Import Floats.SpecFloat.
From Stdlib.Strings Require Import Byte.
From stdpp Require Import base option list gmap strings sorting.

Local Open Scope string_scope.
Local Open Scope Z_scope.
Local Open Scope list_scope.

(** ** Python values, exceptions and the error monad *)

Module Py.

Inductive exn : Type :=
| TypeError
| ValueError
| ZeroDivisionError
| OverflowError
| AttributeError
| NameError (name : string).

Inductive result (A : Type) : Type :=
| Ok (a : A)
| Raise (e : exn).
Arguments Ok {A} a.
Arguments Raise {A} e.

#[global] Instance result_ret : MRet result := fun A a => Ok a.
#[global] Instance result_bind : MBind result := fun A B f m =>
  match m with
  | Ok a => f a
  | Raise e => Raise e
  end.

(** [try: body except Exception: handler] for a body whose value is returned. *)
Definition try_except {A} (body : result A) (handler : exn -> A) : A :=
  match body with
  | Ok a => a
  | Raise e => handler e
  end.

(** The values the modelled functions receive.  A float is an IEEE 754
    binary64 value, with the arithmetic of [SpecFloat]; [VBytes] stands for
    [bytes] and for pysnmp's [OctetString], which has the same [len],
    slicing and iteration. *)
Inductive PyVal : Type :=
| VNone
| VInt (z : Z)
| VFloat (f : spec_float)
| VStr (s : string)
| VBytes (bs : list byte).

(** *** Floats: binary64 *)

Definition prec : Z := 53.
Definition emax : Z := 1024.

Definition float_is_zero (f : spec_float) : bool :=
  match f with
  | S754_zero _ => true
  | _ => false
  end.

(** [float(z)] for an int: the nearest double, ties to even; "int too large
    to convert to float" when that is an infinity. *)
Definition float_of_int (z : Z) : result spec_float :=
  match binary_normalize prec emax z 0 false with
  | S754_infinity _ => Raise OverflowError
  | f => Ok f
  end.

(** [a / b] on ints: the exact quotient rounded once to a double; "integer
    division result too large for a float" when that is an infinity. *)
Definition int_true_divide (a b : Z) : result spec_float :=
  if b =? 0 then Raise ZeroDivisionError
  else if a =? 0 then Ok (S754_zero (b <? 0))
  else
    match SFdiv prec emax (S754_finite (a <? 0) (Z.to_pos (Z.abs a)) 0)
                          (S754_finite (b <? 0) (Z.to_pos (Z.abs b)) 0) with
    | S754_infinity _ => Raise OverflowError
    | q => Ok q
    end.

(** The value of a finite float is [±m * 2^e]; an int against it, exactly. *)
Definition compare_int_float (z : Z) (f : spec_float) : option comparison :=
  match f with
  | S754_nan => None
  | S754_infinity s => Some (if s then Gt else Lt)
  | S754_zero _ => Some (z ?= 0)
  | S754_finite s m e =>
      let v := if s then Z.neg m else Z.pos m in
      Some (if 0 <=? e then z ?= v * 2 ^ e else z * 2 ^ (- e) ?= v)
  end.

(** Truth value of an object ([if x], [not x]). *)
Definition truthy (v : PyVal) : bool :=
  match v with
  | VNone => false
  | VInt z => negb (z =? 0)
  | VFloat f => negb (float_is_zero f)
  | VStr s => negb (String.eqb s "")
  | VBytes bs => negb (Nat.eqb (length bs) 0)
  end.

(** *** Arithmetic: [-], [*], [/], [max] *)

(** The operands of a float operation: an int operand is converted. *)
Definition float_operands (a b : PyVal) : result (spec_float * spec_float) :=
  match a, b with
  | VInt x, VFloat y => x' ← float_of_int x; Ok (x', y)
  | VFloat x, VInt y => y' ← float_of_int y; Ok (x, y')
  | VFloat x, VFloat y => Ok (x, y)
  | _, _ => Raise TypeError
  end.

Definition py_sub (a b : PyVal) : result PyVal :=
  match a, b with
  | VInt x, VInt y => Ok (VInt (x - y))
  | _, _ =>
      xy ← float_operands a b;
      Ok (VFloat (SFsub prec emax (fst xy) (snd xy)))
  end.

Fixpoint str_repeat (s : string) (n : nat) : string :=
  match n with
  | O => ""
  | S n' => s +:+ str_repeat s n'
  end.

Definition py_mul (a b : PyVal) : result PyVal :=
  match a, b with
  | VInt x, VInt y => Ok (VInt (x * y))
  | VStr s, VInt n | VInt n, VStr s => Ok (VStr (str_repeat s (Z.to_nat n)))
  | VBytes s, VInt n | VInt n, VBytes s =>
      Ok (VBytes (List.concat (List.repeat s (Z.to_nat n))))
  | _, _ =>
      xy ← float_operands a b;
      Ok (VFloat (SFmul prec emax (fst xy) (snd xy)))
  end.

(** True division: the quotient is a float; a zero divisor raises, and so
    does an int that no double can hold. *)
Definition py_truediv (a b : PyVal) : result PyVal :=
  match a, b with
  | VInt x, VInt y => q ← int_true_divide x y; Ok (VFloat q)
  | _, _ =>
      xy ← float_operands a b;
      if float_is_zero (snd xy) then Raise ZeroDivisionError
      else Ok (VFloat (SFdiv prec emax (fst xy) (snd xy)))
  end.

Fixpoint bytes_compare (a b : list byte) : comparison :=
  match a, b with
  | nil, nil => Eq
  | nil, cons _ _ => Lt
  | cons _ _, nil => Gt
  | cons x a', cons y b' =>
      match (Byte.to_N x ?= Byte.to_N y)%N with
      | Eq => bytes_compare a' b'
      | c => c
      end
  end.

(** The ordering of two objects: exact between numbers, [None] when a NaN
    is involved, lexicographic on text; other pairs are not ordered. *)
Definition py_compare (a b : PyVal) : result (option comparison) :=
  match a, b with
  | VInt x, VInt y => Ok (Some (x ?= y))
  | VInt x, VFloat y => Ok (compare_int_float x y)
  | VFloat x, VInt y => Ok (CompOpp <$> compare_int_float y x)
  | VFloat x, VFloat y => Ok (SFcompare x y)
  | VStr x, VStr y => Ok (Some (String.compare x y))
  | VBytes x, VBytes y => Ok (Some (bytes_compare x y))
  | _, _ => Raise TypeError
  end.

(** [b > a] *)
Definition py_gt (b a : PyVal) : result bool :=
  c ← py_compare b a;
  Ok (match c with
      | Some Gt => true
      | _ => false
      end).

(** [max(a, b)]: the first argument unless the second is strictly greater. *)
Definition py_max (a b : PyVal) : result PyVal :=
  py_gt b a ≫= fun greater : bool => Ok (if greater then b else a).

(** [int(x)] on a number: truncation towards zero; a NaN and an infinity
    raise. *)
Definition int_of_num (v : PyVal) : result Z :=
  match v with
  | VInt z => Ok z
  | VFloat S754_nan => Raise ValueError
  | VFloat (S754_infinity _) => Raise OverflowError
  | VFloat (S754_zero _) => Ok 0
  | VFloat (S754_finite s m e) =>
      let t := if 0 <=? e then Z.pos m * 2 ^ e else Z.pos m / 2 ^ (- e) in
      Ok (if s then - t else t)
  | _ => Raise TypeError
  end.

(** *** Text *)

Definition is_space (c : ascii) : bool :=
  let n := N_of_ascii c in
  ((9 <=? n) && (n <=? 13) || (28 <=? n) && (n <=? 32)
   || (n =? 133) || (n =? 160))%N.

Definition lower_char (c : ascii) : ascii :=
  let n := N_of_ascii c in
  if ((65 <=? n) && (n <=? 90)
      || (192 <=? n) && (n <=? 222) && negb (n =? 215))%N
  then ascii_of_N (n + 32) else c.

(** [s.lower()] *)
Fixpoint lower (s : string) : string :=
  match s with
  | EmptyString => EmptyString
  | String c s' => String (lower_char c) (lower s')
  end.

Definition is_empty (s : string) : bool :=
  match s with
  | EmptyString => true
  | String _ _ => false
  end.

Fixpoint lstrip (s : string) : string :=
  match s with
  | EmptyString => EmptyString
  | String c s' => if is_space c then lstrip s' else s
  end.

Fixpoint rstrip (s : string) : string :=
  match s with
  | EmptyString => EmptyString
  | String c s' =>
      let r := rstrip s' in
      if is_space c && is_empty r then EmptyString else String c r
  end.

(** [s.strip()] *)
Definition strip (s : string) : string := lstrip (rstrip s).

(** [s.replace("\x00", "")] *)
Fixpoint replace_nul (s : string) : string :=
  match s with
  | EmptyString => EmptyString
  | String c s' =>
      if Ascii.eqb c zero then replace_nul s' else String c (replace_nul s')
  end.

(** [str(x).replace("\x00", "").strip()] once [str(x)] is known. *)
Definition clean (s : string) : string := strip (replace_nul s).

Fixpoint startswith (p s : string) : bool :=
  match p, s with
  | EmptyString, _ => true
  | String a p', String b s' => Ascii.eqb a b && startswith p' s'
  | String _ _, EmptyString => false
  end.

(** [m in s] *)
Fixpoint contains (m s : string) : bool :=
  startswith m s ||
  match s with
  | EmptyString => false
  | String _ s' => contains m s'
  end.

(** [s.endswith(t)] *)
Definition endswith (s t : string) : bool :=
  let ls := String.length s in
  let lt := String.length t in
  Nat.leb lt ls && String.eqb (substring (ls - lt) lt s) t.

Fixpoint join (sep : string) (parts : list string) : string :=
  match parts with
  | [] => ""
  | [p] => p
  | p :: ps => p +:+ sep +:+ join sep ps
  end.

Definition hex_digit (n : N) : ascii :=
  match String.get (N.to_nat n) "0123456789abcdef" with
  | Some c => c
  | None => "0"%char
  end.

(** [f"{byte:02x}"] for a byte. *)
Definition format_02x (b : byte) : string :=
  let n := Byte.to_N b in
  String (hex_digit (n / 16)) (String (hex_digit (n mod 16)) "").

(** [len(x)] *)
Definition py_len (v : PyVal) : result nat :=
  match v with
  | VStr s => Ok (String.length s)
  | VBytes bs => Ok (length bs)
  | _ => Raise TypeError
  end.

(** [[f"{byte:02x}" for byte in x[:6]]]: the items of [bytes] are ints, the
    items of a [str] are strings, which the format code [x] rejects. *)
Definition hex_parts (v : PyVal) : result (list string) :=
  match v with
  | VBytes bs => Ok (List.map format_02x (take 6 bs))
  | VStr _ => Raise ValueError
  | _ => Raise TypeError
  end.

End Py.
Export Py.

(** ** [models.py]: the tables the core reads and writes

    Nullable columns the code tests for [None] are options; timestamps are
    integers (clock readings). *)

Module Device.
Record t : Type := mk {
  id : Z;
  hostname : option string;
  ip_address : string;
  snmp_community : option string;
  status : string;
  last_seen : option Z;
  lldp_hostname : option string }.

Definition set_status (st : string) (seen : option Z) (d : t) : t :=
  mk (id d) (hostname d) (ip_address d) (snmp_community d) st seen
     (lldp_hostname d).

Definition set_lldp_hostname (h : string) (d : t) : t :=
  mk (id d) (hostname d) (ip_address d) (snmp_community d) (status d)
     (last_seen d) (Some h).
End Device.

Module Interface.
Record t : Type := mk {
  id : Z;
  device_id : Z;
  interface_name : option string;
  mac_address : option string;
  status : option string;
  speed_bps : option Z }.
End Interface.

Module InterfaceStats.
Record t : Type := mk {
  id : Z;
  interface_id : Z;
  timestamp : Z;
  in_bps : Z;
  out_bps : Z }.
End InterfaceStats.

Module DiscoveredDevice.
Record t : Type := mk {
  id : Z;
  lldp_hostname : string;
  ip_address : option string;
  first_seen : Z;
  last_seen : Z }.

Definition set_last_seen (seen : Z) (d : t) : t :=
  mk (id d) (lldp_hostname d) (ip_address d) (first_seen d) seen.
End DiscoveredDevice.

Module TopologyLink.
Record t : Type := mk {
  id : Z;
  src_device_id : Z;
  src_interface : string;
  dst_device_id : option Z;
  dst_discovered_device_id : option Z;
  dst_hostname : option string;
  dst_interface : string;
  last_seen : Z }.

Definition set_last_seen (seen : Z) (l : t) : t :=
  mk (id l) (src_device_id l) (src_interface l) (dst_device_id l)
     (dst_discovered_device_id l) (dst_hostname l) (dst_interface l) seen.

(** The tuple the poll worker looks a link up by. *)
Definition key (l : t) : Z * string * option Z * option Z * string :=
  (src_device_id l, src_interface l, dst_device_id l,
   dst_discovered_device_id l, dst_interface l).
End TopologyLink.

(** The database: one list of rows per table, in the order a plain
    [select] returns them.  An ORM object is the row at a position. *)
Record Tables : Type := mkTables {
  devices : list Device.t;
  interfaces : list Interface.t;
  interface_stats : list InterfaceStats.t;
  discovered_devices : list DiscoveredDevice.t;
  topology_links : list TopologyLink.t }.

(** The primary key the database gives a new row: above every key in use. *)
Definition fresh_id (ids : list Z) : Z := 1 + foldr Z.max 0 ids.

(** ** [snmp_engine.py]: utility functions *)

Module SnmpEngine.

(** [calc_bps(old, new, interval)] *)
Definition calc_bps_expr (old new interval : PyVal) : result PyVal :=
  d ← py_sub new old;
  m ← py_mul d (VInt 8);
  q ← py_truediv m interval;
  py_max q (VInt 0).

Definition calc_bps (old new interval : PyVal) : PyVal :=
  try_except (calc_bps_expr old new interval) (fun _ => VInt 0).

(** The tail of [format_mac_address]: [mac_bytes] to colon-separated hex. *)
Definition mac_bytes_to_hex (mac_bytes : PyVal) : result (option string) :=
  n ← py_len mac_bytes;
  if Nat.leb 6 n then
    parts ← hex_parts mac_bytes;
    Ok (Some (join ":" parts))
  else Ok None.

Definition format_mac_body (mac_value : PyVal) : result (option string) :=
  match mac_value with
  | VStr s =>
      let mac_value := clean s in
      if is_empty mac_value then Ok None
      else if contains ":" mac_value then Ok (Some mac_value)
      else mac_bytes_to_hex (VBytes (list_byte_of_string mac_value))
  | _ => mac_bytes_to_hex mac_value
  end.

(** [format_mac_address(mac_value)]: [None] for a falsy argument, and for
    every exception of the body (logged as a warning). *)
Definition format_mac_address (mac_value : PyVal) : option string :=
  if negb (truthy mac_value) then None
  else try_except (format_mac_body mac_value) (fun _ => None).

(** [oid_index(oid_string)]: the text after the last dot. *)
Fixpoint oid_index (oid_string : string) : string :=
  match oid_string with
  | EmptyString => EmptyString
  | String c s' =>
      if contains "." s' then oid_index s'
      else if Ascii.eqb c "."%char then s' else oid_string
  end.

(** *** SNMP object identifiers *)

Definition IF_DESCR_OID : string := "1.3.6.1.2.1.2.2.1.2".
Definition IF_OPER_STATUS_OID : string := "1.3.6.1.2.1.2.2.1.8".
Definition IF_IN_OCTETS_OID : string := "1.3.6.1.2.1.2.2.1.10".
Definition IF_OUT_OCTETS_OID : string := "1.3.6.1.2.1.2.2.1.16".
Definition IF_MAC_OID : string := "1.3.6.1.2.1.2.2.1.6".
Definition LLDP_REM_SYS_NAME : string := "1.0.8802.1.1.2.1.4.1.1.9".
Definition LLDP_REM_PORT_DESC : string := "1.0.8802.1.1.2.1.4.1.1.8".
Definition LLDP_REM_MAN_ADDR : string := "1.0.8802.1.1.2.1.4.2.1.4".

(** [f"{oid}.{index}"] *)
Definition oid_key (oid index : string) : string := oid +:+ "." +:+ index.

(** *** Walk results

    What [snmp_walk] returns: [None] on failure, else the dict of the walk,
    given by its items in insertion order. *)
Definition Walk : Type := option (list (string * PyVal)).

Definition items (w : Walk) : list (string * PyVal) := default [] w.

(** [if w] / [not w]: [None] and the empty dict are both falsy. *)
Definition dict_truthy (w : Walk) : bool :=
  match w with
  | Some (_ :: _) => true
  | _ => false
  end.

(** [w.get(k)] *)
Definition dict_get (w : Walk) (k : string) : option PyVal :=
  snd <$> List.find (fun kv => String.eqb (fst kv) k) (items w).

(** *** [snmp_walk]

    [results[key] = value] on the items of a dict: a key that is bound
    keeps its place and takes the new value. *)
Fixpoint dict_set (key : string) (value : PyVal)
  (results : list (string * PyVal)) : list (string * PyVal) :=
  match results with
  | [] => [(key, value)]
  | (k, v) :: rest =>
      if String.eqb k key then (k, value) :: rest
      else (k, v) :: dict_set key value rest
  end.

(** One element of the list the iterator gives: whether the error
    indication and the error status are truthy, and the var-binds with
    [str(oid_val)] taken. *)
Record WalkResponse : Type := mkWalkResponse {
  errInd : bool;
  errStat : bool;
  varBinds : list (string * PyVal) }.

(** [for errInd, errStat, errIdx, varBinds in walk_results: ...] *)
Fixpoint collect_walk (walk_results : list WalkResponse)
  (results : list (string * PyVal)) : Walk :=
  match walk_results with
  | [] => Some results
  | r :: rest =>
      if errInd r || errStat r then None
      else collect_walk rest
             (foldl (fun results '(oid_val, value) =>
                       dict_set oid_val value results)
                    results (varBinds r))
  end.

(** [snmp_walk(target, oid, community)], given what [run_walk] does: it
    raises ([None]) or returns the responses. *)
Definition snmp_walk (run_walk : option (list WalkResponse)) : Walk :=
  match run_walk with
  | None => None
  | Some walk_results => collect_walk walk_results []
  end.

(** The answers of one device to the eight walks of a cycle. *)
Record Walks : Type := mkWalks {
  if_descr : Walk;
  if_oper : Walk;
  if_in : Walk;
  if_out : Walk;
  if_mac : Walk;
  sysnames : Walk;
  portdesc : Walk;
  manaddr : Walk }.

Record Neighbor : Type := mkNeighbor {
  neighbor_name : string;
  neighbor_ip : string;
  neighbor_iface : string }.

(** The [device_info] dict handed to a worker. *)
Module DeviceInfo.
Record t : Type := mk {
  id : Z;
  hostname : option string;
  ip_address : string;
  snmp_community : option string }.
End DeviceInfo.

(** *** The session of one worker

    The tables as the open session sees them (pending rows included: the
    session autoflushes before each query), the local dict
    [existing_ifaces], whose values are references to rows, and the number
    of clock readings taken so far. *)
Record PollState : Type := mkPollState {
  session : Tables;
  existing_ifaces : gmap string nat;
  clock_reads : nat }.

Definition M (A : Type) : Type := PollState -> result A * PollState.

#[global] Instance M_ret : MRet M := fun A a s => (Ok a, s).
#[global] Instance M_bind : MBind M := fun A B f m s =>
  match m s with
  | (Ok a, s') => f a s'
  | (Raise e, s') => (Raise e, s')
  end.

Definition lift {A} (r : result A) : M A := fun s => (r, s).
Definition raise {A} (e : exn) : M A := fun s => (Raise e, s).
Definition get_session : M Tables := fun s => (Ok (session s), s).
Definition modify_session (f : Tables -> Tables) : M unit := fun s =>
  (Ok tt, mkPollState (f (session s)) (existing_ifaces s) (clock_reads s)).
Definition get_existing : M (gmap string nat) :=
  fun s => (Ok (existing_ifaces s), s).
Definition set_existing (name : string) (ref : nat) : M unit := fun s =>
  (Ok tt, mkPollState (session s) (<[name := ref]> (existing_ifaces s))
                      (clock_reads s)).

(** Reading a name that neither the function nor the module binds. *)
Definition unbound_name {A} (name : string) : M A := raise (NameError name).

(** [try: body except Exception: log] around one loop iteration: the writes
    made before the exception stay in the session. *)
Definition run_logged (body : M unit) (s : PollState) : PollState :=
  snd (body s).

Definition with_devices (f : list Device.t -> list Device.t) (t : Tables)
  : Tables :=
  mkTables (f (devices t)) (interfaces t) (interface_stats t)
           (discovered_devices t) (topology_links t).
Definition with_interfaces (f : list Interface.t -> list Interface.t)
  (t : Tables) : Tables :=
  mkTables (devices t) (f (interfaces t)) (interface_stats t)
           (discovered_devices t) (topology_links t).
Definition with_interface_stats
  (f : list InterfaceStats.t -> list InterfaceStats.t) (t : Tables) : Tables :=
  mkTables (devices t) (interfaces t) (f (interface_stats t))
           (discovered_devices t) (topology_links t).
Definition with_discovered_devices
  (f : list DiscoveredDevice.t -> list DiscoveredDevice.t) (t : Tables)
  : Tables :=
  mkTables (devices t) (interfaces t) (interface_stats t)
           (f (discovered_devices t)) (topology_links t).
Definition with_topology_links
  (f : list TopologyLink.t -> list TopologyLink.t) (t : Tables) : Tables :=
  mkTables (devices t) (interfaces t) (interface_stats t)
           (discovered_devices t) (f (topology_links t)).

(** [existing_ifaces = {(i.interface_name or "").strip(): i for i in rows}]
    over the rows of the polled device; a later row replaces an earlier one
    under the same key. *)
Definition iface_key (i : Interface.t) : string :=
  strip (default "" (Interface.interface_name i)).

Fixpoint index_ifaces (device_id : Z) (rows : list Interface.t) (pos : nat)
  (m : gmap string nat) : gmap string nat :=
  match rows with
  | [] => m
  | i :: rest =>
      index_ifaces device_id rest (S pos)
        (if decide (Interface.device_id i = device_id)
         then <[iface_key i := pos]> m else m)
  end.

Section Poll.

(** [str(x)] and [int(x)] on the value objects of a walk belong to pysnmp;
    the worker is modelled for any behaviour of the two. *)
Variable py_str : PyVal -> string.
Variable py_int : PyVal -> result Z.

(** [datetime.utcnow()]: the n-th reading of the clock during one worker. *)
Variable clock : nat -> Z.

Definition utcnow : M Z := fun s =>
  (Ok (clock (clock_reads s)),
   mkPollState (session s) (existing_ifaces s) (S (clock_reads s))).

(** [str(w.get(key, "")).replace("\x00", "").strip()] *)
Definition get_clean (w : Walk) (key : string) : string :=
  clean (match dict_get w key with
         | Some v => py_str v
         | None => ""
         end).

(** [get_lldp_neighbors]: the three walks merged by index suffix. *)
Definition get_lldp_neighbors (sysnames portdesc manaddr : Walk)
  : gmap string Neighbor :=
  if negb (dict_truthy sysnames) then ∅
  else
    foldl (fun neighbors '(oid, sysname) =>
             let index := oid_index oid in
             let neighbor_name := clean (py_str sysname) in
             let neighbor_ip :=
               if dict_truthy manaddr
               then get_clean manaddr (oid_key LLDP_REM_MAN_ADDR index)
               else "" in
             let neighbor_iface :=
               if dict_truthy portdesc
               then get_clean portdesc (oid_key LLDP_REM_PORT_DESC index)
               else "" in
             <[index := mkNeighbor neighbor_name neighbor_ip neighbor_iface]>
               neighbors)
          ∅ (items sysnames).

(** [int(w.get(key, 0)) if w else 0] *)
Definition get_int_or_zero (w : Walk) (key : string) : result Z :=
  if dict_truthy w then
    match dict_get w key with
    | Some v => py_int v
    | None => Ok 0
    end
  else Ok 0.

(** [int(octets * 8 / interval)] *)
Definition octets_to_bps (octets : Z) (interval : PyVal) : result Z :=
  q ← py_truediv (VInt (octets * 8)) interval;
  int_of_num q.

(** [int(calc_bps(0, in_oct, interval)) if in_oct else None] *)
Definition derive_speed_bps (in_oct : Z) (interval : PyVal)
  : result (option Z) :=
  if in_oct =? 0 then Ok None
  else
    z ← int_of_num (calc_bps (VInt 0) (VInt in_oct) interval);
    Ok (Some z).

Definition nonempty (s : string) : bool := negb (is_empty s).

(** [if x] for an object reference or [None]. *)
Definition is_some {A} (o : option A) : bool :=
  match o with
  | Some _ => true
  | None => false
  end.

(** [intf.id] for the row a reference points at. *)
Definition interface_id_at (t : Tables) (ref : nat) : Z :=
  from_option Interface.id 0 (interfaces t !! ref).

(** "Find or create interface ORM row": the reference to the row. *)
Definition upsert_interface (device_id : Z) (name oper_status : string)
  (mac : option string) (speed_bps : option Z) : M nat :=
  existing ← get_existing;
  match existing !! name with
  | Some intf =>
      modify_session (with_interfaces (alter (fun i =>
        Interface.mk (Interface.id i) (Interface.device_id i)
          (Interface.interface_name i)
          (match mac with
           | Some m => if nonempty m then mac else Interface.mac_address i
           | None => Interface.mac_address i
           end)
          (Some oper_status)
          (match speed_bps with
           | Some _ => speed_bps
           | None => Interface.speed_bps i
           end)) intf));;
      mret intf
  | None =>
      t ← get_session;
      let intf := length (interfaces t) in
      let row :=
        Interface.mk (fresh_id (Interface.id <$> interfaces t)) device_id
          (Some name)
          (match mac with
           | Some m => if nonempty m then mac else None
           | None => None
           end)
          (Some oper_status) speed_bps in
      modify_session (with_interfaces (fun rows => rows ++ [row]));;
      set_existing name intf;;
      mret intf
  end.

(** "Insert interface stats" *)
Definition add_stats (intf : nat) (in_bps out_bps : Z) : M unit :=
  t ← get_session;
  now ← utcnow;
  modify_session (with_interface_stats (fun rows => rows ++
    [InterfaceStats.mk (fresh_id (InterfaceStats.id <$> rows))
       (interface_id_at t intf) now in_bps out_bps])).

(** The lookup-then-insert of one link towards a resolved neighbour. *)
Definition upsert_link (device_id : Z) (name : string)
  (dst_device_id dst_discovered_device_id : option Z)
  (same_dst : TopologyLink.t -> Prop) `{!forall l, Decision (same_dst l)}
  (info : Neighbor) : M unit :=
  t ← get_session;
  now ← utcnow;
  match list_find (fun l => TopologyLink.src_device_id l = device_id
                            /\ TopologyLink.src_interface l = name
                            /\ same_dst l
                            /\ TopologyLink.dst_interface l
                               = neighbor_iface info)
                  (topology_links t) with
  | Some (link, _) =>
      modify_session (with_topology_links
                        (alter (TopologyLink.set_last_seen now) link))
  | None =>
      modify_session (with_topology_links (fun rows => rows ++
        [TopologyLink.mk (fresh_id (TopologyLink.id <$> rows)) device_id name
           dst_device_id dst_discovered_device_id
           (Some (neighbor_name info)) (neighbor_iface info) now]))
  end.

(** "Fallback: store link with hostname only": a plain insert. *)
Definition add_fallback_link (device_id : Z) (name : string) (info : Neighbor)
  : M unit :=
  now ← utcnow;
  modify_session (with_topology_links (fun rows => rows ++
    [TopologyLink.mk (fresh_id (TopologyLink.id <$> rows)) device_id name
       None None (Some (neighbor_name info)) (neighbor_iface info) now])).

(** "If neighbor not a managed device, try to find or create a
    DiscoveredDevice record", followed by the update of the source device's
    [lldp_hostname], which reads the name [device]: no parameter, local or
    module-level binding of [poll_device] has that name. *)
Definition find_or_create_discovered (info : Neighbor) : M nat :=
  t ← get_session;
  discovered_device ←
    match list_find (fun d => DiscoveredDevice.lldp_hostname d
                              = neighbor_name info)
                    (discovered_devices t) with
    | Some (found, _) =>
        now ← utcnow;
        modify_session (with_discovered_devices
                          (alter (DiscoveredDevice.set_last_seen now) found));;
        mret found
    | None =>
        first_seen ← utcnow;
        last_seen ← utcnow;
        modify_session (with_discovered_devices (fun rows => rows ++
          [DiscoveredDevice.mk (fresh_id (DiscoveredDevice.id <$> rows))
             (neighbor_name info)
             (if nonempty (neighbor_ip info) then Some (neighbor_ip info)
              else None)
             first_seen last_seen]));;
        mret (length (discovered_devices t))
    end;
  device ← unbound_name "device";
  modify_session (with_devices (alter (fun d =>
    match Device.lldp_hostname d with
    | Some h => if nonempty h then d
                else Device.set_lldp_hostname (neighbor_name info) d
    | None => Device.set_lldp_hostname (neighbor_name info) d
    end) device));;
  mret discovered_device.

(** "Process LLDP neighbor for this index" *)
Definition process_neighbor (device_id : Z) (name : string) (info : Neighbor)
  : M unit :=
  t ← get_session;
  let neighbor_device :=
    if nonempty (neighbor_ip info)
    then snd <$> list_find (fun d => Device.ip_address d = neighbor_ip info)
                           (devices t)
    else None in
  discovered_device ←
    (if negb (is_some neighbor_device) && nonempty (neighbor_name info)
     then dd ← find_or_create_discovered info; mret (Some dd)
     else mret None);
  if is_some neighbor_device || is_some discovered_device
     || nonempty (neighbor_ip info) || nonempty (neighbor_name info)
  then
    match neighbor_device with
    | Some nd =>
        upsert_link device_id name (Some (Device.id nd)) None
          (fun l => TopologyLink.dst_device_id l = Some (Device.id nd)) info
    | None =>
        match discovered_device with
        | Some dd =>
            t' ← get_session;
            let dd_id :=
              from_option DiscoveredDevice.id 0
                          (discovered_devices t' !! dd) in
            upsert_link device_id name None (Some dd_id)
              (fun l => TopologyLink.dst_discovered_device_id l = Some dd_id)
              info
        | None => add_fallback_link device_id name info
        end
    end
  else mret tt.

(** What one iteration computes from the walks before it touches the
    session. *)
Record Decoded : Type := mkDecoded {
  dec_name : string;
  dec_index : string;
  dec_oper_status : string;
  dec_mac : option string;
  dec_in_bps : Z;
  dec_out_bps : Z;
  dec_speed_bps : option Z }.

Definition decode_interface (interval : PyVal) (w : Walks)
  (full_oid : string) (name_val : PyVal) : result Decoded :=
  let name := clean (py_str name_val) in
  let index := oid_index full_oid in
  let oper_raw :=
    if dict_truthy (if_oper w)
    then dict_get (if_oper w) (oid_key IF_OPER_STATUS_OID index)
    else None in
  oper_status_val ← match oper_raw with
                    | None | Some VNone => Ok 2
                    | Some v => py_int v
                    end;
  let oper_status := if oper_status_val =? 1 then "up" else "down" in
  in_oct ← get_int_or_zero (if_in w) (oid_key IF_IN_OCTETS_OID index);
  out_oct ← get_int_or_zero (if_out w) (oid_key IF_OUT_OCTETS_OID index);
  let mac_raw :=
    if dict_truthy (if_mac w)
    then dict_get (if_mac w) (oid_key IF_MAC_OID index)
    else None in
  let mac :=
    match mac_raw with
    | Some v => if truthy v then format_mac_address v else None
    | None => None
    end in
  in_bps ← octets_to_bps in_oct interval;
  out_bps ← octets_to_bps out_oct interval;
  speed_bps ← derive_speed_bps in_oct interval;
  Ok (mkDecoded name index oper_status mac in_bps out_bps speed_bps).

(** One iteration of "iterate ifDescr results", inside its [try]. *)
Definition process_interface (device_id : Z) (interval : PyVal) (w : Walks)
  (neighbors : gmap string Neighbor) (full_oid : string) (name_val : PyVal)
  : M unit :=
  d ← lift (decode_interface interval w full_oid name_val);
  intf ← upsert_interface device_id (dec_name d) (dec_oper_status d)
                          (dec_mac d) (dec_speed_bps d);
  add_stats intf (dec_in_bps d) (dec_out_bps d);;
  match neighbors !! dec_index d with
  | Some neighbor_info => process_neighbor device_id (dec_name d) neighbor_info
  | None => mret tt
  end.

(** [db_dev.status = ...; db_dev.last_seen = ...] on the first row
    [select(Device).where(Device.id == device_id)] returns, if any. *)
Definition mark_device (device_id : Z) (st : string) (seen : option Z)
  (rows : list Device.t) : list Device.t :=
  match list_find (fun d => Device.id d = device_id) rows with
  | Some (db_dev, _) => alter (Device.set_status st seen) db_dev rows
  | None => rows
  end.

(** The per-interface loop over the items of the description walk. *)
Definition poll_loop (device_id : Z) (interval : PyVal) (w : Walks)
  (neighbors : gmap string Neighbor) (s : PollState) : PollState :=
  foldl (fun s '(full_oid, name_val) =>
           run_logged (process_interface device_id interval w neighbors
                                         full_oid name_val) s)
        s (items (if_descr w)).

(** "Update device status in DB" after the loop. *)
Definition mark_up (device_id : Z) : M unit :=
  t ← get_session;
  match list_find (fun d => Device.id d = device_id) (devices t) with
  | Some _ =>
      now ← utcnow;
      modify_session (with_devices (mark_device device_id "up" (Some now)))
  | None => mret tt
  end.

(** [poll_device(device_info, interval)] as a function of the tables before
    the call, of the device's answers and of whether the commit succeeds
    (a failed commit is rolled back). *)
Definition poll_device (device_info : DeviceInfo.t) (interval : PyVal)
  (w : Walks) (commit_ok : bool) (db : Tables) : Tables :=
  let target := DeviceInfo.ip_address device_info in
  let device_id := DeviceInfo.id device_info in
  if is_empty target then db
  else if negb (dict_truthy (if_descr w)) then
    match list_find (fun d => Device.id d = device_id) (devices db) with
    | Some _ =>
        if commit_ok
        then with_devices (mark_device device_id "down" None) db
        else db
    | None => db
    end
  else
    let neighbors :=
      get_lldp_neighbors (sysnames w) (portdesc w) (manaddr w) in
    let s0 :=
      mkPollState db (index_ifaces device_id (interfaces db) 0 ∅) 0 in
    let s1 := poll_loop device_id interval w neighbors s0 in
    let s2 := run_logged (mark_up device_id) s1 in
    if commit_ok then session s2 else db.

End Poll.

(** *** [poll_all_devices]: one cycle of the scheduler *)

(** [async_ping(host)]: no host, no probe; else whether one of the TCP
    connects (ports 161, 22) succeeds. *)
Definition async_ping (host : string) (connects : bool) : bool :=
  nonempty host && connects.

(** "build simple device_info dicts" *)
Definition device_infos (db : Tables) : list DeviceInfo.t :=
  (fun d => DeviceInfo.mk (Device.id d) (Device.hostname d)
              (Device.ip_address d) (Device.snmp_community d))
  <$> devices db.

(** [ping_worker(info)], given the outcome of the connects. *)
Definition ping_worker (info : DeviceInfo.t) (connects : bool)
  : Z * string * bool :=
  (DeviceInfo.id info, DeviceInfo.ip_address info,
   async_ping (DeviceInfo.ip_address info) connects).

Fixpoint for_each {A} (body : A -> M unit) (l : list A) : M unit :=
  match l with
  | [] => mret tt
  | x :: rest => body x;; for_each body rest
  end.

Section Scheduler.

Variable py_str : PyVal -> string.
Variable py_int : PyVal -> result Z.

(** "Update DB statuses based on ping results": one result. *)
Definition apply_ping (clock : nat -> Z) (r : Z * string * bool) : M unit :=
  let '(dev_id, _, ok) := r in
  t ← get_session;
  match list_find (fun d => Device.id d = dev_id) (devices t) with
  | Some _ =>
      if ok then
        now ← utcnow clock;
        modify_session (with_devices (mark_device dev_id "up" (Some now)))
      else modify_session (with_devices (mark_device dev_id "down" None))
  | None => mret tt
  end.

(** Phase A: every result applied in one session and committed; anything
    that fails rolls the whole batch back. *)
Definition reachability_phase (clock : nat -> Z)
  (ping_results : list (Z * string * bool)) (commit_ok : bool) (db : Tables)
  : Tables :=
  match for_each (apply_ping clock) ping_results (mkPollState db ∅ 0) with
  | (Ok _, s) => if commit_ok then session s else db
  | (Raise _, _) => db
  end.

(** "quick check: if DB says down, skip SNMP poll" *)
Definition says_down (db : Tables) (dev_id : Z) : bool :=
  match list_find (fun d => Device.id d = dev_id) (devices db) with
  | Some (_, db_dev) => String.eqb (Device.status db_dev) "down"
  | None => false
  end.

(** Phase B.  Each [sem_task] first enters [async with sem], then reads the
    status, then either returns or awaits [poll_device]; leaving the block
    gives the slot back.  The status read and the poll are inside
    [try: ... except Exception], so either may raise: the exception is
    logged and the task ends.  Tasks interleave at their awaits, so a cycle
    is a sequence of such steps in any order; a worker's transaction is
    taken as one step at its commit, and a poll that raises has committed
    its transaction or not. *)
Inductive task : Type :=
| Waiting    (* before [async with sem] *)
| Holding    (* inside [async with sem], status not read yet *)
| Polling    (* inside [async with sem], in [poll_device] *)
| Skipped    (* returned without polling *)
| Polled     (* [poll_device] returned *)
| ReadFailed (* the status read raised: logged, no poll *)
| PollFailed. (* [poll_device] raised: logged *)

#[global] Instance task_eq_dec : EqDecision task.
Proof. solve_decision. Defined.

Definition max_concurrency : nat := 20.

Definition holds_slot (t : task) : bool :=
  match t with
  | Holding | Polling => true
  | _ => false
  end.

Definition slots_in_use (tasks : list task) : nat :=
  length (List.filter holds_slot tasks).

Record Sweep : Type := mkSweep {
  sweep_db : Tables;
  sweep_tasks : list task }.

Inductive sweep_step (infos : list DeviceInfo.t) (interval : PyVal)
  : Sweep -> Sweep -> Prop :=
| step_acquire s i :
    sweep_tasks s !! i = Some Waiting ->
    (slots_in_use (sweep_tasks s) < max_concurrency)%nat ->
    sweep_step infos interval s
      (mkSweep (sweep_db s) (<[i := Holding]> (sweep_tasks s)))
| step_skip s i info :
    sweep_tasks s !! i = Some Holding ->
    infos !! i = Some info ->
    says_down (sweep_db s) (DeviceInfo.id info) = true ->
    sweep_step infos interval s
      (mkSweep (sweep_db s) (<[i := Skipped]> (sweep_tasks s)))
| step_start s i info :
    sweep_tasks s !! i = Some Holding ->
    infos !! i = Some info ->
    says_down (sweep_db s) (DeviceInfo.id info) = false ->
    sweep_step infos interval s
      (mkSweep (sweep_db s) (<[i := Polling]> (sweep_tasks s)))
| step_finish s i info clock w commit_ok :
    sweep_tasks s !! i = Some Polling ->
    infos !! i = Some info ->
    sweep_step infos interval s
      (mkSweep (poll_device py_str py_int clock info interval w commit_ok
                            (sweep_db s))
               (<[i := Polled]> (sweep_tasks s)))
| step_read_raises s i :
    sweep_tasks s !! i = Some Holding ->
    sweep_step infos interval s
      (mkSweep (sweep_db s) (<[i := ReadFailed]> (sweep_tasks s)))
| step_poll_raises s i info clock w commit_ok :
    sweep_tasks s !! i = Some Polling ->
    infos !! i = Some info ->
    sweep_step infos interval s
      (mkSweep (poll_device py_str py_int clock info interval w commit_ok
                            (sweep_db s))
               (<[i := PollFailed]> (sweep_tasks s))).

(** The states one cycle can reach: phase A, then any number of steps of
    phase B from all tasks waiting. *)
Definition sweep_start (db_a : Tables) (infos : list DeviceInfo.t) : Sweep :=
  mkSweep db_a (replicate (length infos) Waiting).

Definition cycle_reaches (clock_a : nat -> Z) (connects : nat -> bool)
  (commit_ok_a : bool) (interval : PyVal) (db : Tables) (s : Sweep) : Prop :=
  let infos := device_infos db in
  let ping_results :=
    imap (fun i info => ping_worker info (connects i)) infos in
  let db_a := reachability_phase clock_a ping_results commit_ok_a db in
  rtc (sweep_step infos interval) (sweep_start db_a infos) s.

End Scheduler.
End SnmpEngine.

(** ** [routers/topology.py]: the backfill end point *)

Module Topology.
Import SnmpEngine.

Definition is_digit (c : ascii) : bool :=
  let n := N_of_ascii c in ((48 <=? n) && (n <=? 57))%N.

Definition is_hex (c : ascii) : bool :=
  let n := N_of_ascii c in
  ((48 <=? n) && (n <=? 57) || (65 <=? n) && (n <=? 70)
   || (97 <=? n) && (n <=? 102))%N.

Fixpoint str_forallb (p : ascii -> bool) (s : string) : bool :=
  match s with
  | EmptyString => true
  | String c s' => p c && str_forallb p s'
  end.

Fixpoint str_filter (p : ascii -> bool) (s : string) : string :=
  match s with
  | EmptyString => EmptyString
  | String c s' => if p c then String c (str_filter p s') else str_filter p s'
  end.

Fixpoint str_drop (n : nat) (s : string) : string :=
  match n, s with
  | O, _ => s
  | S n', String _ s' => str_drop n' s'
  | S _, EmptyString => EmptyString
  end.

(** Exactly [n] characters of class [p], then the rest of the pattern. *)
Definition exactly (n : nat) (p : ascii -> bool)
  (k : string -> option string) (s : string) : option string :=
  let head := substring 0 n s in
  if Nat.eqb (String.length head) n && str_forallb p head
  then (fun rest => head +:+ rest) <$> k (str_drop n s)
  else None.

(** [\d{1,3}]: greedy, giving digits back while the rest fails. *)
Definition digits_1_3 (k : string -> option string) (s : string)
  : option string :=
  match exactly 3 is_digit k s with
  | Some m => Some m
  | None =>
      match exactly 2 is_digit k s with
      | Some m => Some m
      | None => exactly 1 is_digit k s
      end
  end.

(** [\.] *)
Definition dot (k : string -> option string) (s : string) : option string :=
  match s with
  | String c s' => if Ascii.eqb c "."%char then String c <$> k s' else None
  | EmptyString => None
  end.

Definition match_end (_ : string) : option string := Some "".

(** [(\d{1,3}(?:\.\d{1,3}){3})] anchored at the start of [s]. *)
Definition match_ip_at : string -> option string :=
  digits_1_3 (dot (digits_1_3 (dot (digits_1_3 (dot
    (digits_1_3 match_end)))))).

(** [re.search(pattern, s).group(1)]: the leftmost match, if any. *)
Fixpoint re_search (match_at : string -> option string) (s : string)
  : option string :=
  match match_at s with
  | Some m => Some m
  | None =>
      match s with
      | EmptyString => None
      | String _ s' => re_search match_at s'
      end
  end.

(** [([0-9A-Fa-f]{12})] anchored at the start of [s]. *)
Definition match_hex12_at : string -> option string :=
  exactly 12 is_hex match_end.

(** [normalize_mac(s)] *)
Definition normalize_mac (s : option string) : string :=
  match s with
  | Some s => lower (str_filter is_hex s)
  | None => ""
  end.

(** [dst_name.split(".", 1)[0]] *)
Fixpoint before_first_dot (s : string) : string :=
  match s with
  | EmptyString => EmptyString
  | String c s' =>
      if Ascii.eqb c "."%char then EmptyString
      else String c (before_first_dot s')
  end.

(** [d.hostname and d.hostname.lower() == name.lower()] *)
Definition hostname_is (name : string) (d : Device.t) : bool :=
  match Device.hostname d with
  | Some h => nonempty h && String.eqb (lower h) (lower name)
  | None => false
  end.

(** "Skip obvious non-device strings" *)
Definition is_non_device (dst_name : string) : bool :=
  nonempty dst_name
  && (contains "adapter" (lower dst_name)
      || contains "fw_version" (lower dst_name)
      || contains "firmware" (lower dst_name)).

(** The two loop variables of the matcher. *)
Record Candidate : Type := mkCandidate {
  candidate : option Device.t;
  candidate_reason : option string }.

Definition no_candidate : Candidate := mkCandidate None None.

Definition has_candidate (c : Candidate) : bool := is_some (candidate c).

(** "1) exact hostname match (case-insensitive)" *)
Definition try_exact (all_devices : list Device.t) (dst_name : string)
  (c : Candidate) : Candidate :=
  if nonempty dst_name then
    match List.find (hostname_is dst_name) all_devices with
    | Some d => mkCandidate (Some d) (Some "exact")
    | None => c
    end
  else c.

(** "2) short hostname (prefix before first dot)" *)
Definition try_short (all_devices : list Device.t) (dst_name : string)
  (c : Candidate) : Candidate :=
  if negb (has_candidate c) && nonempty dst_name && contains "." dst_name
  then
    let short := before_first_dot dst_name in
    match List.find (hostname_is short) all_devices with
    | Some d => mkCandidate (Some d) (Some "short")
    | None => c
    end
  else c.

(** The loop of strategy 3; [d.hostname.lower()] on a missing hostname
    raises. *)
Fixpoint scan_contains (dst_name : string) (ds : list Device.t)
  (c : Candidate) : result Candidate :=
  match ds with
  | [] => Ok c
  | d :: rest =>
      match Device.hostname d with
      | Some h =>
          if nonempty h && contains (lower h) (lower dst_name)
          then Ok (mkCandidate (Some d) (Some "contains_dst"))
          else if contains (lower dst_name) (lower h)
          then Ok (mkCandidate (Some d) (Some "contains_dev"))
          else scan_contains dst_name rest c
      | None => Raise AttributeError
      end
  end.

(** "3) substring contains hostname (case-insensitive)" *)
Definition try_contains (all_devices : list Device.t) (dst_name : string)
  (c : Candidate) : result Candidate :=
  if negb (has_candidate c) && nonempty dst_name
  then scan_contains dst_name all_devices c
  else Ok c.

(** "4) IP inside dst_name" *)
Definition try_ip (all_devices : list Device.t) (dst_name : string)
  (c : Candidate) : Candidate :=
  if negb (has_candidate c) && nonempty dst_name then
    match re_search match_ip_at dst_name with
    | Some ip =>
        match List.find (fun d => nonempty (Device.ip_address d)
                                  && String.eqb (Device.ip_address d) ip)
                        all_devices with
        | Some d => mkCandidate (Some d) (Some ("ip:" +:+ ip))
        | None => c
        end
    | None => c
    end
  else c.

(** [session.get(Device, pk)] *)
Definition session_get_device (db : Tables) (pk : Z) : option Device.t :=
  List.find (fun d => Device.id d =? pk) (devices db).

(** "5) 12-hex MAC-like inside dst_name -> match against interface macs" *)
Definition try_mac (db : Tables) (all_ifaces : list Interface.t)
  (dst_name : string) (c : Candidate) : Candidate :=
  if negb (has_candidate c) && nonempty dst_name then
    match re_search match_hex12_at dst_name with
    | Some m =>
        let hexstr := lower m in
        match List.find (fun iface =>
                 let mac_norm := normalize_mac (Interface.mac_address iface) in
                 endswith mac_norm hexstr || String.eqb mac_norm hexstr)
               all_ifaces with
        | Some iface =>
            mkCandidate (session_get_device db (Interface.device_id iface))
                        (Some ("mac:" +:+ hexstr))
        | None => c
        end
    | None => c
    end
  else c.

(** The body of the loop for one link, up to [if candidate:]; [None] is the
    [continue] of the skip. *)
Definition match_link (db : Tables) (all_devices : list Device.t)
  (all_ifaces : list Interface.t) (link : TopologyLink.t)
  : result (option Candidate) :=
  let dst_name := strip (default "" (TopologyLink.dst_hostname link)) in
  if is_non_device dst_name then Ok None
  else
    let c := try_exact all_devices dst_name no_candidate in
    let c := try_short all_devices dst_name c in
    c ← try_contains all_devices dst_name c;
    let c := try_ip all_devices dst_name c in
    let c := try_mac db all_ifaces dst_name c in
    Ok (Some c).

Module Suggestion.
Record t : Type := mk {
  link_id : Z;
  src_device_id : Z;
  src_interface : string;
  dst_hostname : option string;
  matched_device_id : Z;
  matched_device_hostname : option string;
  reason : option string }.
End Suggestion.

(** The JSON body of the answer. *)
Record Response : Type := mkResponse {
  processed : Z;
  updated : Z;
  suggestions : list Suggestion.t }.

(** The session's link rows and the three accumulators of the loop. *)
Record Backfill : Type := mkBackfill {
  bf_links : list TopologyLink.t;
  bf_processed : Z;
  bf_updated : Z;
  bf_suggestions : list Suggestion.t }.

(** "fetch links missing dst_device_id": the rows with their references. *)
Definition unresolved (db : Tables) : list (nat * TopologyLink.t) :=
  List.filter (fun pl => negb (is_some (TopologyLink.dst_device_id (snd pl))))
              (imap pair (topology_links db)).

(** [links[:limit]] under [if limit and limit > 0] *)
Definition cap (limit : Z) (links : list (nat * TopologyLink.t))
  : list (nat * TopologyLink.t) :=
  if negb (limit =? 0) && (0 <? limit) then take (Z.to_nat limit) links
  else links.

(** [candidate.hostname or link.dst_hostname] *)
Definition hostname_or (h fallback : option string) : option string :=
  match h with
  | Some s => if nonempty s then h else fallback
  | None => fallback
  end.

(** One iteration of [for link in links]. *)
Definition backfill_one (dry_run : bool) (db : Tables)
  (all_devices : list Device.t) (all_ifaces : list Interface.t)
  (st : Backfill) (pl : nat * TopologyLink.t) : result Backfill :=
  let '(ref, link) := pl in
  let st := mkBackfill (bf_links st) (bf_processed st + 1) (bf_updated st)
                       (bf_suggestions st) in
  m ← match_link db all_devices all_ifaces link;
  match m with
  | Some (mkCandidate (Some cand) candidate_reason) =>
      let suggestion :=
        Suggestion.mk (TopologyLink.id link) (TopologyLink.src_device_id link)
          (TopologyLink.src_interface link) (TopologyLink.dst_hostname link)
          (Device.id cand) (Device.hostname cand) candidate_reason in
      let st := mkBackfill (bf_links st) (bf_processed st) (bf_updated st)
                           (bf_suggestions st ++ [suggestion]) in
      if dry_run then Ok st
      else
        let link' :=
          TopologyLink.mk (TopologyLink.id link)
            (TopologyLink.src_device_id link) (TopologyLink.src_interface link)
            (Some (Device.id cand))
            (TopologyLink.dst_discovered_device_id link)
            (hostname_or (Device.hostname cand)
                         (TopologyLink.dst_hostname link))
            (TopologyLink.dst_interface link) (TopologyLink.last_seen link) in
        Ok (mkBackfill (<[ref := link']> (bf_links st)) (bf_processed st)
                       (bf_updated st + 1) (bf_suggestions st))
  | _ => Ok st
  end.

Fixpoint backfill_loop (dry_run : bool) (db : Tables)
  (all_devices : list Device.t) (all_ifaces : list Interface.t)
  (links : list (nat * TopologyLink.t)) (st : Backfill) : result Backfill :=
  match links with
  | [] => Ok st
  | pl :: rest =>
      st' ← backfill_one dry_run db all_devices all_ifaces st pl;
      backfill_loop dry_run db all_devices all_ifaces rest st'
  end.

(** [backfill_links(dry_run, limit)]: the answer and the tables afterwards;
    an exception leaves the end point before any commit. *)
Definition backfill_links (dry_run : bool) (limit : Z) (commit_ok : bool)
  (db : Tables) : result (Response * Tables) :=
  let links := cap limit (unresolved db) in
  let all_devices := devices db in
  let all_ifaces :=
    List.filter (fun i => is_some (Interface.mac_address i)) (interfaces db) in
  st ← backfill_loop dry_run db all_devices all_ifaces links
       (mkBackfill (topology_links db) 0 0 []);
  Ok (mkResponse (bf_processed st) (bf_updated st) (bf_suggestions st),
      if negb dry_run && commit_ok
      then with_topology_links (fun _ => bf_links st) db
      else db).

(** *** [get_graph] *)

Module Node.
Record t : Type := mk {
  id : Z;
  label : option string;
  type : string;
  status : string;
  ipAddress : option string;
  isDiscovered : bool }.
End Node.

Module Edge.
Record t : Type := mk {
  id : Z;
  source : Z;
  target : Z;
  sourceInterface : string;
  targetInterface : string }.
End Edge.

(** [select(X).order_by(X.id)] *)
Definition order_by {A} (key : A -> Z) (rows : list A) : list A :=
  @merge_sort A (fun a b => key a <= key b)
              (fun a b => decide (key a <= key b)) rows.

Definition device_node (device : Device.t) : Node.t :=
  Node.mk (Device.id device) (Device.hostname device) "device"
          (Device.status device) (Some (Device.ip_address device)) false.

(** "Use negative ID to distinguish from managed devices" *)
Definition discovered_node_id (dd_id : Z) : Z := - (dd_id + 1000).

(** One iteration of [for dd in discovered_devices]. *)
Definition add_discovered (acc : gmap Z Z * list Node.t)
  (dd : DiscoveredDevice.t) : gmap Z Z * list Node.t :=
  let '(discovered_id_map, nodes) := acc in
  let node_id := discovered_node_id (DiscoveredDevice.id dd) in
  (<[DiscoveredDevice.id dd := node_id]> discovered_id_map,
   nodes ++ [Node.mk node_id (Some (DiscoveredDevice.lldp_hostname dd))
                     "discovered" "unknown" (DiscoveredDevice.ip_address dd)
                     true]).

(** One iteration of [for link in links]. *)
Definition add_edge (existing_node_ids : gset Z)
  (discovered_id_map : gmap Z Z) (edges : list Edge.t)
  (link : TopologyLink.t) : list Edge.t :=
  let src := TopologyLink.src_device_id link in
  let to_discovered :=
    if bool_decide (src ∈ existing_node_ids) then
      match TopologyLink.dst_discovered_device_id link with
      | Some discovered_dst =>
          match discovered_id_map !! discovered_dst with
          | Some node_id =>
              edges ++ [Edge.mk (TopologyLink.id link) src node_id
                                (TopologyLink.src_interface link)
                                (TopologyLink.dst_interface link)]
          | None => edges
          end
      | None => edges
      end
    else edges in
  match TopologyLink.dst_device_id link with
  | Some dst =>
      if bool_decide (src ∈ existing_node_ids)
         && bool_decide (dst ∈ existing_node_ids)
      then edges ++ [Edge.mk (TopologyLink.id link) src dst
                             (TopologyLink.src_interface link)
                             (TopologyLink.dst_interface link)]
      else to_discovered
  | None => to_discovered
  end.

(** [get_graph()]: the nodes and the edges of the answer. *)
Definition get_graph (db : Tables) : list Node.t * list Edge.t :=
  let devices := order_by Device.id (devices db) in
  let nodes := device_node <$> devices in
  let discovered_devices :=
    order_by DiscoveredDevice.id (discovered_devices db) in
  let '(discovered_id_map, nodes) :=
    foldl add_discovered (∅, nodes) discovered_devices in
  let links := order_by TopologyLink.id (topology_links db) in
  let existing_node_ids : gset Z := list_to_set (Node.id <$> nodes) in
  (nodes, foldl (add_edge existing_node_ids discovered_id_map) [] links).

End Topology.

(** ** Notions the statements below are phrased with *)

Module Spec.
Import SnmpEngine Topology.

(** What the specification says of a value of [calc_bps], read off the
    value itself: it is a number; it is below zero; it is at least zero
    (which a NaN is not); it is zero. *)
Definition is_number (v : PyVal) : bool :=
  match v with
  | VInt _ | VFloat _ => true
  | _ => false
  end.

Definition is_nan (v : PyVal) : bool :=
  match v with
  | VFloat S754_nan => true
  | _ => false
  end.

Definition below_zero (v : PyVal) : bool :=
  match v with
  | VInt z => z <? 0
  | VFloat (S754_finite true _ _) | VFloat (S754_infinity true) => true
  | _ => false
  end.

Definition at_least_zero (v : PyVal) : bool :=
  match v with
  | VInt z => 0 <=? z
  | VFloat (S754_zero _) | VFloat (S754_finite false _ _)
  | VFloat (S754_infinity false) => true
  | _ => false
  end.

Definition is_zero (v : PyVal) : bool :=
  match v with
  | VInt z => z =? 0
  | VFloat (S754_zero _) => true
  | _ => false
  end.

(** [(new - old) * 8 / interval], the first argument of [max]. *)
Definition rate_expr (old new interval : PyVal) : result PyVal :=
  d ← py_sub new old;
  m ← py_mul d (VInt 8);
  py_truediv m interval.

Definition is_lower_hex (c : ascii) : bool :=
  let n := N_of_ascii c in
  ((48 <=? n) && (n <=? 57) || (97 <=? n) && (n <=? 102))%N.

(** [n] groups of two lowercase hex digits, separated by colons. *)
Fixpoint hex_groups (n : nat) (m : string) : bool :=
  match n, m with
  | 1%nat, String a (String b EmptyString) => is_lower_hex a && is_lower_hex b
  | S n', String a (String b (String c rest)) =>
      is_lower_hex a && is_lower_hex b && Ascii.eqb c ":"%char
      && hex_groups n' rest
  | _, _ => false
  end.

(** Canonical form of a MAC address: [hh:hh:hh:hh:hh:hh]. *)
Definition canonical_mac (m : string) : bool := hex_groups 6 m.

(** The two shapes the specification names for [format_mac_address]. *)
Definition already_formatted (v : PyVal) : bool :=
  match v with
  | VStr s => contains ":" s
  | _ => false
  end.

Definition raw_six_bytes (v : PyVal) : bool :=
  match v with
  | VBytes bs => Nat.eqb (length bs) 6
  | _ => false
  end.

(** A label carries a non-device marker, compared without regard to case. *)
Definition has_marker (label : string) : bool :=
  contains "adapter" (lower label)
  || contains "firmware" (lower label)
  || contains "fw_version" (lower label).

(** What [if candidate:] acts upon: the matched device and the reason. *)
Definition hit (c : Candidate) : option (Device.t * option string) :=
  match candidate c with
  | Some d => Some (d, candidate_reason c)
  | None => None
  end.

(** The guarded blocks of the loop body, each run on its own from no
    candidate. *)
Definition strategies (db : Tables) (all_devices : list Device.t)
  (all_ifaces : list Interface.t) : list (string -> result Candidate) :=
  [ fun dst_name => Ok (try_exact all_devices dst_name no_candidate);
    fun dst_name => Ok (try_short all_devices dst_name no_candidate);
    fun dst_name => try_contains all_devices dst_name no_candidate;
    fun dst_name => Ok (try_ip all_devices dst_name no_candidate);
    fun dst_name => Ok (try_mac db all_ifaces dst_name no_candidate) ].

(** The blocks of a list tried in order up to the first that leaves a
    candidate. *)
Fixpoint first_hit (ss : list (string -> result Candidate)) (dst_name : string)
  : result (option (Device.t * option string)) :=
  match ss with
  | [] => Ok None
  | s :: rest =>
      c ← s dst_name;
      match hit c with
      | Some h => Ok (Some h)
      | None => first_hit rest dst_name
      end
  end.

(** *** The five strategies as the specification words them

    A strategy answers a label with the device it resolves to and the
    reason, with nothing, or fails. *)
Definition Strategy : Type :=
  string -> result (option (Device.t * option string)).

(** A device bears a name: its hostname is not empty and equals the name
    without regard to case. *)
Definition bears_name (name : string) (d : Device.t) : bool :=
  match Device.hostname d with
  | Some h => negb (String.eqb h "") && String.eqb (lower h) (lower name)
  | None => false
  end.

(** The answer of a strategy that found the row [found] of a table. *)
Definition resolved {A} (why : string) (device_of : A -> option Device.t)
  (found : option A) : option (Device.t * option string) :=
  match found with
  | Some a =>
      match device_of a with
      | Some d => Some (d, Some why)
      | None => None
      end
  | None => None
  end.

(** 1: the first device, in table order, that bears the label. *)
Definition by_exact (ds : list Device.t) : Strategy := fun label =>
  Ok (resolved "exact" Some (List.find (bears_name label) ds)).

(** 2: for a label with a dot, the first device that bears the part of the
    label before its first dot. *)
Definition by_short (ds : list Device.t) : Strategy := fun label =>
  Ok (if contains "." label
      then resolved "short" Some
             (List.find (bears_name (before_first_dot label)) ds)
      else None).

(** 3: the first device, in table order, whose non-empty hostname occurs in
    the label or whose hostname the label occurs in, without regard to
    case; a device without hostname that comes before it makes the
    strategy fail. *)
Fixpoint by_contains (ds : list Device.t) : Strategy := fun label =>
  match ds with
  | [] => Ok None
  | d :: rest =>
      match Device.hostname d with
      | Some h =>
          if negb (String.eqb h "") && contains (lower h) (lower label)
          then Ok (Some (d, Some "contains_dst"))
          else if contains (lower label) (lower h)
          then Ok (Some (d, Some "contains_dev"))
          else by_contains rest label
      | None => Raise AttributeError
      end
  end.

(** 4: the first device whose address is the leftmost dotted quad of the
    label. *)
Definition by_ip (ds : list Device.t) : Strategy := fun label =>
  Ok (match re_search match_ip_at label with
      | Some ip =>
          resolved ("ip:" +:+ ip) Some
            (List.find (fun d => String.eqb (Device.ip_address d) ip) ds)
      | None => None
      end).

(** The hex digits of the address stored for an interface, in lower
    case. *)
Definition mac_digits (i : Interface.t) : string :=
  match Interface.mac_address i with
  | Some s => lower (str_filter is_hex s)
  | None => ""
  end.

(** 5: the device of the first interface whose address digits end with, or
    are, the leftmost run of twelve hex digits of the label. *)
Definition by_mac (db : Tables) (ifs : list Interface.t) : Strategy :=
  fun label =>
  Ok (match re_search match_hex12_at label with
      | Some m =>
          let hex := lower m in
          resolved ("mac:" +:+ hex)
            (fun i => List.find (fun d => Device.id d =? Interface.device_id i)
                                (devices db))
            (List.find (fun i => endswith (mac_digits i) hex
                                 || String.eqb (mac_digits i) hex) ifs)
      | None => None
      end).

Definition five_strategies (db : Tables) (ds : list Device.t)
  (ifs : list Interface.t) : list Strategy :=
  [by_exact ds; by_short ds; by_contains ds; by_ip ds; by_mac db ifs].

(** "Try in strict priority order, stop at first hit." *)
Fixpoint first_of (ss : list Strategy) : Strategy := fun label =>
  match ss with
  | [] => Ok None
  | s :: rest =>
      r ← s label;
      match r with
      | Some h => Ok (Some h)
      | None => first_of rest label
      end
  end.

(** The label the matcher works on. *)
Definition dst_name_of (link : TopologyLink.t) : string :=
  strip (default "" (TopologyLink.dst_hostname link)).

(** No whitespace character occurs in [m]. *)
Definition no_space (m : string) : bool :=
  str_forallb (fun c => negb (is_space c)) m.

(** No suggestion gathered so far stems from a marked label. *)
Definition no_marker_suggestions (st : Backfill) : Prop :=
  Forall (fun sg => forall label,
            Suggestion.dst_hostname sg = Some label ->
            has_marker label = false)
         (bf_suggestions st).


(** Every device row carries a hostname. *)
Definition all_named (ds : list Device.t) : Prop :=
  Forall (fun d => is_some (Device.hostname d) = true) ds.

(** A property of the worker's state that a computation keeps, whether it
    ends normally or by an exception. *)
Definition keeps {A} (I : PollState -> Prop) (m : M A) : Prop :=
  forall s, I s -> I (snd (m s)).

(** A property that looks at the tables only. *)
Definition on_tables (P : Tables -> Prop) (s : PollState) : Prop :=
  P (session s).

(** The device table is [D]. *)
Definition same_devices (D : list Device.t) : PollState -> Prop :=
  on_tables (fun t => devices t = D).

(** The status column of the first row with a given id. *)
Definition status_of (rows : list Device.t) (k : Z) : option string :=
  Device.status <$> (snd <$> list_find (fun d => Device.id d = k) rows).

(** A task of the sweep that never entered [poll_device]. *)
Definition never_polling (t : option task) : Prop :=
  t = Some Waiting \/ t = Some Holding \/ t = Some Skipped
  \/ t = Some ReadFailed.

(** The columns of an interface row that identify it. *)
Definition row_identity (r : Interface.t) : Z * Z * option string :=
  (Interface.id r, Interface.device_id r, Interface.interface_name r).

(** The names, as the worker compares them, of the rows of one device. *)
Definition device_keys (dev : Z) (rows : list Interface.t) : list string :=
  iface_key <$> filter (fun r => Interface.device_id r = dev) rows.

(** A property of the interface table and of the local dict. *)
Definition ifaces_inv (R : list Interface.t -> gmap string nat -> Prop)
  : PollState -> Prop :=
  fun s => R (interfaces (session s)) (existing_ifaces s).

(** [R] survives the two things an upsert under a name in [N] can do:
    rewrite the non-identifying columns of a row the dict knows, or append
    a row for a name the dict does not know and record it. *)
Definition upsert_closed (dev : Z) (N : string -> Prop)
  (R : list Interface.t -> gmap string nat -> Prop) : Prop :=
  (forall rows m name ref f,
     N name -> (forall r, row_identity (f r) = row_identity r) ->
     m !! name = Some ref -> R rows m -> R (alter f ref rows) m)
  /\ (forall rows m name row,
        N name -> Interface.device_id row = dev ->
        Interface.interface_name row = Some name ->
        m !! name = None -> R rows m ->
        R (rows ++ [row]) (<[name := length rows]> m)).

(** The dict knows exactly the names of the device's rows. *)
Definition dict_mirrors (dev : Z) (rows : list Interface.t)
  (m : gmap string nat) : Prop :=
  forall n, is_Some (m !! n) <-> n ∈ device_keys dev rows.

(** The rows of [old] are still there, in place, with their identity. *)
Definition rows_in_place (old rows : list Interface.t) : Prop :=
  (row_identity <$> old) `prefix_of` (row_identity <$> rows).

(** The device's names are those of [old] followed by pairwise distinct
    names that [old] did not have. *)
Definition only_new_names (dev : Z) (old rows : list Interface.t) : Prop :=
  exists news,
    device_keys dev rows = device_keys dev old ++ news
    /\ NoDup news
    /\ forall n, n ∈ news -> n ∉ device_keys dev old.

(** The state a worker starts its loop in, and the state it leaves it in. *)
Definition worker_start (info : DeviceInfo.t) (db : Tables) : PollState :=
  mkPollState db (index_ifaces (DeviceInfo.id info) (interfaces db) 0 ∅) 0.

Definition worker_loop (py_str : PyVal -> string) (py_int : PyVal -> result Z)
  (clock : nat -> Z) (info : DeviceInfo.t) (interval : PyVal) (w : Walks)
  (db : Tables) : PollState :=
  poll_loop py_str py_int clock (DeviceInfo.id info) interval w
    (get_lldp_neighbors py_str (sysnames w) (portdesc w) (manaddr w))
    (worker_start info db).

(** The items of the description walk that decode, in walk order. *)
Definition decoded (py_str : PyVal -> string) (py_int : PyVal -> result Z)
  (interval : PyVal) (w : Walks) : list Decoded :=
  omap (fun kv => match decode_interface py_str py_int interval w
                                         (fst kv) (snd kv) with
                  | Ok d => Some d
                  | Raise _ => None
                  end)
       (items (if_descr w)).

(** The names of the discovered devices, in table order. *)
Definition discovered_names (t : Tables) : list string :=
  DiscoveredDevice.lldp_hostname <$> discovered_devices t.

(** The lookup tuples of the links, in table order. *)
Definition link_keys (t : Tables)
  : list (Z * string * option Z * option Z * string) :=
  TopologyLink.key <$> topology_links t.

(** Every LLDP neighbour of the walks announces the address of a managed
    device of [db]. *)
Definition neighbors_managed (py_str : PyVal -> string) (w : Walks)
  (db : Tables) : Prop :=
  forall index info,
    get_lldp_neighbors py_str (sysnames w) (portdesc w) (manaddr w) !! index
    = Some info ->
    nonempty (neighbor_ip info) = true
    /\ exists d, d ∈ devices db /\ Device.ip_address d = neighbor_ip info.


(** Two states of the database that agree on every table but the devices. *)
Definition only_devices_differ (t t' : Tables) : Prop :=
  interfaces t' = interfaces t
  /\ interface_stats t' = interface_stats t
  /\ discovered_devices t' = discovered_devices t
  /\ topology_links t' = topology_links t.

(** The row the reachability phase writes for a probe outcome. *)
Definition probed (ok : bool) (seen : option Z) (d : Device.t) : Device.t :=
  Device.set_status (if ok then "up" else "down") seen d.


(** The row the backfill writes for a link resolved to [cand]. *)
Definition resolve_to (cand : Device.t) (link : TopologyLink.t)
  : TopologyLink.t :=
  TopologyLink.mk (TopologyLink.id link) (TopologyLink.src_device_id link)
    (TopologyLink.src_interface link) (Some (Device.id cand))
    (TopologyLink.dst_discovered_device_id link)
    (hostname_or (Device.hostname cand) (TopologyLink.dst_hostname link))
    (TopologyLink.dst_interface link) (TopologyLink.last_seen link).

(** A link row after the backfill: as it was, or an unresolved row now
    resolved to a device of the table. *)
Definition same_or_resolved (db : Tables) (l l' : TopologyLink.t) : Prop :=
  l' = l
  \/ (TopologyLink.dst_device_id l = None
      /\ exists d, In d (devices db) /\ l' = resolve_to d l).

(** Two states of the database that agree on every table but the links. *)
Definition only_links_differ (t t' : Tables) : Prop :=
  devices t' = devices t
  /\ interfaces t' = interfaces t
  /\ interface_stats t' = interface_stats t
  /\ discovered_devices t' = discovered_devices t.

(** A suggestion pairs one of the links handed to the loop with a device of
    the table. *)
Definition suggestion_for (db : Tables) (links : list (nat * TopologyLink.t))
  (sg : Suggestion.t) : Prop :=
  exists p l d,
    In (p, l) links /\ In d (devices db)
    /\ Suggestion.link_id sg = TopologyLink.id l
    /\ Suggestion.src_device_id sg = TopologyLink.src_device_id l
    /\ Suggestion.src_interface sg = TopologyLink.src_interface l
    /\ Suggestion.dst_hostname sg = TopologyLink.dst_hostname l
    /\ Suggestion.matched_device_id sg = Device.id d
    /\ Suggestion.matched_device_hostname sg = Device.hostname d.


(** The interfaces the backfill matches MAC-like labels against. *)
Definition mac_ifaces (db : Tables) : list Interface.t :=
  List.filter (fun i => is_some (Interface.mac_address i)) (interfaces db).

(** What a committed backfill makes of a link it processes. *)
Definition backfilled (db : Tables) (link : TopologyLink.t)
  : TopologyLink.t :=
  match match_link db (devices db) (mac_ifaces db) link with
  | Ok (Some (mkCandidate (Some cand) _)) => resolve_to cand link
  | _ => link
  end.


(** The node the graph shows for a discovered device. *)
Definition discovered_node (dd : DiscoveredDevice.t) : Node.t :=
  Node.mk (discovered_node_id (DiscoveredDevice.id dd))
          (Some (DiscoveredDevice.lldp_hostname dd)) "discovered" "unknown"
          (DiscoveredDevice.ip_address dd) true.

(** An edge drawn for a link: it copies the link's id, source and
    interfaces, and ends at the link's managed destination or at the node of
    its discovered destination. *)
Definition edge_of_link (link : TopologyLink.t) (e : Edge.t) : Prop :=
  Edge.id e = TopologyLink.id link
  /\ Edge.source e = TopologyLink.src_device_id link
  /\ Edge.sourceInterface e = TopologyLink.src_interface link
  /\ Edge.targetInterface e = TopologyLink.dst_interface link
  /\ (TopologyLink.dst_device_id link = Some (Edge.target e)
      \/ exists k, TopologyLink.dst_discovered_device_id link = Some k
                   /\ Edge.target e = discovered_node_id k).


(** An interval the rates cannot be computed with: zero, or not a number. *)
Definition unusable_interval (interval : PyVal) : Prop :=
  match interval with
  | VInt z => z = 0
  | VFloat f => float_is_zero f = true
  | _ => True
  end.


(** One to three decimal digits. *)
Definition octet_text (a : string) : Prop :=
  (1 <= String.length a <= 3)%nat /\ str_forallb is_digit a = true.

(** Four such groups separated by dots: what the pattern
    [\d{1,3}(?:\.\d{1,3}){3}] describes. *)
Definition dotted_quad (m : string) : Prop :=
  exists a b c d,
    octet_text a /\ octet_text b /\ octet_text c /\ octet_text d
    /\ m = a +:+ "." +:+ b +:+ "." +:+ c +:+ "." +:+ d.

(** Twelve hex digits: what the pattern [[0-9A-Fa-f]{12}] describes. *)
Definition hex12 (m : string) : Prop :=
  String.length m = 12%nat /\ str_forallb is_hex m = true.


(** Two device rows that agree on every column but status and last-seen. *)
Definition same_but_status (d d' : Device.t) : Prop :=
  Device.id d' = Device.id d
  /\ Device.hostname d' = Device.hostname d
  /\ Device.ip_address d' = Device.ip_address d
  /\ Device.snmp_community d' = Device.snmp_community d
  /\ Device.lldp_hostname d' = Device.lldp_hostname d.


(** The newest of the values a column was given during a poll, or what it
    held before when it was given none. *)
Definition latest {A} (given : list (option A)) (held : option A)
  : option A :=
  foldl (fun acc o => match o with Some x => Some x | None => acc end)
        held given.

(** The address an item brings for the [mac_address] column: [if mac] and
    [mac or None] both pass over an empty text. *)
Definition usable_mac (d : Decoded) : option string :=
  match dec_mac d with
  | Some m => if nonempty m then Some m else None
  | None => None
  end.

(** The items of a poll that decode under the name [n], in walk order. *)
Definition decoded_as (py_str : PyVal -> string) (py_int : PyVal -> result Z)
  (interval : PyVal) (w : Walks) (n : string) : list Decoded :=
  filter (fun d => dec_name d = n) (decoded py_str py_int interval w).

(** The existing row of a device under a name: the last row of the table
    with that device and, stripped, that name. *)
Definition row_for (dev : Z) (n : string) (rows : list Interface.t)
  (ref : nat) (r : Interface.t) : Prop :=
  rows !! ref = Some r
  /\ Interface.device_id r = dev /\ iface_key r = n
  /\ forall j r', (ref < j)%nat -> rows !! j = Some r' ->
       ~ (Interface.device_id r' = dev /\ iface_key r' = n).

(** A poll that reaches the interface loop: the device has an address and
    the description walk has items. *)
Definition answered (info : DeviceInfo.t) (w : Walks) : Prop :=
  is_empty (DeviceInfo.ip_address info) = false
  /\ dict_truthy (if_descr w) = true.

(** Every reference of the dict points at a row of the device under the
    key's name. *)
Definition dict_points (dev : Z) (rows : list Interface.t)
  (m : gmap string nat) : Prop :=
  forall k ref, m !! k = Some ref ->
    exists r, rows !! ref = Some r
              /\ Interface.device_id r = dev /\ iface_key r = k.

(** [new] is [old] after the upserts of the items [ds]. *)
Definition refreshed_by (ds : list Decoded) (old new : Interface.t) : Prop :=
  row_identity new = row_identity old
  /\ Interface.status new
     = latest ((fun d => Some (dec_oper_status d)) <$> ds)
              (Interface.status old)
  /\ Interface.mac_address new
     = latest (usable_mac <$> ds) (Interface.mac_address old)
  /\ Interface.speed_bps new
     = latest (dec_speed_bps <$> ds) (Interface.speed_bps old).

(** [new] is the row the upserts of the items [ds] created for the name
    [n]. *)
Definition created_by (dev : Z) (n : string) (ds : list Decoded)
  (new : Interface.t) : Prop :=
  Interface.device_id new = dev
  /\ Interface.interface_name new = Some n
  /\ Interface.status new
     = latest ((fun d => Some (dec_oper_status d)) <$> ds) None
  /\ Interface.mac_address new = latest (usable_mac <$> ds) None
  /\ Interface.speed_bps new = latest (dec_speed_bps <$> ds) None.


(** The link table holds a row from the interface [name] of the device
    [dev] to the interface [iface] of the managed device [dst], last seen
    at a reading of the clock. *)
Definition link_seen (clock : nat -> Z) (dev : Z) (name : string) (dst : Z)
  (iface : string) (t : Tables) : Prop :=
  exists l n,
    l ∈ topology_links t
    /\ TopologyLink.src_device_id l = dev
    /\ TopologyLink.src_interface l = name
    /\ TopologyLink.dst_device_id l = Some dst
    /\ TopologyLink.dst_interface l = iface
    /\ TopologyLink.last_seen l = clock n.

End Spec.

(** ** Sample tables and answers *)

Module Examples.
Import SnmpEngine Topology Spec.

(** Two managed devices; the second is named like an adapter. *)
Definition core_sw1 : Device.t :=
  Device.mk 1 (Some "core-sw1") "10.0.0.1" None "unknown" None None.
Definition usb_box : Device.t :=
  Device.mk 2 (Some "usb ethernet adapter #3") "10.0.0.2" None "unknown"
            None None.

Definition adapter_link : TopologyLink.t :=
  TopologyLink.mk 7 1 "Gi0/1" None None (Some "USB Ethernet Adapter #3")
                  "" 0.
Definition exact_link : TopologyLink.t :=
  TopologyLink.mk 8 2 "Gi0/2" None None (Some "CORE-SW1") "" 0.

Definition backfill_db : Tables :=
  mkTables [core_sw1; usb_box] [] [] [] [adapter_link; exact_link].

(** [str] and [int] of the value objects in the samples: an octet string
    prints as its text, an integer converts to itself. *)
Definition sample_str (v : PyVal) : string :=
  match v with
  | VStr s => s
  | VBytes bs => string_of_list_byte bs
  | _ => ""
  end.

Definition sample_int (v : PyVal) : result Z :=
  match v with
  | VInt z => Ok z
  | _ => Raise TypeError
  end.

Definition octets (s : string) : PyVal := VBytes (list_byte_of_string s).

(** A clock that advances by one at each reading. *)
Definition tick (n : nat) : Z := 1000 + Z.of_nat n.

Definition sw1 : Device.t :=
  Device.mk 1 (Some "sw1") "10.0.0.1" (Some "public") "unknown" None None.
Definition sw2 : Device.t :=
  Device.mk 2 (Some "sw2") "10.0.0.2" (Some "public") "unknown" None None.

Definition poll_db : Tables := mkTables [sw1; sw2] [] [] [] [].

Definition sw1_info : DeviceInfo.t :=
  DeviceInfo.mk 1 (Some "sw1") "10.0.0.1" (Some "public").

(** No walk is answered. *)
Definition silent : Walks :=
  mkWalks None None None None None None None None.

(** One interface; its LLDP neighbour announces a management address that
    no managed device has, and an empty system name. *)
Definition nameless_neighbor : Walks :=
  mkWalks (Some [("1.3.6.1.2.1.2.2.1.2.1", octets "eth0")])
          None None None None
          (Some [("1.0.8802.1.1.2.1.4.1.1.9.1", octets "")])
          None
          (Some [("1.0.8802.1.1.2.1.4.2.1.4.1", octets "192.0.2.7")]).

(** One interface; its LLDP neighbour is an unmanaged phone. *)
Definition phone_neighbor : Walks :=
  mkWalks (Some [("1.3.6.1.2.1.2.2.1.2.1", octets "eth0")])
          None None None None
          (Some [("1.0.8802.1.1.2.1.4.1.1.9.1", octets "SEP001122334455")])
          None None.

(** Two interfaces with status, counters and a MAC for the first. *)
Definition two_interfaces : Walks :=
  mkWalks (Some [("1.3.6.1.2.1.2.2.1.2.1", octets "eth0");
                 ("1.3.6.1.2.1.2.2.1.2.2", octets "eth1")])
          (Some [("1.3.6.1.2.1.2.2.1.8.1", VInt 1);
                 ("1.3.6.1.2.1.2.2.1.8.2", VInt 2)])
          (Some [("1.3.6.1.2.1.2.2.1.10.1", VInt 1000)])
          (Some [("1.3.6.1.2.1.2.2.1.16.1", VInt 500)])
          (Some [("1.3.6.1.2.1.2.2.1.6.1",
                  VBytes [xaa; xbb; xcc; xdd; xee; xff])])
          None None None.

(** One interface; its LLDP neighbour is the managed device [sw2]. *)
Definition managed_neighbor : Walks :=
  mkWalks (Some [("1.3.6.1.2.1.2.2.1.2.1", octets "eth0")])
          None None None None
          (Some [("1.0.8802.1.1.2.1.4.1.1.9.1", octets "sw2")])
          (Some [("1.0.8802.1.1.2.1.4.1.1.8.1", octets "Gi0/24")])
          (Some [("1.0.8802.1.1.2.1.4.2.1.4.1", octets "10.0.0.2")]).

(** A later cycle reads a later clock. *)
Definition tock (n : nat) : Z := 2000 + Z.of_nat n.


(** A database for the graph: two managed devices stored out of id order,
    a discovered phone, and three links of [sw1]: to [sw2], to the phone,
    and one without a resolved destination. *)
Definition graph_db : Tables :=
  mkTables [sw2; sw1] [] []
    [DiscoveredDevice.mk 1 "SEP001122334455" None 1000 1000]
    [TopologyLink.mk 3 1 "eth2" None None (Some "printer") "" 1000;
     TopologyLink.mk 1 1 "eth0" (Some 2) None (Some "sw2") "Gi0/24" 1000;
     TopologyLink.mk 2 1 "eth1" None (Some 1) (Some "SEP001122334455") ""
                     1000].


(** A device added by address only, ahead of a named one, and a link whose
    label names neither. *)
Definition nameless_box : Device.t :=
  Device.mk 3 None "10.0.0.3" None "unknown" None None.
Definition stray_link : TopologyLink.t :=
  TopologyLink.mk 9 1 "Gi0/3" None None (Some "edge-7") "" 0.
Definition nameless_db : Tables :=
  mkTables [nameless_box; core_sw1] [] [] [] [stray_link].


(** A database in which [sw1] and [sw2] each have a stored row [eth0], the
    one of [sw1] down, with an old address and an old rate. *)
Definition stored_db : Tables :=
  mkTables [sw1; sw2]
    [Interface.mk 1 1 (Some "eth0") (Some "00:00:00:00:00:01") (Some "down")
                  (Some 42);
     Interface.mk 2 2 (Some "eth0") None (Some "down") None]
    [] [] [].

(** A label with two addresses, the second one that of [usb_box]. *)
Definition two_address_link : TopologyLink.t :=
  TopologyLink.mk 9 1 "Gi0/3" None None (Some "10.0.0.9 via 10.0.0.2") ""
                  0.
Definition gateway_link : TopologyLink.t :=
  TopologyLink.mk 10 1 "Gi0/4" None None (Some "gw 10.0.0.2 (core)") "" 0.
Definition two_address_db : Tables :=
  mkTables [core_sw1; usb_box] [] [] []
           [adapter_link; two_address_link; gateway_link].


End Examples.

(** * Theorems *)

Import SnmpEngine Topology Spec Examples.

(** ** [calc_bps] *)

(** Rounding keeps a mantissa that is not negative so, and with it the
    sign it is given: it never makes a NaN of a quotient. *)
Lemma shr_1_nonneg mrs : 0 <= shr_m mrs -> 0 <= shr_m (shr_1 mrs).
Proof.
  destruct mrs as [m r s]. cbn.
  destruct m as [|[p|p|]|[p|p|]]; cbn; lia.
Qed.

Lemma iter_shr_1_nonneg p mrs :
  0 <= shr_m mrs -> 0 <= shr_m (SpecFloat.iter_pos shr_1 p mrs).
Proof.
  revert mrs. induction p as [p IH|p IH|]; intros mrs H; cbn.
  - apply IH, IH, shr_1_nonneg, H.
  - apply IH, IH, H.
  - by apply shr_1_nonneg.
Qed.

Lemma shr_fexp_nonneg m e l :
  0 <= m -> 0 <= shr_m (fst (shr_fexp prec emax m e l)).
Proof.
  intros H. unfold shr_fexp, shr.
  assert (H0 : 0 <= shr_m (shr_record_of_loc m l))
    by (by destruct l as [|[]]).
  destruct (_ - e); cbn [fst]; [done| |done].
  by apply iter_shr_1_nonneg.
Qed.

Lemma binary_round_aux_sign sx mx ex lx :
  0 <= mx ->
  match binary_round_aux prec emax sx mx ex lx with
  | S754_zero s | S754_infinity s | S754_finite s _ _ => s = sx
  | S754_nan => False
  end.
Proof.
  intros H. unfold binary_round_aux.
  pose proof (shr_fexp_nonneg mx ex lx H) as H1.
  destruct (shr_fexp prec emax mx ex lx) as [mrs' e']. cbn [fst] in H1.
  assert (H2 : 0 <= round_nearest_even (shr_m mrs') (loc_of_shr_record mrs')).
  { unfold round_nearest_even.
    destruct (loc_of_shr_record mrs') as [|[]]; [done| |done|lia].
    destruct (Z.even _); lia. }
  pose proof (shr_fexp_nonneg _ e' loc_Exact H2) as H3.
  destruct (shr_fexp prec emax _ e' loc_Exact) as [mrs'' e''].
  cbn [fst] in H3.
  destruct (shr_m mrs'') as [|m|m]; [done| |lia].
  by destruct (e'' <=? emax - prec).
Qed.

Lemma int_true_divide_sign a b q :
  int_true_divide a b = Ok q ->
  match q with
  | S754_zero s | S754_finite s _ _ => s = xorb (a <? 0) (b <? 0)
  | _ => False
  end.
Proof.
  unfold int_true_divide. destruct (b =? 0); [done|].
  destruct (a =? 0) eqn:Ea.
  { intros [= <-]. apply Z.eqb_eq in Ea as ->. done. }
  unfold SFdiv.
  destruct (SFdiv_core_binary prec emax (Z.pos (Z.to_pos (Z.abs a))) 0
              (Z.pos (Z.to_pos (Z.abs b))) 0) as [[mz ez] lz] eqn:E.
  assert (Hmz : 0 <= mz).
  { unfold SFdiv_core_binary in E.
    match type of E with context [Z.div_eucl ?x ?y] =>
      pose proof (Z.div_pos x y) as Hd; unfold Z.div in Hd;
      destruct (Z.div_eucl x y) as [q' r'] eqn:Ed end.
    injection E as <- _ _. cbn [fst] in Hd. apply Hd; [|lia].
    destruct (_ - _ - _); [lia| |lia].
    rewrite Z.shiftl_mul_pow2 by lia. lia. }
  pose proof (binary_round_aux_sign (xorb (a <? 0) (b <? 0)) mz ez lz Hmz)
    as Hs.
  destruct (binary_round_aux prec emax _ mz ez lz); [by intros [= <-]|done
    |done|by intros [= <-]].
Qed.

Lemma compare_zero_float f :
  compare_int_float 0 f
  = match f with
    | S754_nan => None
    | S754_zero _ => Some Eq
    | S754_infinity s | S754_finite s _ _ => Some (if s then Gt else Lt)
    end.
Proof.
  destruct f as [s|s| |s m e]; try done. unfold compare_int_float.
  f_equal. destruct (0 <=? e) eqn:E.
  - apply Z.leb_le in E.
    pose proof (Z.pow_pos_nonneg 2 e ltac:(lia) E).
    destruct s; [apply Z.compare_gt_iff|apply Z.compare_lt_iff]; lia.
  - rewrite Z.mul_0_l. by destruct s.
Qed.

(** [max(q, 0)] on a float. *)
Lemma py_max_float_zero f :
  py_max (VFloat f) (VInt 0)
  = Ok (if below_zero (VFloat f) then VInt 0 else VFloat f).
Proof.
  unfold py_max, py_gt, py_compare. rewrite compare_zero_float.
  by destruct f as [s|[]| |[] m e].
Qed.

Lemma py_truediv_float a b q : py_truediv a b = Ok q -> exists f, q = VFloat f.
Proof.
  unfold py_truediv.
  destruct a as [|x|x|x|x], b as [|y|y|y|y]; cbn; try done.
  - destruct (int_true_divide x y); cbn; [|done]. intros [= <-]. eauto.
  - destruct (float_of_int x); cbn; [|done].
    destruct (float_is_zero y); [done|]. intros [= <-]. eauto.
  - destruct (float_of_int y) as [y'|]; cbn; [|done].
    destruct (float_is_zero y'); [done|]. intros [= <-]. eauto.
  - destruct (float_is_zero y); [done|]. intros [= <-]. eauto.
Qed.

Lemma calc_bps_of_rate old new interval :
  calc_bps old new interval
  = match rate_expr old new interval with
    | Ok q => if below_zero q then VInt 0 else q
    | Raise _ => VInt 0
    end.
Proof.
  unfold calc_bps, calc_bps_expr, rate_expr.
  destruct (py_sub new old) as [d|]; [|done]. cbn [mbind result_bind].
  destruct (py_mul d (VInt 8)) as [m|]; [|done]. cbn [mbind result_bind].
  destruct (py_truediv m interval) as [q|] eqn:E; [|done].
  cbn [mbind result_bind].
  destruct (py_truediv_float _ _ _ E) as [f ->].
  by rewrite py_max_float_zero.
Qed.

Lemma rate_expr_float old new interval q :
  rate_expr old new interval = Ok q -> exists f, q = VFloat f.
Proof.
  unfold rate_expr.
  destruct (py_sub new old) as [d|]; [|done]. cbn [mbind result_bind].
  destruct (py_mul d (VInt 8)) as [m|]; [|done]. cbn [mbind result_bind].
  apply py_truediv_float.
Qed.

Lemma calc_bps_not_below_zero old new interval :
  is_number (calc_bps old new interval) = true
  /\ below_zero (calc_bps old new interval) = false
  /\ (is_nan (calc_bps old new interval) = false ->
      at_least_zero (calc_bps old new interval) = true).
Proof.
  rewrite calc_bps_of_rate.
  destruct (rate_expr old new interval) as [q|] eqn:E; [|done].
  destruct (rate_expr_float _ _ _ _ E) as [f ->].
  by destruct f as [s|[]| |[] m e].
Qed.

Lemma py_truediv_zero m interval :
  is_zero interval = true -> exists e, py_truediv m interval = Raise e.
Proof.
  unfold py_truediv, is_zero.
  destruct interval as [|z|f|s|bs]; try done.
  - intros ->%Z.eqb_eq. destruct m as [|x|x|x|x]; cbn; eauto.
  - destruct f as [s| | |]; try done. intros _.
    destruct m as [|x|x|x|x]; cbn; eauto.
    destruct (float_of_int x); cbn; eauto.
Qed.

Lemma rate_expr_ints o n i :
  rate_expr (VInt o) (VInt n) (VInt i)
  = (q ← int_true_divide ((n - o) * 8) i; Ok (VFloat q)).
Proof. reflexivity. Qed.

Lemma calc_bps_ints o n i :
  is_nan (calc_bps (VInt o) (VInt n) (VInt i)) = false
  /\ ((n - o) * i <= 0 -> is_zero (calc_bps (VInt o) (VInt n) (VInt i)) = true)
  /\ exists z, int_of_num (calc_bps (VInt o) (VInt n) (VInt i)) = Ok z.
Proof.
  rewrite calc_bps_of_rate, rate_expr_ints.
  destruct (int_true_divide ((n - o) * 8) i) as [q|] eqn:E;
    cbn [mbind result_bind]; [|by eauto].
  pose proof (int_true_divide_sign _ _ _ E) as Hs.
  destruct q as [s|s| |s m e]; try done.
  - repeat split; eauto.
  - subst s. split; [by destruct (xorb _ _)|]. split.
    + intros Hle. unfold int_true_divide in E.
      destruct (i =? 0) eqn:Ei; [done|]. apply Z.eqb_neq in Ei.
      destruct ((n - o) * 8 =? 0) eqn:En; [done|]. apply Z.eqb_neq in En.
      replace (xorb ((n - o) * 8 <? 0) (i <? 0)) with true; [done|].
      symmetry.
      destruct ((n - o) * 8 <? 0) eqn:E1, (i <? 0) eqn:E2; cbn; try done;
        rewrite ?Z.ltb_lt, ?Z.ltb_ge in *; nia.
    + destruct (xorb _ _); cbn; eauto.
Qed.

Lemma int_of_num_nonneg v z :
  below_zero v = false -> int_of_num v = Ok z -> 0 <= z.
Proof.
  destruct v as [|x|f|s|bs]; try done; cbn.
  - intros H%Z.ltb_ge [= <-]. done.
  - destruct f as [s|s| |[] m e]; try done; cbn.
    + by intros _ [= <-].
    + intros _ [= <-]. destruct (0 <=? e) eqn:E.
      * apply Z.leb_le in E. pose proof (Z.pow_nonneg 2 e). lia.
      * apply Z.div_pos; [lia|]. apply Z.pow_pos_nonneg; lia.
Qed.




(** ** [format_mac_address] *)

Lemma format_02x_lower_hex (b : byte) :
  exists h l, format_02x b = String h (String l "")
              /\ is_lower_hex h = true /\ is_lower_hex l = true.
Proof.
  exists (hex_digit (Byte.to_N b / 16)), (hex_digit (Byte.to_N b mod 16)).
  split; [reflexivity|]. destruct b; split; reflexivity.
Qed.

Lemma mac_bytes_to_hex_bytes (bs : list byte) :
  try_except (mac_bytes_to_hex (VBytes bs)) (fun _ => None)
  = if Nat.leb 6 (length bs)
    then Some (join ":" (format_02x <$> take 6 bs)) else None.
Proof. by do 6 (destruct bs as [|? bs]; [reflexivity|]). Qed.

Lemma format_mac_bytes (bs : list byte) :
  format_mac_address (VBytes bs)
  = if Nat.leb 6 (length bs)
    then Some (join ":" (format_02x <$> take 6 bs)) else None.
Proof.
  unfold format_mac_address. simpl.
  destruct bs as [|b bs]; [reflexivity|].
  apply mac_bytes_to_hex_bytes.
Qed.

Lemma format_mac_canonical (bs : list byte) :
  (6 <= length bs)%nat ->
  canonical_mac (join ":" (format_02x <$> take 6 bs)) = true.
Proof.
  intros Hlen.
  do 6 (destruct bs as [|? bs]; [simpl in Hlen; lia|]). simpl.
  repeat match goal with
  | |- context [format_02x ?b] =>
      let h := fresh "h" in let l := fresh "l" in
      destruct (format_02x_lower_hex b) as (h & l & -> & ? & ?)
  end.
  unfold canonical_mac. simpl.
  repeat match goal with H : is_lower_hex _ = true |- _ =>
    rewrite H; clear H end.
  reflexivity.
Qed.

Lemma format_mac_str (s : string) :
  format_mac_address (VStr s)
  = if is_empty (clean s) then None
    else if contains ":" (clean s) then Some (clean s)
    else format_mac_address (VBytes (list_byte_of_string (clean s))).
Proof.
  unfold format_mac_address at 1. simpl.
  destruct s as [|c s]; [reflexivity|].
  change (negb (negb (String.eqb (String c s) ""))) with false. simpl negb.
  cbv iota. unfold format_mac_body.
  destruct (is_empty (clean (String c s))) eqn:He; [reflexivity|].
  destruct (contains ":" (clean (String c s))); [reflexivity|].
  rewrite format_mac_bytes. apply mac_bytes_to_hex_bytes.
Qed.




(** ** Text *)

Lemma is_space_lower_char c : is_space (lower_char c) = is_space c.
Proof. by destruct c as [[] [] [] [] [] [] [] []]. Qed.

Lemma is_empty_lower s : is_empty (lower s) = is_empty s.
Proof. by destruct s. Qed.

Lemma lower_lstrip s : lower (lstrip s) = lstrip (lower s).
Proof.
  induction s as [|c s IH]; [done|]. simpl.
  rewrite is_space_lower_char. by destruct (is_space c).
Qed.

Lemma lower_rstrip s : lower (rstrip s) = rstrip (lower s).
Proof.
  induction s as [|c s IH]; [done|]. simpl.
  rewrite is_space_lower_char, <- IH, is_empty_lower.
  by destruct (is_space c && is_empty (rstrip s)).
Qed.

Lemma lower_strip s : lower (strip s) = strip (lower s).
Proof. unfold strip. by rewrite lower_lstrip, lower_rstrip. Qed.

Lemma lstrip_idemp s : lstrip (lstrip s) = lstrip s.
Proof.
  induction s as [|c s IH]; [done|]. simpl.
  destruct (is_space c) eqn:E; [done|]. simpl. by rewrite E.
Qed.

Lemma rstrip_idemp s : rstrip (rstrip s) = rstrip s.
Proof.
  induction s as [|c s IH]; [done|]. simpl.
  destruct (is_space c && is_empty (rstrip s)) eqn:E; [done|].
  simpl. by rewrite IH, E.
Qed.

Lemma rstrip_lstrip s : rstrip (lstrip s) = lstrip (rstrip s).
Proof.
  induction s as [|c s IH]; [done|]. simpl.
  destruct (is_space c) eqn:E; simpl.
  - rewrite IH. destruct (is_empty (rstrip s)) eqn:Er; simpl.
    + by destruct (rstrip s).
    + by rewrite E.
  - by rewrite E.
Qed.

Lemma strip_idemp s : strip (strip s) = strip s.
Proof.
  unfold strip. by rewrite rstrip_lstrip, rstrip_idemp, lstrip_idemp.
Qed.

Lemma ascii_eqb_eq a b : Ascii.eqb a b = true -> a = b.
Proof. apply Ascii.eqb_eq. Qed.

Lemma startswith_rstrip m s :
  no_space m = true -> startswith m s = true -> startswith m (rstrip s) = true.
Proof.
  revert s. induction m as [|a m IH]; intros s Hm Hs; [done|].
  destruct s as [|b s]; [done|]. unfold no_space in *. simpl in *.
  apply andb_true_iff in Hm as [Ha Hm], Hs as [Hab Hs].
  apply ascii_eqb_eq in Hab as <-.
  apply negb_true_iff in Ha. rewrite Ha. simpl.
  rewrite Ascii.eqb_refl. simpl. by apply IH.
Qed.

Lemma contains_nonempty m s :
  is_empty m = false -> contains m s = true -> is_empty s = false.
Proof. destruct m, s; done. Qed.

Lemma contains_rstrip m s :
  is_empty m = false -> no_space m = true ->
  contains m s = true -> contains m (rstrip s) = true.
Proof.
  intros Hne Hm. induction s as [|c s IH]; intros Hc; [done|].
  cbn [contains] in Hc. apply orb_true_iff in Hc as [Hc|Hc].
  - apply (startswith_rstrip _ _ Hm) in Hc.
    destruct (rstrip (String c s)); simpl in *; by rewrite Hc.
  - specialize (IH Hc). cbn [rstrip].
    rewrite (contains_nonempty _ _ Hne IH), andb_false_r.
    cbn [contains]. rewrite IH. apply orb_true_r.
Qed.

Lemma contains_lstrip m s :
  is_empty m = false -> no_space m = true ->
  contains m s = true -> contains m (lstrip s) = true.
Proof.
  intros Hne Hm. induction s as [|c s IH]; intros Hc; [done|].
  cbn [lstrip]. destruct (is_space c) eqn:E; [|done].
  cbn [contains] in Hc. apply orb_true_iff in Hc as [Hc|Hc]; [|by apply IH].
  destruct m as [|a m]; [done|]. unfold no_space in Hm. simpl in Hc, Hm.
  apply andb_true_iff in Hc as [Hac _]. apply ascii_eqb_eq in Hac as ->.
  by rewrite E in Hm.
Qed.

Lemma contains_strip m s :
  is_empty m = false -> no_space m = true ->
  contains m s = true -> contains m (strip s) = true.
Proof.
  intros. unfold strip. by apply contains_lstrip, contains_rstrip.
Qed.

Lemma has_marker_non_device label :
  has_marker label = true -> is_non_device (strip label) = true.
Proof.
  unfold has_marker, is_non_device. rewrite lower_strip. intros H.
  assert (Hm : forall m, is_empty m = false -> no_space m = true ->
             contains m (lower label) = true ->
             contains m (strip (lower label)) = true
             /\ nonempty (strip label) = true).
  { intros m ? ? Hc. pose proof (contains_strip _ _ H0 H1 Hc) as Hs.
    split; [done|]. unfold nonempty.
    rewrite <- is_empty_lower, lower_strip.
    by rewrite (contains_nonempty _ _ H0 Hs). }
  apply orb_true_iff in H as [H|H]; [apply orb_true_iff in H as [H|H]|];
    apply Hm in H as [-> ->]; try done; simpl; by rewrite ?orb_true_r.
Qed.

(** ** The backfill matcher *)

Lemma match_link_skips db all_devices all_ifaces link label :
  TopologyLink.dst_hostname link = Some label ->
  has_marker label = true ->
  match_link db all_devices all_ifaces link = Ok None.
Proof.
  intros Hl Hm. unfold match_link. rewrite Hl. simpl.
  by rewrite (has_marker_non_device _ Hm).
Qed.

Lemma match_link_some_no_marker db all_devices all_ifaces link c label :
  match_link db all_devices all_ifaces link = Ok (Some c) ->
  TopologyLink.dst_hostname link = Some label ->
  has_marker label = false.
Proof.
  intros Hm Hl. destruct (has_marker label) eqn:E; [|done].
  by rewrite (match_link_skips _ _ _ _ _ Hl E) in Hm.
Qed.

Lemma backfill_one_skip dry_run db all_devices all_ifaces st ref link :
  match_link db all_devices all_ifaces link = Ok None ->
  backfill_one dry_run db all_devices all_ifaces st (ref, link)
  = Ok (mkBackfill (bf_links st) (bf_processed st + 1) (bf_updated st)
                   (bf_suggestions st)).
Proof. intros H. unfold backfill_one. by rewrite H. Qed.

Lemma backfill_one_frame dry_run db all_devices all_ifaces st ref link st' :
  backfill_one dry_run db all_devices all_ifaces st (ref, link) = Ok st' ->
  bf_processed st' = bf_processed st + 1
  /\ (forall p, p <> ref -> bf_links st' !! p = bf_links st !! p)
  /\ (match_link db all_devices all_ifaces link = Ok None ->
      bf_links st' = bf_links st)
  /\ (no_marker_suggestions st -> no_marker_suggestions st').
Proof.
  unfold backfill_one.
  destruct (match_link db all_devices all_ifaces link) as [m|] eqn:Hm;
    [|done]. simpl.
  destruct m as [[[cand|] reason]|]; [|by intros [= <-]..].
  destruct dry_run; intros [= <-]; simpl.
  - repeat split; [done..|].
    intros Hs. apply Forall_app; split; [done|].
    constructor; [|constructor]. simpl. intros label.
    eapply match_link_some_no_marker; eauto.
  - repeat split; [|done|].
    + intros p Hp. by rewrite list_lookup_insert_ne.
    + intros Hs. apply Forall_app; split; [done|].
      constructor; [|constructor]. simpl. intros label.
      eapply match_link_some_no_marker; eauto.
Qed.

Lemma backfill_loop_frame dry_run db all_devices all_ifaces links st st' :
  backfill_loop dry_run db all_devices all_ifaces links st = Ok st' ->
  bf_processed st' = bf_processed st + Z.of_nat (length links)
  /\ (forall p,
        (forall link, In (p, link) links ->
                      match_link db all_devices all_ifaces link = Ok None) ->
        bf_links st' !! p = bf_links st !! p)
  /\ (no_marker_suggestions st -> no_marker_suggestions st').
Proof.
  revert st. induction links as [|[ref link] links IH]; intros st H.
  { injection H as <-. simpl. repeat split; [lia|done..]. }
  cbn [backfill_loop] in H.
  destruct (backfill_one dry_run db all_devices all_ifaces st (ref, link))
    as [st1|] eqn:H1; [|done]. simpl in H.
  apply backfill_one_frame in H1 as (Hp1 & Hne1 & Hskip1 & Hs1).
  apply IH in H as (Hp & Hl & Hs).
  split; [rewrite Hp, Hp1; cbn [length]; lia|].
  split; [|by auto].
  intros p Hall. rewrite Hl by (intros; apply Hall; by right).
  destruct (decide (p = ref)) as [->|Hne]; [|by apply Hne1].
  rewrite Hskip1; [done|]. apply Hall. by left.
Qed.

Lemma unresolved_lookup db p link :
  In (p, link) (unresolved db) -> topology_links db !! p = Some link.
Proof.
  unfold unresolved. intros H. apply filter_In in H as [H _].
  apply list_elem_of_In, list_elem_of_lookup in H as [i H].
  apply list_lookup_imap_Some in H as (x & Hx & [= -> ->]). done.
Qed.

Lemma cap_sublist limit (links : list (nat * TopologyLink.t)) x :
  In x (cap limit links) -> In x links.
Proof.
  unfold cap. destruct (negb (limit =? 0) && (0 <? limit)); [|done].
  intros H. apply list_elem_of_In in H. apply list_elem_of_In.
  by eapply subseteq_take.
Qed.

(** C6. A link whose label contains "adapter", "firmware" or "fw_version"
    in any case is skipped: no strategy runs for it (whatever the device and
    interface tables hold, the matcher returns without a candidate and
    without raising), its row is left as it was and no suggestion is made
    from a marked label. *)
Theorem marker_links_never_resolve db link label :
  TopologyLink.dst_hostname link = Some label ->
  has_marker label = true ->
  (forall any_db all_devices all_ifaces,
     match_link any_db all_devices all_ifaces link = Ok None)
  /\ (forall dry_run all_devices all_ifaces st ref,
        backfill_one dry_run db all_devices all_ifaces st (ref, link)
        = Ok (mkBackfill (bf_links st) (bf_processed st + 1) (bf_updated st)
                         (bf_suggestions st)))
  /\ (forall dry_run limit commit_ok resp db' p,
        backfill_links dry_run limit commit_ok db = Ok (resp, db') ->
        topology_links db !! p = Some link ->
        topology_links db' !! p = Some link
        /\ Forall (fun sg => forall l,
                     Suggestion.dst_hostname sg = Some l ->
                     has_marker l = false)
                  (suggestions resp)).
Proof.
  intros Hl Hm.
  assert (Hskip : forall any_db all_devices all_ifaces,
             match_link any_db all_devices all_ifaces link = Ok None)
    by (intros; by eapply match_link_skips).
  split; [done|]. split; [intros; by apply backfill_one_skip|].
  intros dry_run limit commit_ok resp db' p H Hp.
  unfold backfill_links in H.
  match type of H with context [backfill_loop ?a ?b ?c ?d ?e ?f] =>
    destruct (backfill_loop a b c d e f) as [st|] eqn:Hloop end; [|done].
  simpl in H. injection H as <- <-.
  apply backfill_loop_frame in Hloop as (_ & Hrows & Hs). simpl in *.
  split; [|apply Hs; constructor].
  assert (Hst : bf_links st !! p = Some link).
  { rewrite Hrows; [done|]. intros l Hin.
    apply cap_sublist, unresolved_lookup in Hin.
    rewrite Hp in Hin. injection Hin as <-. apply Hskip. }
  by destruct (negb dry_run && commit_ok).
Qed.

Lemma marker_links_never_resolve_witness :
  match_link backfill_db (devices backfill_db) [] adapter_link = Ok None
  /\ exists resp db',
       backfill_links false 0 true backfill_db = Ok (resp, db')
       /\ topology_links db' !! 0%nat = Some adapter_link.
Proof.
  destruct (marker_links_never_resolve backfill_db adapter_link
              "USB Ethernet Adapter #3" eq_refl eq_refl) as (Hm & _ & Hb).
  split; [apply Hm|].
  eexists _, _. split; [vm_compute; reflexivity|].
  eapply (Hb false 0 true); [vm_compute; reflexivity|reflexivity].
Defined.

Lemma try_exact_cases ds n :
  (exists d, List.find (hostname_is n) ds = Some d
             /\ nonempty n = true
             /\ try_exact ds n no_candidate
                = mkCandidate (Some d) (Some "exact"))
  \/ try_exact ds n no_candidate = no_candidate.
Proof.
  unfold try_exact. destruct (nonempty n); [|by right].
  destruct (List.find (hostname_is n) ds) as [d|]; [left|by right]. eauto.
Qed.

Lemma try_short_cases ds n :
  (exists d, try_short ds n no_candidate = mkCandidate (Some d) (Some "short"))
  \/ try_short ds n no_candidate = no_candidate.
Proof.
  unfold try_short. simpl.
  destruct (nonempty n && contains "." n); [|by right].
  destruct (List.find _ ds) as [d|]; [left|by right]. eauto.
Qed.

Lemma scan_contains_cases n ds :
  (exists c, scan_contains n ds no_candidate = Ok c /\ has_candidate c = true)
  \/ scan_contains n ds no_candidate = Ok no_candidate
  \/ (exists e, scan_contains n ds no_candidate = Raise e).
Proof.
  induction ds as [|d ds IH]; [right; by left|]. simpl.
  destruct (Device.hostname d) as [h|]; [|right; right; eauto].
  destruct (nonempty h && contains (lower h) (lower n)); [left; eauto|].
  destruct (contains (lower n) (lower h)); [left; eauto|done].
Qed.

Lemma try_ip_cases ds n :
  has_candidate (try_ip ds n no_candidate) = true
  \/ try_ip ds n no_candidate = no_candidate.
Proof.
  unfold try_ip. simpl. destruct (nonempty n); [|by right]. simpl.
  destruct (re_search match_ip_at n); [|by right].
  destruct (List.find _ ds); [by left|by right].
Qed.

Lemma has_candidate_hit c : has_candidate c = true -> exists h, hit c = Some h.
Proof. destruct c as [[d|] r]; [eauto|done]. Qed.

Lemma hit_none c : has_candidate c = false -> hit c = None.
Proof. by destruct c as [[d|] r]. Qed.

Lemma keeps_candidate db ds ifs n c :
  has_candidate c = true ->
  try_short ds n c = c /\ try_contains ds n c = Ok c
  /\ try_ip ds n c = c /\ try_mac db ifs n c = c.
Proof.
  intros H. unfold try_short, try_contains, try_ip, try_mac.
  by rewrite H.
Qed.

Ltac keep_candidate db ds ifs n c H :=
  let E1 := fresh in let E2 := fresh in let E3 := fresh in let E4 := fresh in
  destruct (keeps_candidate db ds ifs n c H) as (E1 & E2 & E3 & E4);
  rewrite ?E1; rewrite ?E2; cbn [mbind result_bind]; rewrite ?E3, ?E4;
  clear E1 E2 E3 E4.

(** The guarded blocks of the loop body run the strategies in order and
    stop at the first hit. *)
Lemma match_link_first_hit db ds ifs link :
  is_non_device (dst_name_of link) = false ->
  (match_link db ds ifs link ≫= fun m => Ok (m ≫= hit))
  = first_hit (strategies db ds ifs) (dst_name_of link).
Proof.
  intros Hnd. unfold match_link. fold (dst_name_of link). rewrite Hnd.
  set (n := dst_name_of link). cbn [strategies first_hit mbind result_bind].
  destruct (try_exact_cases ds n) as [(d & _ & _ & ->)| ->].
  { keep_candidate db ds ifs n (mkCandidate (Some d) (Some "exact"))
                   (eq_refl true). reflexivity. }
  cbn [hit candidate no_candidate].
  destruct (try_short_cases ds n) as [(d & ->)| ->].
  { keep_candidate db ds ifs n (mkCandidate (Some d) (Some "short"))
                   (eq_refl true). reflexivity. }
  cbn [hit candidate no_candidate].
  unfold try_contains at 1 2.
  cbn [has_candidate no_candidate candidate is_some negb andb].
  destruct (nonempty n) eqn:Hn.
  2:{ cbn [mbind result_bind hit candidate no_candidate].
      unfold try_ip, try_mac. cbn. by rewrite Hn. }
  destruct (scan_contains_cases n ds) as [(c & -> & Hc)|[ -> |(e & ->)]];
    [| |reflexivity].
  { keep_candidate db ds ifs n c Hc.
    destruct (has_candidate_hit c Hc) as (h & Hh). cbn. by rewrite Hh. }
  cbn [mbind result_bind hit candidate no_candidate].
  destruct (try_ip_cases ds n) as [Hc| ->].
  { keep_candidate db ds ifs n (try_ip ds n no_candidate) Hc.
    destruct (has_candidate_hit _ Hc) as (h & Hh). cbn. by rewrite Hh. }
  cbn [hit candidate no_candidate]. cbn [mbind option_bind].
  by destruct (hit (try_mac db ifs n no_candidate)).
Qed.

Lemma hostname_is_nonempty n d : hostname_is n d = true -> nonempty n = true.
Proof.
  unfold hostname_is. destruct (Device.hostname d) as [h|]; [|done].
  intros H. apply andb_true_iff in H as [Hh He].
  apply String.eqb_eq in He. unfold nonempty in *.
  by rewrite <- is_empty_lower, <- He, is_empty_lower.
Qed.

Lemma match_link_exact db ds ifs link d :
  is_non_device (dst_name_of link) = false ->
  List.find (hostname_is (dst_name_of link)) ds = Some d ->
  match_link db ds ifs link = Ok (Some (mkCandidate (Some d) (Some "exact"))).
Proof.
  intros Hnd Hf. unfold match_link. fold (dst_name_of link). rewrite Hnd.
  unfold try_exact. rewrite Hf.
  apply find_some in Hf as [_ Hh].
  rewrite (hostname_is_nonempty _ _ Hh).
  by keep_candidate db ds ifs (dst_name_of link)
                    (mkCandidate (Some d) (Some "exact")) (eq_refl true).
Qed.

(** *** The blocks of the loop body against the strategies of the
    specification *)

Lemma find_ext {X} (p q : X -> bool) l :
  (forall x, p x = q x) -> List.find p l = List.find q l.
Proof.
  intros H. induction l as [|x l IH]; [done|]. cbn. by rewrite H, IH.
Qed.

Lemma nonempty_eqb h : nonempty h = negb (String.eqb h "").
Proof. by destruct h. Qed.

Lemma hostname_is_bears n d : hostname_is n d = bears_name n d.
Proof.
  unfold hostname_is, bears_name.
  destruct (Device.hostname d) as [h|]; [|done]. by rewrite nonempty_eqb.
Qed.

Lemma by_exact_block ds n :
  nonempty n = true ->
  by_exact ds n = Ok (hit (try_exact ds n no_candidate)).
Proof.
  intros Hn. unfold by_exact, try_exact. rewrite Hn.
  rewrite (find_ext _ _ ds (hostname_is_bears n)).
  by destruct (List.find _ ds).
Qed.

Lemma by_short_block ds n :
  nonempty n = true ->
  by_short ds n = Ok (hit (try_short ds n no_candidate)).
Proof.
  intros Hn. unfold by_short, try_short. cbn. rewrite Hn.
  destruct (contains "." n); [|done]. cbn.
  rewrite (find_ext _ _ ds (hostname_is_bears (before_first_dot n))).
  by destruct (List.find _ ds).
Qed.

Lemma by_contains_scan ds n :
  by_contains ds n = (scan_contains n ds no_candidate ≫= fun c => Ok (hit c)).
Proof.
  induction ds as [|d ds IH]; [done|]. cbn.
  destruct (Device.hostname d) as [h|]; [|done].
  rewrite nonempty_eqb.
  destruct (negb (String.eqb h "") && contains (lower h) (lower n)); [done|].
  by destruct (contains (lower n) (lower h)).
Qed.

Lemma by_contains_block ds n :
  nonempty n = true ->
  by_contains ds n = (try_contains ds n no_candidate ≫= fun c => Ok (hit c)).
Proof.
  intros Hn. unfold try_contains. cbn. rewrite Hn. apply by_contains_scan.
Qed.

Lemma exactly_nonempty n p k s m :
  exactly (S n) p k s = Some m -> nonempty m = true.
Proof.
  unfold exactly.
  destruct (Nat.eqb _ (S n) && str_forallb p _) eqn:E; [|done].
  apply andb_true_iff in E as [Hl _]. apply Nat.eqb_eq in Hl.
  destruct (substring 0 (S n) s) as [|c head]; [done|].
  destruct (k _); [|done]. by intros [= <-].
Qed.

Lemma match_ip_at_nonempty s m : match_ip_at s = Some m -> nonempty m = true.
Proof.
  unfold match_ip_at, digits_1_3. intros H.
  repeat match type of H with
  | match ?x with _ => _ end = Some _ =>
      let E := fresh in
      destruct x eqn:E;
      [injection H as <-; by eapply exactly_nonempty|]
  end.
  by eapply exactly_nonempty.
Qed.

Lemma re_search_at match_at s m :
  re_search match_at s = Some m -> exists t, match_at t = Some m.
Proof.
  induction s as [|c s IH]; cbn.
  - destruct (match_at "") eqn:E; [|done]. intros [= <-]. by eexists.
  - destruct (match_at (String c s)) eqn:E; [|done].
    intros [= <-]. by eexists.
Qed.

Lemma by_ip_block ds n :
  nonempty n = true -> by_ip ds n = Ok (hit (try_ip ds n no_candidate)).
Proof.
  intros Hn. unfold by_ip, try_ip. cbn. rewrite Hn.
  destruct (re_search match_ip_at n) as [ip|] eqn:E; [|done].
  apply re_search_at in E as [t Ht]. apply match_ip_at_nonempty in Ht.
  rewrite (find_ext
             (fun d => nonempty (Device.ip_address d)
                       && String.eqb (Device.ip_address d) ip)
             (fun d => String.eqb (Device.ip_address d) ip)).
  { by destruct (List.find _ ds). }
  intros d. destruct (String.eqb_spec (Device.ip_address d) ip) as [->|];
    [by rewrite Ht|apply andb_false_r].
Qed.

Lemma by_mac_block db ifs n :
  nonempty n = true ->
  by_mac db ifs n = Ok (hit (try_mac db ifs n no_candidate)).
Proof.
  intros Hn. unfold by_mac, try_mac. cbn. rewrite Hn.
  destruct (re_search match_hex12_at n) as [m|]; [|done].
  change (fun iface : Interface.t =>
            endswith (normalize_mac (Interface.mac_address iface)) (lower m)
            || String.eqb (normalize_mac (Interface.mac_address iface))
                          (lower m))
    with (fun i : Interface.t =>
            endswith (mac_digits i) (lower m)
            || String.eqb (mac_digits i) (lower m)).
  destruct (List.find _ ifs) as [i|]; [|done]. cbn.
  unfold session_get_device, hit. cbn. by destruct (List.find _ _).
Qed.

(** The five strategies tried in order are the blocks tried in order. *)
Lemma first_of_blocks db ds ifs n :
  nonempty n = true ->
  first_of (five_strategies db ds ifs) n = first_hit (strategies db ds ifs) n.
Proof.
  intros Hn. unfold five_strategies, strategies.
  cbn [first_of first_hit].
  rewrite by_exact_block, by_short_block, by_contains_block, by_ip_block,
    by_mac_block by done.
  cbn [mbind result_bind].
  destruct (hit (try_exact ds n no_candidate)); [done|].
  destruct (hit (try_short ds n no_candidate)); [done|].
  destruct (try_contains ds n no_candidate) as [c|e]; [|done].
  reflexivity.
Qed.

Lemma has_marker_skips n :
  is_non_device n = nonempty n && has_marker n.
Proof.
  unfold is_non_device, has_marker. f_equal.
  destruct (contains "adapter" (lower n)); [done|]. cbn. apply orb_comm.
Qed.

Lemma has_marker_nonempty n : has_marker n = true -> nonempty n = true.
Proof. by destruct n. Qed.




Lemma scan_contains_named n ds c :
  all_named ds -> exists c', scan_contains n ds c = Ok c'.
Proof.
  induction 1 as [|d ds Hd _ IH]; [by eexists|]. simpl.
  destruct (Device.hostname d) as [h|]; [|done].
  destruct (nonempty h && contains (lower h) (lower n)); [by eexists|].
  destruct (contains (lower n) (lower h)); [by eexists|done].
Qed.

Lemma match_link_named db ds ifs link :
  all_named ds -> exists m, match_link db ds ifs link = Ok m.
Proof.
  intros Hds. unfold match_link.
  destruct (is_non_device _); [by eexists|].
  unfold try_contains.
  destruct (negb _ && nonempty _); [|by eexists].
  edestruct (scan_contains_named) as [c' ->]; [done|]. by eexists.
Qed.

Lemma backfill_loop_named dry_run db ds ifs links st :
  all_named ds -> exists st', backfill_loop dry_run db ds ifs links st = Ok st'.
Proof.
  intros Hds. revert st.
  induction links as [|[ref link] links IH]; intros st; [by eexists|].
  cbn [backfill_loop]. unfold backfill_one.
  destruct (match_link_named db ds ifs link Hds) as [m ->]. simpl.
  destruct m as [[[cand|] reason]|]; [|apply IH..].
  destruct dry_run; apply IH.
Qed.

Lemma unresolved_spec db p link :
  In (p, link) (unresolved db)
  <-> topology_links db !! p = Some link
      /\ TopologyLink.dst_device_id link = None.
Proof.
  unfold unresolved. rewrite filter_In, <- list_elem_of_In, list_elem_of_lookup.
  simpl. split.
  - intros [[i H] Hn]. apply list_lookup_imap_Some in H as (x & Hx & [= -> ->]).
    split; [done|]. by destruct (TopologyLink.dst_device_id x).
  - intros [Hp Hn]. split; [|by rewrite Hn].
    exists p. apply list_lookup_imap_Some. eauto.
Qed.

(** C10. The candidates of the backfill end point are the links whose
    [dst_device_id] is null; [limit = 0], the default, keeps them all, a
    strictly positive [limit] keeps the first [limit] of them, any other
    value keeps them all; the end point counts exactly the kept links as
    processed, and it does answer when every device row has a hostname. *)
Theorem backfill_limit (limit : Z) (db : Tables) :
  (forall p link,
     In (p, link) (unresolved db)
     <-> topology_links db !! p = Some link
         /\ TopologyLink.dst_device_id link = None)
  /\ cap 0 (unresolved db) = unresolved db
  /\ (0 < limit ->
      cap limit (unresolved db) = take (Z.to_nat limit) (unresolved db))
  /\ (limit <= 0 -> cap limit (unresolved db) = unresolved db)
  /\ (forall dry_run commit_ok resp db',
        backfill_links dry_run limit commit_ok db = Ok (resp, db') ->
        processed resp = Z.of_nat (length (cap limit (unresolved db))))
  /\ (all_named (devices db) ->
      forall dry_run commit_ok, exists resp db',
        backfill_links dry_run limit commit_ok db = Ok (resp, db')).
Proof.
  split; [apply unresolved_spec|]. split; [reflexivity|].
  split.
  { intros H. unfold cap.
    replace (limit =? 0) with false by (symmetry; apply Z.eqb_neq; lia).
    by replace (0 <? limit) with true by (symmetry; apply Z.ltb_lt; lia). }
  split.
  { intros H. unfold cap.
    replace (0 <? limit) with false by (symmetry; apply Z.ltb_ge; lia).
    by rewrite andb_false_r. }
  split.
  { intros dry_run commit_ok resp db' H. unfold backfill_links in H.
    match type of H with context [backfill_loop ?a ?b ?c ?d ?e ?f] =>
      destruct (backfill_loop a b c d e f) as [st|] eqn:Hloop end; [|done].
    simpl in H. injection H as <- <-.
    apply backfill_loop_frame in Hloop as (Hp & _). simpl in *. lia. }
  intros Hds dry_run commit_ok. unfold backfill_links.
  edestruct backfill_loop_named as [st ->]; [done|]. simpl. by eexists _, _.
Qed.

Lemma backfill_limit_witness :
  cap 1 (unresolved backfill_db) = [(0%nat, adapter_link)]
  /\ cap (-3) (unresolved backfill_db) = unresolved backfill_db
  /\ exists resp db',
       backfill_links true 0 true backfill_db = Ok (resp, db')
       /\ processed resp = 2.
Proof.
  destruct (backfill_limit 1 backfill_db) as (_ & _ & Hpos & _).
  destruct (backfill_limit (-3) backfill_db) as (_ & _ & _ & Hneg & _).
  destruct (backfill_limit 0 backfill_db) as (_ & _ & _ & _ & Hcount & Htot).
  split; [rewrite Hpos by lia; reflexivity|].
  split; [apply Hneg; lia|].
  destruct (Htot ltac:(repeat constructor) true true) as (resp & db' & H).
  exists resp, db'. split; [done|].
  by rewrite (Hcount _ _ _ _ H).
Defined.

(** ** The poll worker: what a computation keeps *)

Section Keeps.
Context {A B : Type} (I : PollState -> Prop).

Lemma keeps_ret (a : A) : keeps I (mret a).
Proof. by intros s. Qed.

Lemma keeps_lift (r : result A) : keeps I (lift r).
Proof. by intros s. Qed.

Lemma keeps_raise e : keeps I (raise e : M A).
Proof. by intros s. Qed.

Lemma keeps_bind (m : M A) (f : A -> M B) :
  keeps I m -> (forall a, keeps I (f a)) -> keeps I (m ≫= f).
Proof.
  intros Hm Hf s Hs. unfold mbind, M_bind. specialize (Hm s Hs).
  destruct (m s) as [[a|e] s']; [by apply Hf|done].
Qed.

Lemma keeps_unbound_bind name (f : A -> M B) :
  keeps I (unbound_name name ≫= f).
Proof. by intros s. Qed.

Lemma keeps_get_session : keeps I get_session.
Proof. by intros s. Qed.

Lemma keeps_get_existing : keeps I get_existing.
Proof. by intros s. Qed.

Lemma keeps_modify_session f :
  (forall s, I s ->
     I (mkPollState (f (session s)) (existing_ifaces s) (clock_reads s))) ->
  keeps I (modify_session f).
Proof. intros H s Hs. by apply H. Qed.

Lemma keeps_set_existing name ref :
  (forall s, I s ->
     I (mkPollState (session s) (<[name := ref]> (existing_ifaces s))
                    (clock_reads s))) ->
  keeps I (set_existing name ref).
Proof. intros H s Hs. by apply H. Qed.

Lemma keeps_utcnow clock :
  (forall s, I s ->
     I (mkPollState (session s) (existing_ifaces s) (S (clock_reads s)))) ->
  keeps I (utcnow clock).
Proof. intros H s Hs. by apply H. Qed.

End Keeps.

Lemma keeps_for_each {A} I (body : A -> M unit) l :
  (forall x, keeps I (body x)) -> keeps I (for_each body l).
Proof.
  intros H. induction l as [|x l IH]; [apply keeps_ret|].
  apply keeps_bind; [apply H|done].
Qed.

(** One step of a syntax-directed proof that a computation keeps [I]. *)
Ltac keeps_step :=
  lazymatch goal with
  | |- keeps _ (unbound_name _ ≫= _) => apply keeps_unbound_bind
  | |- keeps _ (_ ≫= _) => apply keeps_bind; [|intros ?]
  | |- keeps _ (mret _) => apply keeps_ret
  | |- keeps _ (lift _) => apply keeps_lift
  | |- keeps _ (raise _) => apply keeps_raise
  | |- keeps _ get_session => apply keeps_get_session
  | |- keeps _ get_existing => apply keeps_get_existing
  | |- keeps _ (modify_session _) => apply keeps_modify_session
  | |- keeps _ (set_existing _ _) => apply keeps_set_existing
  | |- keeps _ (utcnow _) => apply keeps_utcnow
  | |- keeps _ (match ?x with _ => _ end) => destruct x
  | |- keeps _ (let _ := _ in _) => cbv zeta
  end.

Section PollFrame.
Variable py_str : PyVal -> string.
Variable py_int : PyVal -> result Z.
Variable clock : nat -> Z.

Lemma upsert_interface_devices D device_id name st mac speed :
  keeps (same_devices D) (upsert_interface device_id name st mac speed).
Proof. unfold upsert_interface. repeat keeps_step; by intros. Qed.

Lemma add_stats_devices D intf i o :
  keeps (same_devices D) (add_stats clock intf i o).
Proof. unfold add_stats. repeat keeps_step; by intros. Qed.

Lemma process_neighbor_devices D device_id name info :
  keeps (same_devices D) (process_neighbor clock device_id name info).
Proof.
  unfold process_neighbor, find_or_create_discovered, upsert_link,
    add_fallback_link.
  repeat keeps_step; by intros.
Qed.

Lemma process_interface_devices D device_id interval w neighbors oid v :
  keeps (same_devices D)
        (process_interface py_str py_int clock device_id interval w neighbors
                           oid v).
Proof.
  unfold process_interface. keeps_step; [keeps_step|].
  keeps_step; [apply upsert_interface_devices|].
  keeps_step; [apply add_stats_devices|].
  keeps_step; [apply process_neighbor_devices|keeps_step].
Qed.

Lemma poll_loop_devices device_id interval w neighbors s :
  devices (session (poll_loop py_str py_int clock device_id interval w
                              neighbors s))
  = devices (session s).
Proof.
  unfold poll_loop. generalize (items (if_descr w)). intros l. revert s.
  induction l as [|[oid v] l IH]; intros s; [done|]. simpl.
  rewrite IH. by apply (process_interface_devices (devices (session s))).
Qed.

End PollFrame.

Lemma fmap_alter_same {X Y} (g : X -> Y) (f : X -> X) i (l : list X) :
  (forall x, g (f x) = g x) -> g <$> alter f i l = g <$> l.
Proof.
  intros H. revert i. induction l as [|x l IH]; intros [|i]; [done..| |].
  - cbn. by rewrite H.
  - cbn. f_equal. apply IH.
Qed.

Lemma mark_device_columns {Y} (g : Device.t -> Y) k st seen rows :
  (forall d, g (Device.set_status st seen d) = g d) ->
  g <$> mark_device k st seen rows = g <$> rows.
Proof.
  intros H. unfold mark_device.
  destruct (list_find _ rows) as [[p d]|]; [|done].
  by apply fmap_alter_same.
Qed.

Lemma mark_device_found k st seen rows p d :
  list_find (fun d => Device.id d = k) rows = Some (p, d) ->
  mark_device k st seen rows = <[p := Device.set_status st seen d]> rows.
Proof.
  intros H. unfold mark_device. rewrite H.
  apply list_find_Some in H as (Hp & _).
  revert p Hp. induction rows as [|x rows IH]; intros [|p] Hp; simpl in *;
    [done..| |].
  - by injection Hp as ->.
  - f_equal. by apply IH.
Qed.

Section PollDevices.
Variable py_str : PyVal -> string.
Variable py_int : PyVal -> result Z.
Variable clock : nat -> Z.

(** A worker writes the device table only through [mark_device], on the
    row of its own device. *)
Lemma poll_device_devices info interval w commit_ok db :
  devices (poll_device py_str py_int clock info interval w commit_ok db)
  = devices db
  \/ exists st seen,
       devices (poll_device py_str py_int clock info interval w commit_ok db)
       = mark_device (DeviceInfo.id info) st seen (devices db).
Proof.
  unfold poll_device.
  destruct (is_empty _); [by left|].
  destruct (negb _).
  { destruct (list_find _ _); [|by left].
    destruct commit_ok; [right; by eexists _, _|by left]. }
  destruct commit_ok; [|by left].
  match goal with |- context [poll_loop ?a ?b ?c ?d ?e ?f ?g ?h] =>
    pose proof (poll_loop_devices a b c d e f g h) as Hd;
    set (s1 := poll_loop a b c d e f g h) in * end.
  clearbody s1. cbn in Hd.
  unfold run_logged, mark_up, mbind, M_bind, get_session. cbn. rewrite Hd.
  destruct (list_find _ _); cbn; rewrite ?Hd; [right; by eexists _, _|by left].
Qed.

Lemma poll_device_lldp_hostname info interval w commit_ok db :
  Device.lldp_hostname
    <$> devices (poll_device py_str py_int clock info interval w commit_ok db)
  = Device.lldp_hostname <$> devices db.
Proof.
  destruct (poll_device_devices info interval w commit_ok db)
    as [->|(st & seen & ->)]; [done|].
  by apply mark_device_columns.
Qed.

(** C3. When the description walk of a device with an address fails or is
    empty, the worker writes no interface, statistics, discovered-device or
    link row; if its commit succeeds, the first row with the device's id
    gets status "down" and no last-seen, every other row staying as it was;
    if the commit fails, or no such row exists, nothing changes. *)
Theorem primary_walk_failure_marks_down info interval w commit_ok db :
  nonempty (DeviceInfo.ip_address info) = true ->
  dict_truthy (if_descr w) = false ->
  let db' := poll_device py_str py_int clock info interval w commit_ok db in
  interfaces db' = interfaces db
  /\ interface_stats db' = interface_stats db
  /\ discovered_devices db' = discovered_devices db
  /\ topology_links db' = topology_links db
  /\ (commit_ok = true ->
      forall p d,
        list_find (fun d => Device.id d = DeviceInfo.id info) (devices db)
        = Some (p, d) ->
        exists d',
          devices db' = <[p := d']> (devices db)
          /\ Device.status d' = "down"
          /\ Device.last_seen d' = None
          /\ same_but_status d d')
  /\ (commit_ok = false -> db' = db)
  /\ (list_find (fun d => Device.id d = DeviceInfo.id info) (devices db)
      = None -> db' = db).
Proof.
  intros Hip Hw. unfold poll_device.
  apply negb_true_iff in Hip. rewrite Hip, Hw. cbn [negb].
  destruct (list_find _ (devices db)) as [[p d]|] eqn:Hf.
  2:{ repeat split; try done. }
  destruct commit_ok; cbn; repeat split; try done.
  intros _ p' d' [= <- <-]. exists (Device.set_status "down" None d).
  split; [by apply mark_device_found|]. by repeat split.
Qed.

End PollDevices.

Lemma primary_walk_failure_marks_down_witness :
  let db1 := poll_device sample_str sample_int tick sw1_info (VInt 5)
                         two_interfaces true poll_db in
  let db2 := poll_device sample_str sample_int tock sw1_info (VInt 5)
                         silent true db1 in
  Device.status <$> devices db1 = ["up"; "unknown"]
  /\ Device.last_seen <$> devices db1 = [Some 1002; None]
  /\ Device.status <$> devices db2 = ["down"; "unknown"]
  /\ Device.last_seen <$> devices db2 = [None; None]
  /\ interfaces db2 = interfaces db1
  /\ interface_stats db2 = interface_stats db1.
Proof.
  cbv zeta. split; [reflexivity|]. split; [reflexivity|].
  destruct (primary_walk_failure_marks_down sample_str sample_int tock
              sw1_info (VInt 5) silent true
              (poll_device sample_str sample_int tick sw1_info (VInt 5)
                           two_interfaces true poll_db) eq_refl eq_refl)
    as (Hi & Hs & _ & _ & H & _).
  destruct (H eq_refl 0%nat
              (Device.mk 1 (Some "sw1") "10.0.0.1" (Some "public") "up"
                         (Some 1002) None) eq_refl)
    as (d' & -> & Hst & Hseen & _).
  replace (devices (poll_device sample_str sample_int tick sw1_info (VInt 5)
                                two_interfaces true poll_db))
    with [Device.mk 1 (Some "sw1") "10.0.0.1" (Some "public") "up"
                    (Some 1002) None; sw2] by reflexivity.
  split; [cbn; by rewrite Hst|]. split; [cbn; by rewrite Hseen|].
  split; [exact Hi|exact Hs].
Defined.

(** C1, the defect.  The fallback branch inserts without a lookup: two
    cycles that observe the same adjacency (neighbour without a name, with
    an address no managed device has) leave two link rows with the same
    (src device, src interface, dst, dst interface) tuple.  The branch for
    a managed neighbour looks the tuple up first: there the second cycle
    only refreshes last-seen. *)
Theorem fallback_link_duplicated :
  (let db1 := poll_device sample_str sample_int tick sw1_info (VInt 5)
                          nameless_neighbor true poll_db in
   let db2 := poll_device sample_str sample_int tock sw1_info (VInt 5)
                          nameless_neighbor true db1 in
   TopologyLink.key <$> topology_links db1 = [(1, "eth0", None, None, "")]
   /\ TopologyLink.key <$> topology_links db2
      = [(1, "eth0", None, None, ""); (1, "eth0", None, None, "")]
   /\ TopologyLink.id <$> topology_links db2 = [1; 2])
  /\ (let db1 := poll_device sample_str sample_int tick sw1_info (VInt 5)
                             managed_neighbor true poll_db in
      let db2 := poll_device sample_str sample_int tock sw1_info (VInt 5)
                             managed_neighbor true db1 in
      TopologyLink.key <$> topology_links db1
      = [(1, "eth0", Some 2, None, "Gi0/24")]
      /\ TopologyLink.key <$> topology_links db2
         = [(1, "eth0", Some 2, None, "Gi0/24")]
      /\ TopologyLink.last_seen <$> topology_links db1 = [1001]
      /\ TopologyLink.last_seen <$> topology_links db2 = [2001]).
Proof. by vm_compute. Qed.

(** C2, the defect.  For an unmanaged neighbour with a name the worker does
    find or create the discovered device, but the statement that records
    the name on the polled device reads an unbound name: the device's
    [lldp_hostname] stays empty (no call of the worker ever changes that
    column), and the iteration ends before any link is stored. *)
Theorem discovered_hostname_never_recorded :
  (let db' := poll_device sample_str sample_int tick sw1_info (VInt 5)
                          phone_neighbor true poll_db in
   DiscoveredDevice.lldp_hostname <$> discovered_devices db'
   = ["SEP001122334455"]
   /\ Device.lldp_hostname <$> devices poll_db = [None; None]
   /\ Device.lldp_hostname <$> devices db' = [None; None]
   /\ topology_links db' = [])
  /\ (forall py_str py_int clock info interval w commit_ok db,
        Device.lldp_hostname
          <$> devices (poll_device py_str py_int clock info interval w
                                   commit_ok db)
        = Device.lldp_hostname <$> devices db)
  /\ (forall s info,
        fst (find_or_create_discovered tick info s)
        = Raise (NameError "device")).
Proof.
  split; [by vm_compute|]. split; [apply poll_device_lldp_hostname|].
  intros s info.
  unfold find_or_create_discovered, mbind, M_bind, get_session. cbn.
  destruct (list_find _ _) as [[? ?]|]; reflexivity.
Qed.

(** ** The scheduler *)

Lemma list_find_alter_other {X} (P : X -> Prop) `{!forall x, Decision (P x)}
  (f : X -> X) p (l : list X) x :
  l !! p = Some x -> ~ P x -> ~ P (f x) ->
  list_find P (alter f p l) = list_find P l.
Proof.
  revert p. induction l as [|y l IH]; intros [|p] Hp Hx Hfx; [done..| |].
  - injection Hp as ->. cbn. rewrite !decide_False by done.
    reflexivity.
  - cbn. destruct (decide (P y)); [done|].
    cbn in Hp. by rewrite (IH p Hp Hx Hfx).
Qed.

Lemma list_find_alter_found {X} (P : X -> Prop) `{!forall x, Decision (P x)}
  (f : X -> X) p (l : list X) x :
  list_find P l = Some (p, x) -> P (f x) ->
  list_find P (alter f p l) = Some (p, f x).
Proof.
  revert p. induction l as [|y l IH]; intros p Hf Hfx; [done|].
  cbn in Hf. destruct (decide (P y)) as [Hy|Hy].
  - injection Hf as <- <-. cbn. by rewrite decide_True.
  - destruct (list_find P l) as [[q z]|] eqn:E; [|done].
    injection Hf as <- <-. cbn. rewrite decide_False by done.
    by rewrite (IH q eq_refl Hfx).
Qed.

Lemma status_of_mark_other j k st seen rows :
  j <> k -> status_of (mark_device j st seen rows) k = status_of rows k.
Proof.
  intros Hjk. unfold status_of, mark_device.
  destruct (list_find (fun d => Device.id d = j) rows) as [[p d]|] eqn:E;
    [|done].
  apply list_find_Some in E as (Hp & Hd & _).
  rewrite (list_find_alter_other _ _ p rows d); [done..| |]; simpl; congruence.
Qed.

Lemma status_of_mark_same k st seen rows :
  is_Some (status_of rows k) ->
  status_of (mark_device k st seen rows) k = Some st.
Proof.
  unfold status_of, mark_device. intros [x Hx].
  destruct (list_find (fun d => Device.id d = k) rows) as [[p d]|] eqn:E;
    [|done].
  rewrite (list_find_alter_found _ _ p rows d E); [done|].
  apply list_find_Some in E as (_ & Hd & _). done.
Qed.

Lemma says_down_status db k :
  says_down db k = true <-> status_of (devices db) k = Some "down".
Proof.
  unfold says_down, status_of.
  destruct (list_find _ (devices db)) as [[p d]|]; simpl; [|done].
  rewrite String.eqb_eq. split; congruence.
Qed.

Lemma device_infos_lookup db i info :
  device_infos db !! i = Some info ->
  exists d, devices db !! i = Some d /\ DeviceInfo.id info = Device.id d
            /\ DeviceInfo.ip_address info = Device.ip_address d.
Proof.
  unfold device_infos. rewrite list_lookup_fmap.
  destruct (devices db !! i) as [d|]; [|done].
  intros [= <-]. eauto.
Qed.

Lemma status_of_is_Some rows i d :
  rows !! i = Some d -> is_Some (status_of rows (Device.id d)).
Proof.
  intros Hi. unfold status_of.
  destruct (list_find (fun d0 => Device.id d0 = Device.id d) rows)
    as [[p x]|] eqn:E; [by eexists|].
  apply list_find_None in E. rewrite Forall_forall in E.
  exfalso. apply (E d); [|done]. by eapply list_elem_of_lookup_2.
Qed.

Section SweepFacts.
Variable py_str : PyVal -> string.
Variable py_int : PyVal -> result Z.

(** A sibling worker leaves the status of another device alone. *)
Lemma poll_device_status_other clock info interval w commit_ok db k :
  DeviceInfo.id info <> k ->
  status_of
    (devices (poll_device py_str py_int clock info interval w commit_ok db)) k
  = status_of (devices db) k.
Proof.
  intros Hk.
  destruct (poll_device_devices py_str py_int clock info interval w commit_ok
                                db) as [->|(st & seen & ->)]; [done|].
  by apply status_of_mark_other.
Qed.

Lemma apply_ping_run clock dev_id ip ok s :
  exists seen n,
    apply_ping clock (dev_id, ip, ok) s
    = (Ok tt,
       mkPollState
         (with_devices
            (mark_device dev_id (if ok then "up" else "down") seen)
            (session s))
         (existing_ifaces s) n).
Proof.
  unfold apply_ping, mbind, M_bind, get_session. cbn.
  destruct (list_find _ (devices (session s))) as [[p d]|] eqn:E.
  - destruct ok; cbn; by eexists _, _.
  - exists None, (clock_reads s). unfold with_devices, mark_device.
    rewrite E. by destruct s as [[] ? ?].
Qed.

(** Phase A on the whole list of results: it never raises; a device whose
    probe failed ends "down" when its id occurs once. *)
Lemma for_each_apply_ping clock results s :
  exists s',
    for_each (apply_ping clock) results s = (Ok tt, s')
    /\ (forall k, k ∉ (fun r => fst (fst r)) <$> results ->
          status_of (devices (session s')) k
          = status_of (devices (session s)) k)
    /\ (forall k, is_Some (status_of (devices (session s)) k) ->
          is_Some (status_of (devices (session s')) k))
    /\ (forall k ip,
          NoDup ((fun r => fst (fst r)) <$> results) ->
          (k, ip, false) ∈ results ->
          is_Some (status_of (devices (session s)) k) ->
          status_of (devices (session s')) k = Some "down").
Proof.
  revert s. induction results as [|[[dev_id ip] ok] results IH]; intros s.
  { exists s. repeat split; try done. intros k ip _ H.
    by apply elem_of_nil in H. }
  destruct (apply_ping_run clock dev_id ip ok s) as (seen & n & Hrun).
  cbn [for_each]. unfold mbind, M_bind. rewrite Hrun.
  match goal with |- context [for_each _ results ?s1] =>
    destruct (IH s1) as (s' & -> & Hother & Hsome & Hdown) end.
  cbn [session devices with_devices] in Hother, Hsome, Hdown.
  assert (Hstep : forall k, is_Some (status_of (devices (session s)) k) ->
            is_Some (status_of (mark_device dev_id
                       (if ok then "up" else "down") seen
                       (devices (session s))) k)).
  { intros k Hk. destruct (decide (dev_id = k)) as [->|Hne].
    - rewrite status_of_mark_same by done. by eexists.
    - by rewrite status_of_mark_other. }
  exists s'. split; [done|]. split; [|split].
  - intros k Hk. rewrite fmap_cons, not_elem_of_cons in Hk.
    destruct Hk as [Hk1 Hk2]. rewrite Hother by done.
    apply status_of_mark_other. cbn in Hk1. congruence.
  - intros k Hk. by apply Hsome, Hstep.
  - intros k ip' Hnd Hin Hk. rewrite fmap_cons in Hnd.
    apply NoDup_cons in Hnd as [Hfresh Hnd].
    apply elem_of_cons in Hin as [Heq|Hin].
    + simplify_eq. rewrite Hother by done. by apply status_of_mark_same.
    + eapply Hdown; [done..|]. by apply Hstep.
Qed.

End SweepFacts.

Lemma slots_in_use_insert tasks j old new :
  tasks !! j = Some old ->
  (slots_in_use (<[j := new]> tasks) + (if holds_slot old then 1 else 0)
   = slots_in_use tasks + (if holds_slot new then 1 else 0))%nat.
Proof.
  unfold slots_in_use.
  revert j. induction tasks as [|t tasks IH]; intros [|j] Hj; [done..| |].
  - injection Hj as ->. simpl.
    destruct (holds_slot old), (holds_slot new); simpl; lia.
  - simpl in Hj. specialize (IH j Hj). simpl.
    destruct (holds_slot t); simpl; lia.
Qed.

Lemma ping_results_ids db (connects : nat -> bool) :
  (fun r : Z * string * bool => fst (fst r))
  <$> imap (fun i info => ping_worker info (connects i)) (device_infos db)
  = Device.id <$> devices db.
Proof.
  apply list_eq. intros j. unfold device_infos.
  rewrite !list_lookup_fmap, list_lookup_imap, list_lookup_fmap.
  by destruct (devices db !! j).
Qed.

Section SweepInvariant.
Variable py_str : PyVal -> string.
Variable py_int : PyVal -> result Z.

Lemma reachability_marks_down clock connects db i info :
  NoDup (Device.id <$> devices db) ->
  device_infos db !! i = Some info ->
  async_ping (DeviceInfo.ip_address info) (connects i) = false ->
  says_down
    (reachability_phase clock
       (imap (fun i info => ping_worker info (connects i)) (device_infos db))
       true db)
    (DeviceInfo.id info) = true.
Proof.
  intros Hnd Hi Hping. unfold reachability_phase.
  destruct (for_each_apply_ping clock
              (imap (fun i info => ping_worker info (connects i))
                    (device_infos db))
              (mkPollState db ∅ 0)) as (s' & -> & _ & _ & Hdown).
  apply says_down_status.
  apply (Hdown _ (DeviceInfo.ip_address info)).
  - by rewrite ping_results_ids.
  - apply list_elem_of_lookup. exists i.
    rewrite list_lookup_imap, Hi. cbn. unfold ping_worker. by rewrite Hping.
  - cbn. apply device_infos_lookup in Hi as (d & Hd & -> & _).
    by eapply status_of_is_Some.
Qed.

(** While the database says "down" for device [i], its task never gets
    past the status check, whatever the siblings do. *)
Lemma sweep_keeps_down_unpolled infos interval s0 s i info :
  NoDup (DeviceInfo.id <$> infos) ->
  infos !! i = Some info ->
  rtc (sweep_step py_str py_int infos interval) s0 s ->
  says_down (sweep_db s0) (DeviceInfo.id info) = true ->
  never_polling (sweep_tasks s0 !! i) ->
  (slots_in_use (sweep_tasks s0) <= max_concurrency)%nat ->
  says_down (sweep_db s) (DeviceInfo.id info) = true
  /\ never_polling (sweep_tasks s !! i)
  /\ (slots_in_use (sweep_tasks s) <= max_concurrency)%nat.
Proof.
  intros Hnd Hi Hrtc Hd0 Ht0 Hs0. revert s Hrtc.
  apply (rtc_ind_r (fun s =>
    says_down (sweep_db s) (DeviceInfo.id info) = true
    /\ never_polling (sweep_tasks s !! i)
    /\ (slots_in_use (sweep_tasks s) <= max_concurrency)%nat)); [done|].
  intros s1 s2 Hrtc Hstep (Hd & Ht & Hs).
  assert (Hother : forall j info_j clock w ok,
            sweep_tasks s1 !! j = Some Polling ->
            infos !! j = Some info_j ->
            i <> j
            /\ says_down (poll_device py_str py_int clock info_j interval w ok
                                      (sweep_db s1))
                         (DeviceInfo.id info) = true).
  { intros j info_j clock w ok Hj Hij.
    assert (Hne : i <> j).
    { intros ->. rewrite Hj in Ht. by destruct Ht as [?|[?|[?|?]]]. }
    split; [done|].
    apply says_down_status. rewrite poll_device_status_other.
    - by apply says_down_status.
    - intros Heq. apply Hne.
      eapply (NoDup_lookup (DeviceInfo.id <$> infos)); [done| |].
      + by rewrite list_lookup_fmap, Hi.
      + rewrite list_lookup_fmap, Hij. cbn. by rewrite Heq. }
  destruct Hstep as [s1 j Hj Hfree|s1 j info_j Hj Hij Hdown
                    |s1 j info_j Hj Hij Hup|s1 j info_j clock w ok Hj Hij
                    |s1 j Hj|s1 j info_j clock w ok Hj Hij];
    cbn [sweep_db sweep_tasks].
  - split; [done|]. split.
    + destruct (decide (i = j)) as [->|Hne].
      * rewrite list_lookup_insert_eq by (by eapply lookup_lt_Some).
        right; by left.
      * by rewrite list_lookup_insert_ne.
    + pose proof (slots_in_use_insert _ _ _ Holding Hj) as E. cbn in E. lia.
  - split; [done|]. split.
    + destruct (decide (i = j)) as [->|Hne].
      * rewrite list_lookup_insert_eq by (by eapply lookup_lt_Some).
        right; right; by left.
      * by rewrite list_lookup_insert_ne.
    + pose proof (slots_in_use_insert _ _ _ Skipped Hj) as E. cbn in E. lia.
  - split; [done|]. split.
    + destruct (decide (i = j)) as [->|Hne].
      * rewrite Hi in Hij. injection Hij as <-. congruence.
      * by rewrite list_lookup_insert_ne.
    + pose proof (slots_in_use_insert _ _ _ Polling Hj) as E. cbn in E. lia.
  - destruct (Hother j info_j clock w ok Hj Hij) as [Hne Hsd].
    split; [done|]. split.
    + by rewrite list_lookup_insert_ne.
    + pose proof (slots_in_use_insert _ _ _ Polled Hj) as E. cbn in E. lia.
  - split; [done|]. split.
    + destruct (decide (i = j)) as [->|Hne].
      * rewrite list_lookup_insert_eq by (by eapply lookup_lt_Some).
        right; right; by right.
      * by rewrite list_lookup_insert_ne.
    + pose proof (slots_in_use_insert _ _ _ ReadFailed Hj) as E. cbn in E.
      lia.
  - destruct (Hother j info_j clock w ok Hj Hij) as [Hne Hsd].
    split; [done|]. split.
    + by rewrite list_lookup_insert_ne.
    + pose proof (slots_in_use_insert _ _ _ PollFailed Hj) as E. cbn in E.
      lia.
Qed.

Lemma slots_in_use_waiting n : slots_in_use (replicate n Waiting) = 0%nat.
Proof. unfold slots_in_use. by induction n. Qed.

(** C7, as amended.  In a cycle whose reachability phase is committed, a
    device whose probe failed is never polled: its task may take a slot of
    the protocol pool, reads the status while it holds the slot, and
    returns without polling (or ends there, when the read raises), since
    no sibling worker changes its status; at most [max_concurrency] tasks
    hold a slot at any time. *)
Theorem down_device_is_never_polled clock_a connects interval db s i info :
  NoDup (Device.id <$> devices db) ->
  device_infos db !! i = Some info ->
  async_ping (DeviceInfo.ip_address info) (connects i) = false ->
  cycle_reaches py_str py_int clock_a connects true interval db s ->
  never_polling (sweep_tasks s !! i)
  /\ says_down (sweep_db s) (DeviceInfo.id info) = true
  /\ (slots_in_use (sweep_tasks s) <= max_concurrency)%nat.
Proof.
  intros Hnd Hi Hping Hreach. unfold cycle_reaches in Hreach.
  assert (Hnd' : NoDup (DeviceInfo.id <$> device_infos db)).
  { unfold device_infos. by rewrite <- list_fmap_compose. }
  destruct (sweep_keeps_down_unpolled _ _ _ _ i info Hnd' Hi Hreach)
    as (Hd & Ht & Hs).
  - cbn. by apply (reachability_marks_down clock_a connects db i info).
  - left. cbn. apply lookup_replicate_2. apply (lookup_lt_Some _ _ _ Hi).
  - unfold sweep_start. cbn [sweep_tasks].
    rewrite slots_in_use_waiting. unfold max_concurrency. lia.
  - done.
Qed.

End SweepInvariant.

Lemma down_device_is_never_polled_witness :
  let db_a := reachability_phase tick
                (imap (fun i info => ping_worker info false)
                      (device_infos poll_db)) true poll_db in
  let s := mkSweep db_a [Skipped; Waiting] in
  cycle_reaches sample_str sample_int tick (fun _ => false) true (VInt 5)
                poll_db s
  /\ never_polling (sweep_tasks s !! 0%nat)
  /\ says_down (sweep_db s) 1 = true.
Proof.
  cbv zeta.
  assert (Hreach : cycle_reaches sample_str sample_int tick (fun _ => false)
                     true (VInt 5) poll_db
                     (mkSweep (reachability_phase tick
                                 (imap (fun i info => ping_worker info false)
                                       (device_infos poll_db)) true poll_db)
                              [Skipped; Waiting])).
  { unfold cycle_reaches.
    set (db_a := reachability_phase tick _ true poll_db).
    refine (rtc_l _ _ _ _
              (step_acquire sample_str sample_int (device_infos poll_db)
                 (VInt 5) (sweep_start db_a (device_infos poll_db)) 0%nat
                 eq_refl _) _); [vm_compute; lia|].
    refine (rtc_l _ _ _ _
              (step_skip sample_str sample_int (device_infos poll_db)
                 (VInt 5) (mkSweep db_a [Holding; Waiting]) 0%nat sw1_info
                 eq_refl eq_refl eq_refl)
              (rtc_refl _ _)). }
  split; [exact Hreach|].
  assert (Hnd : NoDup (Device.id <$> devices poll_db))
    by (by apply (bool_decide_unpack _)).
  destruct (down_device_is_never_polled sample_str sample_int tick
              (fun _ => false) (VInt 5) poll_db _ 0%nat sw1_info
              Hnd eq_refl eq_refl Hreach)
    as (Ht & Hd & _).
  split; [exact Ht|exact Hd].
Defined.

(** C7 as stated fails on the order of the two events: the slot is taken
    first and the status read afterwards, so a device marked down in the
    reachability phase does occupy a slot of the protocol pool. *)
Lemma down_device_takes_a_slot :
  let db_a := reachability_phase tick
                (imap (fun i info => ping_worker info false)
                      (device_infos poll_db)) true poll_db in
  let s := mkSweep db_a [Holding; Waiting] in
  cycle_reaches sample_str sample_int tick (fun _ => false) true (VInt 5)
                poll_db s
  /\ says_down (sweep_db s) 1 = true
  /\ holds_slot <$> sweep_tasks s !! 0%nat = Some true
  /\ slots_in_use (sweep_tasks s) = 1%nat.
Proof.
  cbv zeta. split; [|by vm_compute].
  unfold cycle_reaches.
  refine (rtc_l _ _ _ _
            (step_acquire sample_str sample_int (device_infos poll_db) (VInt 5)
               (sweep_start _ (device_infos poll_db)) 0%nat eq_refl _)
            (rtc_refl _ _)).
  vm_compute. lia.
Qed.

(** ** The interface upsert *)

Lemma keeps_lift_bind {A B} I (r : result A) (f : A -> M B) :
  (forall a, r = Ok a -> keeps I (f a)) -> keeps I (lift r ≫= f).
Proof.
  intros H s Hs. unfold mbind, M_bind, lift.
  destruct r as [a|e]; [by apply H|done].
Qed.

Lemma keeps_and {A} (I1 I2 : PollState -> Prop) (m : M A) :
  keeps I1 m -> keeps I2 m -> keeps (fun s => I1 s /\ I2 s) m.
Proof. intros H1 H2 s [? ?]. split; [by apply H1|by apply H2]. Qed.

Lemma device_keys_app dev rows row :
  device_keys dev (rows ++ [row])
  = device_keys dev rows
    ++ (if decide (Interface.device_id row = dev) then [iface_key row]
        else []).
Proof.
  unfold device_keys. rewrite filter_app, fmap_app. f_equal.
  rewrite filter_cons, filter_nil. by destruct (decide _).
Qed.

Lemma device_keys_alter dev f ref rows :
  (forall r, row_identity (f r) = row_identity r) ->
  device_keys dev (alter f ref rows) = device_keys dev rows.
Proof.
  intros Hf. unfold device_keys.
  assert (Hk : forall r, Interface.device_id (f r) = Interface.device_id r
                         /\ iface_key (f r) = iface_key r).
  { intros r. specialize (Hf r). unfold row_identity, iface_key in *.
    injection Hf as _ -> ->. done. }
  revert ref. induction rows as [|r rows IH]; intros [|ref]; [done..| |].
  - change (alter f 0%nat (r :: rows)) with (f r :: rows).
    rewrite !filter_cons. destruct (Hk r) as [-> Hkey].
    destruct (decide _); [|done]. by rewrite !fmap_cons, Hkey.
  - change (alter f (S ref) (r :: rows)) with (r :: alter f ref rows).
    rewrite !filter_cons.
    destruct (decide _); [rewrite !fmap_cons|]; by rewrite <- (IH ref).
Qed.

Section Upsert.
Variable py_str : PyVal -> string.
Variable py_int : PyVal -> result Z.
Variable clock : nat -> Z.

Lemma add_stats_ifaces R intf i o :
  keeps (ifaces_inv R) (add_stats clock intf i o).
Proof. unfold add_stats. repeat keeps_step; by intros. Qed.

Lemma process_neighbor_ifaces R device_id name info :
  keeps (ifaces_inv R) (process_neighbor clock device_id name info).
Proof.
  unfold process_neighbor, find_or_create_discovered, upsert_link,
    add_fallback_link.
  repeat keeps_step; by intros.
Qed.

(** The upsert always returns a reference, and the dict then knows the
    name. *)
Lemma upsert_interface_run dev name st mac speed s :
  exists ref s',
    upsert_interface dev name st mac speed s = (Ok ref, s')
    /\ is_Some (existing_ifaces s' !! name).
Proof.
  unfold upsert_interface, mbind, M_bind, get_existing. cbn.
  destruct (existing_ifaces s !! name) as [ref|] eqn:E; cbn.
  - eexists _, _. split; [reflexivity|]. cbn. by rewrite E.
  - eexists _, _. split; [reflexivity|]. cbn.
    rewrite lookup_insert_eq. by eexists.
Qed.

Lemma upsert_interface_ifaces dev (N : string -> Prop) R name st mac speed :
  upsert_closed dev N R -> N name ->
  keeps (ifaces_inv R) (upsert_interface dev name st mac speed).
Proof.
  intros [Halter Hnew] HN s Hs.
  unfold upsert_interface, mbind, M_bind, get_existing. cbn.
  destruct (existing_ifaces s !! name) as [ref|] eqn:E; cbn.
  - unfold ifaces_inv. cbn. eapply Halter; eauto.
  - unfold ifaces_inv. cbn. eapply Hnew; eauto.
Qed.

Lemma process_interface_ifaces dev (N : string -> Prop) R interval w
  neighbors oid v :
  upsert_closed dev N R ->
  (forall d, decode_interface py_str py_int interval w oid v = Ok d ->
             N (dec_name d)) ->
  keeps (ifaces_inv R)
        (process_interface py_str py_int clock dev interval w neighbors
                           oid v).
Proof.
  intros Hc HN. unfold process_interface.
  apply keeps_lift_bind. intros d Hd.
  keeps_step; [by eapply upsert_interface_ifaces; eauto|].
  keeps_step; [apply add_stats_ifaces|].
  keeps_step; [apply process_neighbor_ifaces|keeps_step].
Qed.

Lemma poll_loop_ifaces dev (N : string -> Prop) R interval w neighbors s :
  upsert_closed dev N R ->
  (forall oid v d,
     (oid, v) ∈ items (if_descr w) ->
     decode_interface py_str py_int interval w oid v = Ok d ->
     N (dec_name d)) ->
  ifaces_inv R s ->
  ifaces_inv R (poll_loop py_str py_int clock dev interval w neighbors s).
Proof.
  intros Hc. unfold poll_loop. generalize (items (if_descr w)).
  intros l. revert s.
  induction l as [|[oid v] l IH]; intros s HN Hs; [done|]. cbn.
  apply IH.
  - intros oid' v' d' Hin. apply HN. by right.
  - eapply process_interface_ifaces; [done| |done].
    intros d. apply HN. by left.
Qed.

End Upsert.

Lemma iface_key_named row name :
  Interface.interface_name row = Some name -> strip name = name ->
  iface_key row = name.
Proof. unfold iface_key. intros -> Hn. exact Hn. Qed.

Lemma dict_mirrors_closed dev :
  upsert_closed dev (fun n => strip n = n) (dict_mirrors dev).
Proof.
  split.
  - intros rows m name ref f _ Hf _ HR n.
    rewrite device_keys_alter by done. apply HR.
  - intros rows m name row Hn Hdev Hname Hnone HR n.
    rewrite device_keys_app, decide_True by done.
    rewrite (iface_key_named _ _ Hname Hn).
    rewrite elem_of_app, list_elem_of_singleton, <- (HR n).
    destruct (decide (name = n)) as [->|Hne].
    + rewrite lookup_insert_eq. split; [by right|by eexists].
    + rewrite lookup_insert_ne by done. split; [by left|].
      by intros [?|?].
Qed.

Lemma rows_in_place_closed dev N old :
  upsert_closed dev N (fun rows _ => rows_in_place old rows).
Proof.
  unfold rows_in_place. split.
  - intros rows m name ref f _ Hf _ HR. by rewrite fmap_alter_same.
  - intros rows m name row _ _ _ _ HR. rewrite fmap_app.
    by apply prefix_app_r.
Qed.

Lemma only_new_names_closed dev old :
  upsert_closed dev (fun n => strip n = n)
    (fun rows m => dict_mirrors dev rows m /\ only_new_names dev old rows).
Proof.
  destruct (dict_mirrors_closed dev) as [Halter Hnew]. split.
  - intros rows m name ref f Hn Hf Hm [HR Ho].
    split; [by eapply Halter|].
    unfold only_new_names. by rewrite device_keys_alter.
  - intros rows m name row Hn Hdev Hname Hnone [HR (news & Hk & Hnd & Hfresh)].
    split; [by eapply Hnew|].
    assert (Hnot : name ∉ device_keys dev rows).
    { intros Hin. apply HR in Hin as [x Hx]. congruence. }
    exists (news ++ [name]).
    rewrite device_keys_app, decide_True by done.
    rewrite (iface_key_named _ _ Hname Hn), Hk, <- app_assoc.
    split; [done|]. rewrite Hk in Hnot.
    apply not_elem_of_app in Hnot as [Hold Hnews]. split.
    + apply NoDup_app. split; [done|]. split; [|apply NoDup_singleton].
      intros x Hx Hx'. apply list_elem_of_singleton in Hx' as ->. done.
    + intros n Hin. apply elem_of_app in Hin as [Hin|Hin]; [by apply Hfresh|].
      by apply list_elem_of_singleton in Hin as ->.
Qed.

Lemma knows_closed dev N n :
  upsert_closed dev N (fun _ m => is_Some (m !! n)).
Proof.
  split; [done|]. intros rows m name row _ _ _ _ [x Hx].
  destruct (decide (name = n)) as [->|Hne].
  - rewrite lookup_insert_eq. by eexists.
  - rewrite lookup_insert_ne by done. by eexists.
Qed.

Lemma index_ifaces_lookup dev rows pos m n :
  is_Some (index_ifaces dev rows pos m !! n)
  <-> is_Some (m !! n) \/ n ∈ device_keys dev rows.
Proof.
  revert pos m. induction rows as [|r rows IH]; intros pos m.
  { cbn [index_ifaces]. split; [by left|]. intros [?|H]; [done|].
    by apply elem_of_nil in H. }
  cbn [index_ifaces]. rewrite IH. unfold device_keys.
  rewrite filter_cons. destruct (decide (Interface.device_id r = dev)).
  - rewrite fmap_cons, elem_of_cons.
    destruct (decide (iface_key r = n)) as [->|Hne].
    + rewrite lookup_insert_eq. split; [intros _; right; by left|].
      intros _. left. by eexists.
    + rewrite lookup_insert_ne by done. split; intros [?|?]; auto.
      destruct H as [?|?]; [congruence|auto].
  - done.
Qed.

Lemma index_ifaces_mirrors dev rows :
  dict_mirrors dev rows (index_ifaces dev rows 0 ∅).
Proof.
  intros n. rewrite index_ifaces_lookup, lookup_empty.
  split; [intros [[x Hx]|?]; done|by right].
Qed.

Section Repoll.
Variable py_str : PyVal -> string.
Variable py_int : PyVal -> result Z.

Lemma decode_interface_name interval w oid v d :
  decode_interface py_str py_int interval w oid v = Ok d ->
  strip (dec_name d) = dec_name d.
Proof.
  unfold decode_interface, mbind, result_bind. intros H.
  repeat match type of H with
  | match ?x with _ => _ end = Ok _ => destruct x; try discriminate H
  end.
  injection H as <-. cbn. apply strip_idemp.
Qed.

Lemma process_interface_knows clock dev interval w neighbors oid v d s :
  decode_interface py_str py_int interval w oid v = Ok d ->
  is_Some (existing_ifaces
             (run_logged (process_interface py_str py_int clock dev interval
                                            w neighbors oid v) s)
           !! dec_name d).
Proof.
  intros Hd. unfold run_logged, process_interface.
  unfold mbind at 1. unfold M_bind at 1. unfold lift. rewrite Hd.
  unfold mbind at 1. unfold M_bind at 1.
  destruct (upsert_interface_run dev (dec_name d) (dec_oper_status d)
              (dec_mac d) (dec_speed_bps d) s) as (ref & s1 & -> & Hk).
  revert s1 Hk.
  change (keeps (ifaces_inv (fun _ m => is_Some (m !! dec_name d)))
            (add_stats clock ref (dec_in_bps d) (dec_out_bps d);;
             match neighbors !! dec_index d with
             | Some neighbor_info =>
                 process_neighbor clock dev (dec_name d) neighbor_info
             | None => mret tt
             end)).
  keeps_step; [apply add_stats_ifaces|].
  keeps_step; [apply process_neighbor_ifaces|keeps_step].
Qed.

(** After the loop the dict knows the name of every item that decoded. *)
Lemma poll_loop_knows clock dev interval w neighbors s oid v d :
  (oid, v) ∈ items (if_descr w) ->
  decode_interface py_str py_int interval w oid v = Ok d ->
  is_Some (existing_ifaces
             (poll_loop py_str py_int clock dev interval w neighbors s)
           !! dec_name d).
Proof.
  unfold poll_loop. generalize (items (if_descr w)). intros l. revert s.
  induction l as [|[oid' v'] l IH]; intros s Hin Hd.
  { by apply elem_of_nil in Hin. }
  cbn [foldl].
  apply elem_of_cons in Hin as [[= <- <-]|Hl]; [|by apply IH].
  pose proof (process_interface_knows clock dev interval w neighbors oid v d
                s Hd) as Hk.
  revert Hk. generalize (run_logged
    (process_interface py_str py_int clock dev interval w neighbors oid v) s).
  clear IH. induction l as [|[oid' v'] l IH]; intros s1 Hk; [done|].
  cbn [foldl]. apply IH.
  eapply (process_interface_ifaces py_str py_int clock dev (fun _ => True)
            (fun _ m => is_Some (m !! dec_name d)));
    [apply knows_closed|done|done].
Qed.

End Repoll.

Lemma known_names_closed dev (N : string -> Prop) L :
  upsert_closed dev N
    (fun rows m => (forall n, N n -> is_Some (m !! n)) /\ length rows = L).
Proof.
  split.
  - intros rows m name ref f _ _ _ [HK HL]. split; [done|].
    by rewrite length_alter.
  - intros rows m name row Hn _ _ Hnone [HK _].
    destruct (HK name Hn) as [x Hx]. congruence.
Qed.

(** ** What the upsert writes *)

Lemma latest_cons {A} (o : option A) given held :
  latest (o :: given) held
  = latest given (match o with Some x => Some x | None => held end).
Proof. reflexivity. Qed.

Lemma refreshed_by_nil r : refreshed_by [] r r.
Proof. by repeat split. Qed.

Lemma refreshed_by_cons d ds old mid new :
  refreshed_by [d] old mid -> refreshed_by ds mid new ->
  refreshed_by (d :: ds) old new.
Proof.
  intros (Hi & Hs & Hm & Hv) (Hi' & Hs' & Hm' & Hv').
  unfold refreshed_by. rewrite !fmap_cons, !latest_cons.
  cbn in Hs, Hm, Hv. rewrite <- Hs, <- Hm, <- Hv. by rewrite Hi', Hi.
Qed.

Lemma created_by_cons dev n d ds mid new :
  created_by dev n [d] mid -> refreshed_by ds mid new ->
  created_by dev n (d :: ds) new.
Proof.
  intros (Hd & Hn & Hs & Hm & Hv) (Hi' & Hs' & Hm' & Hv').
  unfold created_by. rewrite !fmap_cons, !latest_cons.
  cbn in Hs, Hm, Hv. rewrite <- Hs, <- Hm, <- Hv.
  unfold row_identity in Hi'. injection Hi' as _ Hd' Hn'.
  by rewrite Hd', Hn'.
Qed.

Lemma bind_run {A B} (m : M A) (f : A -> M B) s :
  (m ≫= f) s
  = match m s with
    | (Ok a, s') => f a s'
    | (Raise e, s') => (Raise e, s')
    end.
Proof. reflexivity. Qed.

Section UpsertRows.
Variable py_str : PyVal -> string.
Variable py_int : PyVal -> result Z.
Variable clock : nat -> Z.

(** What follows the upsert in an iteration leaves the interface rows and
    the dict as the upsert left them. *)
Lemma process_interface_after_upsert dev interval w neighbors oid v d s ref
  s1 :
  decode_interface py_str py_int interval w oid v = Ok d ->
  upsert_interface dev (dec_name d) (dec_oper_status d) (dec_mac d)
                   (dec_speed_bps d) s = (Ok ref, s1) ->
  let s' := run_logged (process_interface py_str py_int clock dev interval w
                                          neighbors oid v) s in
  interfaces (session s') = interfaces (session s1)
  /\ existing_ifaces s' = existing_ifaces s1.
Proof.
  intros Hd Hu.
  assert (K : keeps (ifaces_inv (fun rows m =>
                       rows = interfaces (session s1)
                       /\ m = existing_ifaces s1))
            (add_stats clock ref (dec_in_bps d) (dec_out_bps d);;
             match neighbors !! dec_index d with
             | Some neighbor_info =>
                 process_neighbor clock dev (dec_name d) neighbor_info
             | None => mret tt
             end)).
  { keeps_step; [apply add_stats_ifaces|].
    keeps_step; [apply process_neighbor_ifaces|keeps_step]. }
  specialize (K s1 (conj eq_refl eq_refl)).
  cbv zeta.
  replace (run_logged _ s) with
    (snd ((add_stats clock ref (dec_in_bps d) (dec_out_bps d);;
           match neighbors !! dec_index d with
           | Some neighbor_info =>
               process_neighbor clock dev (dec_name d) neighbor_info
           | None => mret tt
           end) s1)); [exact K|].
  unfold run_logged, process_interface.
  rewrite (bind_run (lift (decode_interface py_str py_int interval w oid v))).
  unfold lift at 1. rewrite Hd.
  rewrite (bind_run (upsert_interface dev (dec_name d) (dec_oper_status d)
                                      (dec_mac d) (dec_speed_bps d))).
  by rewrite Hu.
Qed.

(** One iteration, seen from the interface table and the dict. *)
Lemma process_interface_rows dev interval w neighbors oid v s :
  let s' := run_logged (process_interface py_str py_int clock dev interval w
                                          neighbors oid v) s in
  let rows := interfaces (session s) in
  let rows' := interfaces (session s') in
  match decode_interface py_str py_int interval w oid v with
  | Raise _ => rows' = rows /\ existing_ifaces s' = existing_ifaces s
  | Ok d =>
      match existing_ifaces s !! dec_name d with
      | Some ref =>
          existing_ifaces s' = existing_ifaces s
          /\ length rows' = length rows
          /\ (forall j, j <> ref -> rows' !! j = rows !! j)
          /\ forall old, rows !! ref = Some old ->
               exists new, rows' !! ref = Some new
                           /\ refreshed_by [d] old new
      | None =>
          existing_ifaces s'
          = <[dec_name d := length rows]> (existing_ifaces s)
          /\ exists new, rows' = rows ++ [new]
                         /\ created_by dev (dec_name d) [d] new
      end
  end.
Proof.
  cbv zeta.
  destruct (decode_interface py_str py_int interval w oid v) as [d|e] eqn:Hd.
  2:{ unfold run_logged, process_interface.
      unfold mbind at 1. unfold M_bind at 1. unfold lift. by rewrite Hd. }
  destruct (existing_ifaces s !! dec_name d) as [ref|] eqn:E.
  - edestruct (process_interface_after_upsert dev interval w neighbors oid v
                 d s) as [-> ->]; [done| |].
    { unfold upsert_interface, mbind, M_bind, get_existing. cbn.
      rewrite E. cbn. reflexivity. }
    cbn. split; [done|]. split; [by rewrite length_alter|].
    split; [intros j Hj; by rewrite list_lookup_alter_ne|].
    intros old Hold. eexists.
    rewrite list_lookup_alter, decide_True, Hold by done.
    split; [reflexivity|]. unfold refreshed_by, usable_mac. cbn.
    repeat split.
    + by destruct (dec_mac d) as [m|]; [destruct (nonempty m)|].
    + by destruct (dec_speed_bps d).
  - edestruct (process_interface_after_upsert dev interval w neighbors oid v
                 d s) as [-> ->]; [done| |].
    { unfold upsert_interface, mbind, M_bind, get_existing. cbn.
      rewrite E. cbn. reflexivity. }
    cbn. split; [done|]. eexists. split; [reflexivity|].
    unfold created_by, usable_mac. cbn. repeat split.
    + by destruct (dec_mac d) as [m|]; [destruct (nonempty m)|].
    + by destruct (dec_speed_bps d).
Qed.

(** What the loop leaves for each name, from any state whose dict points
    at rows of the device. *)
Lemma poll_loop_rows dev interval w neighbors l s :
  let dec := fun kv : string * PyVal =>
               match decode_interface py_str py_int interval w
                                      (fst kv) (snd kv) with
               | Ok d => Some d
               | Raise _ => None
               end in
  let ds := fun n => filter (fun d => dec_name d = n) (omap dec l) in
  let s' := foldl (fun s '(full_oid, name_val) =>
                     run_logged (process_interface py_str py_int clock dev
                                   interval w neighbors full_oid name_val) s)
                  s l in
  let rows := interfaces (session s) in
  let rows' := interfaces (session s') in
  dict_points dev rows (existing_ifaces s) ->
  dict_points dev rows' (existing_ifaces s')
  /\ (length rows <= length rows')%nat
  /\ (forall n ref old,
        existing_ifaces s !! n = Some ref -> rows !! ref = Some old ->
        existing_ifaces s' !! n = Some ref
        /\ exists new, rows' !! ref = Some new /\ refreshed_by (ds n) old new)
  /\ (forall n,
        existing_ifaces s !! n = None ->
        match ds n with
        | [] => existing_ifaces s' !! n = None
        | _ :: _ =>
            exists ref new,
              (length rows <= ref)%nat
              /\ existing_ifaces s' !! n = Some ref
              /\ rows' !! ref = Some new /\ created_by dev n (ds n) new
        end)
  /\ (forall j,
        (j < length rows)%nat ->
        (forall k, existing_ifaces s !! k <> Some j) ->
        rows' !! j = rows !! j).
Proof.
  cbv zeta. revert s. induction l as [|[oid v] l IH]; intros s Hp.
  { cbn. split; [done|]. split; [done|]. split.
    - intros n ref old Hn Hold. split; [done|]. exists old.
      split; [done|apply refreshed_by_nil].
    - by split. }
  cbn [foldl omap list_omap fst snd].
  pose proof (process_interface_rows dev interval w neighbors oid v s) as Hs.
  cbv zeta in Hs.
  set (s1 := run_logged (process_interface py_str py_int clock dev interval w
                                           neighbors oid v) s) in *.
  destruct (decode_interface py_str py_int interval w oid v) as [d|e] eqn:Hd.
  2:{ destruct Hs as [Hr Hm]. specialize (IH s1).
      rewrite Hr, Hm in IH. cbn. by apply IH. }
  pose proof (decode_interface_name py_str py_int interval w oid v d Hd)
    as Hstrip.
  destruct (existing_ifaces s !! dec_name d) as [ref|] eqn:E.
  - (* the dict knows the name: the row is rewritten *)
    destruct Hs as (Hm & Hlen & Hother & Hrow).
    destruct (Hp _ _ E) as (r0 & Hr0 & Hdev0 & Hkey0).
    destruct (Hrow r0 Hr0) as (r1 & Hr1 & Hfresh).
    assert (Hp1 : dict_points dev (interfaces (session s1))
                    (existing_ifaces s1)).
    { rewrite Hm. intros k j Hk. destruct (Hp _ _ Hk) as (r & Hr & Hdv & Hky).
      destruct (decide (j = ref)) as [->|Hne].
      - exists r1. split; [done|]. rewrite Hr0 in Hr. injection Hr as <-.
        destruct Hfresh as (Hi & _). unfold row_identity in Hi.
        injection Hi as _ Hdv' Hnm'. unfold iface_key in *.
        by rewrite Hdv', Hnm'.
      - exists r. by rewrite Hother. }
    destruct (IH s1 Hp1) as (Hpts & Hle & Hknown & Hnew & Hrest).
    split; [done|]. split; [lia|]. split; [|split].
    + intros n j old Hn Hold. rewrite <- Hm in Hn. cbn [filter].
      rewrite filter_cons.
      destruct (decide (dec_name d = n)) as [<-|Hne].
      * rewrite Hm, E in Hn. injection Hn as <-.
        rewrite Hr0 in Hold. injection Hold as <-.
        destruct (Hknown _ _ _ ltac:(by rewrite Hm) Hr1)
          as (Hk & new & Hnw & Href).
        split; [done|]. exists new. split; [done|].
        by eapply refreshed_by_cons.
      * assert (j <> ref).
        { intros ->. rewrite Hm in Hn.
          destruct (Hp _ _ Hn) as (r & Hr & _ & Hky).
          rewrite Hr0 in Hr. injection Hr as <-. congruence. }
        apply Hknown; [done|]. by rewrite Hother.
    + intros n Hn. rewrite filter_cons.
      destruct (decide (dec_name d = n)) as [<-|Hne]; [congruence|].
      rewrite <- Hm in Hn. specialize (Hnew n Hn).
      destruct (filter _ _); [done|].
      destruct Hnew as (j & new & Hj & ?). exists j, new.
      split; [lia|done].
    + intros j Hj Hfree. rewrite Hrest; [|lia|by rewrite Hm].
      apply Hother. intros ->. by apply (Hfree (dec_name d)).
  - (* the dict does not know the name: a row is appended *)
    destruct Hs as (Hm & r1 & Hrows & Hmade).
    assert (Hkey1 : Interface.device_id r1 = dev
                    /\ iface_key r1 = dec_name d).
    { destruct Hmade as (Hdv & Hnm & _). split; [done|].
      unfold iface_key. by rewrite Hnm. }
    assert (Hp1 : dict_points dev (interfaces (session s1))
                    (existing_ifaces s1)).
    { rewrite Hm, Hrows. intros k j Hk.
      destruct (decide (dec_name d = k)) as [<-|Hne].
      - rewrite lookup_insert_eq in Hk. injection Hk as <-. exists r1.
        split; [|done]. by rewrite lookup_app_r, Nat.sub_diag.
      - rewrite lookup_insert_ne in Hk by done.
        destruct (Hp _ _ Hk) as (r & Hr & ?). exists r. split; [|done].
        by rewrite lookup_app_l by (by eapply lookup_lt_Some). }
    destruct (IH s1 Hp1) as (Hpts & Hle & Hknown & Hnew & Hrest).
    rewrite Hrows, length_app in Hle. cbn in Hle.
    split; [done|]. split; [lia|]. split; [|split].
    + intros n j old Hn Hold. rewrite filter_cons.
      destruct (decide (dec_name d = n)) as [<-|Hne]; [congruence|].
      apply Hknown; [by rewrite Hm, lookup_insert_ne|].
      rewrite Hrows, lookup_app_l; [done|by eapply lookup_lt_Some].
    + intros n Hn. rewrite filter_cons.
      destruct (decide (dec_name d = n)) as [<-|Hne].
      * destruct (Hknown (dec_name d)
                    (length (interfaces (session s))) r1)
          as (Hk & new & Hnw & Href).
        { by rewrite Hm, lookup_insert_eq. }
        { by rewrite Hrows, lookup_app_r, Nat.sub_diag. }
        exists (length (interfaces (session s))), new.
        split; [done|]. split; [done|]. split; [done|].
        by eapply created_by_cons.
      * assert (Hn1 : existing_ifaces s1 !! n = None)
          by (by rewrite Hm, lookup_insert_ne).
        specialize (Hnew n Hn1). destruct (filter _ _); [done|].
        destruct Hnew as (j & new & Hj & ?). exists j, new.
        split; [|done]. rewrite Hrows, length_app in Hj. cbn in Hj. lia.
    + intros j Hj Hfree. rewrite Hrest.
      * by rewrite Hrows, lookup_app_l.
      * rewrite Hrows, length_app. lia.
      * intros k. rewrite Hm.
        destruct (decide (dec_name d = k)) as [<-|Hne].
        -- rewrite lookup_insert_eq. intros [= <-]. lia.
        -- rewrite lookup_insert_ne by done. apply Hfree.
Qed.

End UpsertRows.

Lemma row_for_cons_S dev n r rows i r' :
  row_for dev n (r :: rows) (S i) r' <-> row_for dev n rows i r'.
Proof.
  unfold row_for. cbn [lookup list_lookup]. split.
  - intros (Hr & Hd & Hk & Hlast). repeat split; [done..|].
    intros j x Hj Hx. apply (Hlast (S j) x); [lia|done].
  - intros (Hr & Hd & Hk & Hlast). repeat split; [done..|].
    intros [|j] x Hj Hx; [lia|]. apply (Hlast j x); [lia|done].
Qed.

Lemma row_for_cons_0 dev n r rows r' :
  row_for dev n (r :: rows) 0 r'
  <-> r' = r /\ Interface.device_id r = dev /\ iface_key r = n
      /\ forall i x, rows !! i = Some x ->
           ~ (Interface.device_id x = dev /\ iface_key x = n).
Proof.
  unfold row_for. cbn [lookup list_lookup]. split.
  - intros ([= <-] & Hd & Hk & Hlast). repeat split; [done..|].
    intros i x Hx. apply (Hlast (S i) x); [lia|done].
  - intros (-> & Hd & Hk & Hlast). repeat split; [done..|].
    intros [|j] x Hj Hx; [lia|]. by apply (Hlast j x).
Qed.

(** The dict a poll starts with maps a name to the last row of the device
    under that name. *)
Lemma index_ifaces_row_for dev rows pos m n ref :
  index_ifaces dev rows pos m !! n = Some ref
  <-> (exists i r, ref = (pos + i)%nat /\ row_for dev n rows i r)
      \/ (m !! n = Some ref
          /\ forall i x, rows !! i = Some x ->
               ~ (Interface.device_id x = dev /\ iface_key x = n)).
Proof.
  revert pos m. induction rows as [|r rows IH]; intros pos m.
  { cbn [index_ifaces]. split.
    - intros H. right. split; [done|]. intros i x Hx.
      by rewrite lookup_nil in Hx.
    - intros [(i & r & _ & Hr & _)|[H _]]; [|done].
      by rewrite lookup_nil in Hr. }
  cbn [index_ifaces]. rewrite IH. split.
  - intros [(i & r' & -> & Hr)|[Hm Hnone]].
    + left. exists (S i), r'. split; [lia|]. by apply row_for_cons_S.
    + destruct (decide (Interface.device_id r = dev)) as [Hd|Hd].
      * destruct (decide (iface_key r = n)) as [Hk|Hk].
        -- rewrite Hk, lookup_insert_eq in Hm. injection Hm as <-.
           left. exists 0%nat, r. split; [lia|].
           by apply row_for_cons_0.
        -- rewrite lookup_insert_ne in Hm by done. right.
           split; [done|]. intros [|i] x Hx; [|by apply (Hnone i)].
           injection Hx as <-. by intros [_ ?].
      * right. split; [done|].
        intros [|i] x Hx; [|by apply (Hnone i)].
        injection Hx as <-. by intros [? _].
  - intros [(i & r' & -> & Hr)|[Hm Hnone]].
    + destruct i as [|i].
      * destruct (proj1 (row_for_cons_0 _ _ _ _ _) Hr)
          as (-> & Hd & Hk & Hlast).
        right. rewrite decide_True, Hk, lookup_insert_eq by done.
        split; [f_equal; lia|done].
      * left. exists i, r'. split; [lia|].
        by apply (row_for_cons_S dev n r).
    + right. split; [|intros i x Hx; by apply (Hnone (S i))].
      destruct (decide (Interface.device_id r = dev)) as [Hd|Hd]; [|done].
      rewrite lookup_insert_ne; [done|].
      intros Hk. by apply (Hnone 0%nat r).
Qed.

Lemma index_ifaces_points dev rows :
  dict_points dev rows (index_ifaces dev rows 0 ∅).
Proof.
  intros k ref H. apply index_ifaces_row_for in H
    as [(i & r & -> & Hr & Hd & Hk & _)|[H _]];
    [by exists r|by rewrite lookup_empty in H].
Qed.

Section RepollTheorem.
Variable py_str : PyVal -> string.
Variable py_int : PyVal -> result Z.

Lemma mark_up_interfaces clock dev s :
  interfaces (session (run_logged (mark_up clock dev) s))
  = interfaces (session s).
Proof.
  unfold run_logged, mark_up, mbind, M_bind, get_session. cbn.
  by destruct (list_find _ _).
Qed.

Lemma poll_device_interfaces clock info interval w commit_ok db :
  interfaces (poll_device py_str py_int clock info interval w commit_ok db)
  = interfaces db
  \/ (is_empty (DeviceInfo.ip_address info) = false
      /\ dict_truthy (if_descr w) = true
      /\ interfaces (poll_device py_str py_int clock info interval w
                                 commit_ok db)
         = interfaces
             (session (worker_loop py_str py_int clock info interval w db))).
Proof.
  unfold poll_device.
  destruct (is_empty _) eqn:Ht; [by left|].
  destruct (dict_truthy (if_descr w)) eqn:Hw; cbn [negb].
  2:{ left. destruct (list_find _ _); [|done]. by destruct commit_ok. }
  destruct commit_ok; [|by left]. right.
  split; [done|]. split; [done|]. apply mark_up_interfaces.
Qed.

Lemma poll_device_committed clock info interval w db :
  is_empty (DeviceInfo.ip_address info) = false ->
  dict_truthy (if_descr w) = true ->
  interfaces (poll_device py_str py_int clock info interval w true db)
  = interfaces (session (worker_loop py_str py_int clock info interval w db)).
Proof.
  intros Ht Hw. unfold poll_device. rewrite Ht, Hw. cbn [negb].
  apply mark_up_interfaces.
Qed.

Lemma loop_invariant clock info interval w db (N : string -> Prop) R :
  upsert_closed (DeviceInfo.id info) N R ->
  (forall oid v d,
     (oid, v) ∈ items (if_descr w) ->
     decode_interface py_str py_int interval w oid v = Ok d ->
     N (dec_name d)) ->
  R (interfaces db) (index_ifaces (DeviceInfo.id info) (interfaces db) 0 ∅) ->
  ifaces_inv R (worker_loop py_str py_int clock info interval w db).
Proof. intros Hc HN H0. by eapply poll_loop_ifaces. Qed.

Lemma not_answered_interfaces clock info interval w ok db :
  ~ answered info w ->
  interfaces (poll_device py_str py_int clock info interval w ok db)
  = interfaces db.
Proof.
  intros Hn.
  destruct (poll_device_interfaces clock info interval w ok db)
    as [->|(Ht & Hw & _)]; [done|].
  destruct Hn. by split.
Qed.

(** What a committed poll that reaches the loop leaves in the interface
    table, name by name. *)
Lemma poll_device_rows clock info interval w db :
  let dev := DeviceInfo.id info in
  let db1 := poll_device py_str py_int clock info interval w true db in
  let given := decoded_as py_str py_int interval w in
  answered info w ->
  (forall n ref old,
     row_for dev n (interfaces db) ref old ->
     exists new, interfaces db1 !! ref = Some new
                 /\ refreshed_by (given n) old new)
  /\ (forall n,
        n ∉ device_keys dev (interfaces db) -> given n <> [] ->
        exists ref new,
          (length (interfaces db) <= ref)%nat
          /\ interfaces db1 !! ref = Some new
          /\ created_by dev n (given n) new)
  /\ (forall j r,
        interfaces db !! j = Some r ->
        ~ row_for dev (iface_key r) (interfaces db) j r ->
        interfaces db1 !! j = Some r).
Proof.
  cbv zeta. intros [Ht Hw].
  rewrite (poll_device_committed clock info interval w db Ht Hw).
  pose proof (poll_loop_rows py_str py_int clock (DeviceInfo.id info)
                interval w
                (get_lldp_neighbors py_str (sysnames w) (portdesc w)
                                    (manaddr w))
                (items (if_descr w)) (worker_start info db)) as H.
  cbv zeta in H. destruct H as (_ & _ & Hknown & Hnew & Hrest).
  { apply index_ifaces_points. }
  split; [|split].
  - intros n ref old Hrow. apply (Hknown n ref old); [|by destruct Hrow].
    apply index_ifaces_row_for. left. by exists ref, old.
  - intros n Hn Hgiven.
    assert (Hnone : existing_ifaces (worker_start info db) !! n = None).
    { apply eq_None_not_Some. intros Hs.
      by apply index_ifaces_mirrors in Hs. }
    specialize (Hnew n Hnone). unfold decoded_as, decoded in Hgiven |- *.
    destruct (filter _ _) eqn:E; [done|].
    destruct Hnew as (ref & new & Hle & _ & Hr & Hc). by exists ref, new.
  - intros j r Hr Hnot. rewrite <- Hr. apply Hrest.
    + by eapply lookup_lt_Some.
    + intros k Hk. apply index_ifaces_row_for in Hk
        as [(i & r' & -> & Hrow)|[Hk _]];
        [|by rewrite lookup_empty in Hk].
      apply Hnot. cbn in Hrow.
      assert (r' = r) as -> by (destruct Hrow as [Hr' _]; cbn in *; congruence).
      by destruct Hrow as (? & ? & <- & ?).
Qed.

(** C8. A poll never makes a second row for a name it finds: it leaves
    every interface row in place with its id, device and name, and appends
    a row only under a name that no row of the device has, once per name;
    polling again with the same answers after a committed cycle creates no
    row at all. A poll that reaches the loop updates the existing row of a
    name -- the last row of the device under it -- in its columns: the
    status becomes the one of the last item decoded under the name, the
    address and the rate those of the last such item that brings one, and a
    column no item brings a value for keeps what it held. The row created
    for a new name holds the same newest values, or none. All other rows,
    and all rows when the poll does not reach the loop, stay as they
    were. *)
Theorem interface_upsert_idempotent clock1 clock2 info interval w ok2 db :
  let dev := DeviceInfo.id info in
  let db1 := poll_device py_str py_int clock1 info interval w true db in
  let db2 := poll_device py_str py_int clock2 info interval w ok2 db1 in
  let given := decoded_as py_str py_int interval w in
  rows_in_place (interfaces db) (interfaces db1)
  /\ only_new_names dev (interfaces db) (interfaces db1)
  /\ row_identity <$> interfaces db2 = row_identity <$> interfaces db1
  /\ (answered info w ->
      forall n ref old,
        row_for dev n (interfaces db) ref old ->
        exists new,
          interfaces db1 !! ref = Some new
          /\ Interface.id new = Interface.id old
          /\ Interface.device_id new = dev
          /\ Interface.interface_name new = Interface.interface_name old
          /\ Interface.status new
             = latest ((fun d => Some (dec_oper_status d)) <$> given n)
                      (Interface.status old)
          /\ Interface.mac_address new
             = latest (usable_mac <$> given n) (Interface.mac_address old)
          /\ Interface.speed_bps new
             = latest (dec_speed_bps <$> given n) (Interface.speed_bps old))
  /\ (answered info w ->
      forall n,
        n ∉ device_keys dev (interfaces db) -> given n <> [] ->
        exists ref new,
          (length (interfaces db) <= ref)%nat
          /\ interfaces db1 !! ref = Some new
          /\ Interface.device_id new = dev
          /\ Interface.interface_name new = Some n
          /\ Interface.status new
             = latest ((fun d => Some (dec_oper_status d)) <$> given n) None
          /\ Interface.mac_address new = latest (usable_mac <$> given n) None
          /\ Interface.speed_bps new
             = latest (dec_speed_bps <$> given n) None)
  /\ (forall j r,
        interfaces db !! j = Some r ->
        ~ row_for dev (iface_key r) (interfaces db) j r ->
        interfaces db1 !! j = Some r)
  /\ (~ answered info w -> interfaces db1 = interfaces db).
Proof.
  cbv zeta.
  assert (Hstripped : forall oid v d,
            (oid, v) ∈ items (if_descr w) ->
            decode_interface py_str py_int interval w oid v = Ok d ->
            strip (dec_name d) = dec_name d).
  { intros oid v d _. apply decode_interface_name. }
  assert (Hplace : forall clock ok db0,
            rows_in_place (interfaces db0)
              (interfaces (poll_device py_str py_int clock info interval w
                                       ok db0))).
  { intros clock ok db0.
    destruct (poll_device_interfaces clock info interval w ok db0)
      as [->|(_ & _ & ->)]; [by unfold rows_in_place|].
    apply (loop_invariant clock info interval w db0 (fun _ => True)
             (fun rows _ => rows_in_place (interfaces db0) rows));
      [apply rows_in_place_closed|done|by unfold rows_in_place]. }
  split; [apply Hplace|]. split.
  { destruct (poll_device_interfaces clock1 info interval w true db)
      as [->|(_ & _ & ->)].
    { exists []. rewrite app_nil_r. split; [done|].
      split; [constructor|]. intros n Hn. by apply elem_of_nil in Hn. }
    eapply (loop_invariant clock1 info interval w db _
             (fun rows m => dict_mirrors (DeviceInfo.id info) rows m
                            /\ only_new_names (DeviceInfo.id info)
                                              (interfaces db) rows));
      [apply only_new_names_closed|exact Hstripped|].
    split; [apply index_ifaces_mirrors|].
    exists []. rewrite app_nil_r. split; [done|].
    split; [constructor|]. intros n Hn. by apply elem_of_nil in Hn. }
  split.
  { set (db1 := poll_device py_str py_int clock1 info interval w true db).
    symmetry. apply prefix_length_eq; [apply Hplace|].
    rewrite !length_fmap.
    destruct (poll_device_interfaces clock2 info interval w ok2 db1)
      as [->|(Ht & Hw & ->)]; [done|].
    (* the first cycle left a row of the device for every decoded name *)
    assert (Hrows : forall oid v d,
              (oid, v) ∈ items (if_descr w) ->
              decode_interface py_str py_int interval w oid v = Ok d ->
              dec_name d ∈ device_keys (DeviceInfo.id info) (interfaces db1)).
    { intros oid v d Hin Hd. unfold db1.
      rewrite (poll_device_committed clock1 info interval w db Ht Hw).
      pose proof (loop_invariant clock1 info interval w db _
                    (dict_mirrors (DeviceInfo.id info))
                    (dict_mirrors_closed _) Hstripped
                    (index_ifaces_mirrors _ _)) as Hm.
      apply Hm. by eapply poll_loop_knows. }
    pose proof (loop_invariant clock2 info interval w db1
                  (fun n => n ∈ device_keys (DeviceInfo.id info)
                                            (interfaces db1))
                  (fun rows m =>
                     (forall n, n ∈ device_keys (DeviceInfo.id info)
                                                (interfaces db1) ->
                                is_Some (m !! n))
                     /\ length rows = length (interfaces db1))
                  (known_names_closed _ _ _) Hrows) as Hlen.
    destruct Hlen as [_ ->]; [|done].
    split; [|done]. intros n Hn. by apply index_ifaces_mirrors. }
  split; [|split; [|split]].
  - intros Ha n ref old Hrow.
    destruct (poll_device_rows clock1 info interval w db Ha) as (H1 & _).
    destruct (H1 n ref old Hrow) as (new & Hnew & Hi & Hs & Hm & Hv).
    exists new. unfold row_identity in Hi. injection Hi as Hid Hdev Hname.
    destruct Hrow as (_ & Hd & _). repeat split; congruence.
  - intros Ha n Hn Hgiven.
    destruct (poll_device_rows clock1 info interval w db Ha)
      as (_ & H2 & _).
    destruct (H2 n Hn Hgiven) as (ref & new & Hle & Hnew & Hc).
    exists ref, new. split; [done|]. split; [done|]. exact Hc.
  - intros j r Hr Hnot.
    destruct (is_empty (DeviceInfo.ip_address info)) eqn:Ht.
    { rewrite not_answered_interfaces; [done|]. intros [? _]. congruence. }
    destruct (dict_truthy (if_descr w)) eqn:Hw.
    2:{ rewrite not_answered_interfaces; [done|]. intros [_ ?].
        congruence. }
    destruct (poll_device_rows clock1 info interval w db (conj Ht Hw))
      as (_ & _ & H3).
    by apply H3.
  - apply not_answered_interfaces.
Qed.

End RepollTheorem.

Lemma interface_upsert_idempotent_witness :
  let db1 := poll_device sample_str sample_int tick sw1_info (VInt 5)
                         two_interfaces true stored_db in
  (exists new,
     interfaces db1 !! 0%nat = Some new
     /\ Interface.id new = 1 /\ Interface.device_id new = 1
     /\ Interface.interface_name new = Some "eth0"
     /\ Interface.status new = Some "up"
     /\ Interface.mac_address new = Some "aa:bb:cc:dd:ee:ff"
     /\ Interface.speed_bps new = Some 1600)
  /\ (exists ref new,
        (2 <= ref)%nat /\ interfaces db1 !! ref = Some new
        /\ Interface.device_id new = 1
        /\ Interface.interface_name new = Some "eth1"
        /\ Interface.status new = Some "down"
        /\ Interface.mac_address new = None
        /\ Interface.speed_bps new = None)
  /\ interfaces db1 !! 1%nat
     = Some (Interface.mk 2 2 (Some "eth0") None (Some "down") None).
Proof.
  cbv zeta.
  destruct (interface_upsert_idempotent sample_str sample_int tick tick
              sw1_info (VInt 5) two_interfaces true stored_db)
    as (_ & _ & _ & Hupd & Hnew & Hrest & _).
  assert (Ha : answered sw1_info two_interfaces) by (split; reflexivity).
  split; [|split].
  - destruct (Hupd Ha "eth0" 0%nat
                (Interface.mk 1 1 (Some "eth0") (Some "00:00:00:00:00:01")
                              (Some "down") (Some 42)))
      as (new & Hl & Hi & Hd & Hn & Hs & Hm & Hv).
    { repeat split. intros [|[|j]] r' Hj Hr'; [lia| |done].
      injection Hr' as <-. by intros [? _]. }
    exists new. repeat split; [exact Hl|exact Hi|exact Hd|exact Hn|..].
    + rewrite Hs. reflexivity.
    + rewrite Hm. reflexivity.
    + rewrite Hv. reflexivity.
  - destruct (Hnew Ha "eth1") as (ref & new & Hle & Hl & Hd & Hn & Hs & Hm
                                  & Hv).
    { intros H. change ("eth1" ∈ ["eth0"]) in H.
      apply list_elem_of_singleton in H. discriminate H. }
    { by vm_compute. }
    exists ref, new. repeat split; [exact Hle|exact Hl|exact Hd|exact Hn|..].
    + rewrite Hs. reflexivity.
    + rewrite Hm. reflexivity.
    + rewrite Hv. reflexivity.
  - apply Hrest; [reflexivity|]. by intros (_ & Hd & _).
Defined.

(** The sample poll at work: two rows created, none on the re-poll. *)
Example interface_upsert_sample :
  let db1 := poll_device sample_str sample_int tick sw1_info (VInt 5)
                         two_interfaces true poll_db in
  let db2 := poll_device sample_str sample_int tick sw1_info (VInt 5)
                         two_interfaces true db1 in
  row_identity <$> interfaces db1
  = [(1, 1, Some "eth0"); (2, 1, Some "eth1")]
  /\ row_identity <$> interfaces db2 = row_identity <$> interfaces db1
  /\ length (interface_stats db2) = 4%nat.
Proof. by vm_compute. Qed.

(** * Further properties of the code *)

(** ** [oid_index] and the keys built from it *)

Lemma contains_dot_app o index :
  contains "." (o +:+ "." +:+ index) = true.
Proof.
  induction o as [|c o IH]; [reflexivity|].
  change (String c o +:+ "." +:+ index)
    with (String c (o +:+ "." +:+ index)).
  cbn [contains]. rewrite IH. apply orb_true_r.
Qed.

Lemma oid_index_no_dot s : contains "." s = false -> oid_index s = s.
Proof.
  induction s as [|c s IH]; [done|]. intros H.
  cbn [contains] in H. apply orb_false_iff in H as [Hc Hs].
  cbn [oid_index]. rewrite Hs.
  destruct (Ascii.eqb c ".") eqn:E; [|done].
  cbn [startswith] in Hc. by rewrite Ascii.eqb_sym, E in Hc.
Qed.

(** X1. The index read off a key [f"{oid}.{index}"] is the index the key
    was built with, for every index without a dot; a string without a dot
    is its own index. *)
Theorem oid_index_of_key oid index :
  contains "." index = false ->
  oid_index (oid_key oid index) = index
  /\ oid_index index = index.
Proof.
  intros H. split; [|by apply oid_index_no_dot]. unfold oid_key.
  induction oid as [|c o IH].
  - change ("" +:+ "." +:+ index) with (String "." index).
    cbn [oid_index]. by rewrite H.
  - change (String c o +:+ "." +:+ index)
      with (String c (o +:+ "." +:+ index)).
    cbn [oid_index]. by rewrite contains_dot_app.
Qed.

Lemma oid_index_of_key_witness :
  oid_index (oid_key IF_OPER_STATUS_OID "17") = "17"
  /\ oid_index "17" = "17".
Proof. apply oid_index_of_key. reflexivity. Defined.

(** ** [get_lldp_neighbors] *)

Section Lldp.
Variable py_str : PyVal -> string.

(** One entry of the system-name walk merged into the table. *)
Lemma lldp_fold_lookup portdesc manaddr l (m : gmap string Neighbor) index :
  let step := fun (neighbors : gmap string Neighbor)
                  '((oid, sysname) : string * PyVal) =>
    <[oid_index oid :=
        mkNeighbor (clean (py_str sysname))
          (if dict_truthy manaddr
           then get_clean py_str manaddr
                  (oid_key LLDP_REM_MAN_ADDR (oid_index oid))
           else "")
          (if dict_truthy portdesc
           then get_clean py_str portdesc
                  (oid_key LLDP_REM_PORT_DESC (oid_index oid))
           else "")]> neighbors in
  (is_Some (foldl step m l !! index)
   <-> is_Some (m !! index)
       \/ exists oid v, (oid, v) ∈ l /\ oid_index oid = index)
  /\ (forall n, foldl step m l !! index = Some n ->
        m !! index = Some n
        \/ exists oid v,
             (oid, v) ∈ l /\ oid_index oid = index
             /\ neighbor_name n = clean (py_str v)
             /\ neighbor_ip n
                = (if dict_truthy manaddr
                   then get_clean py_str manaddr
                          (oid_key LLDP_REM_MAN_ADDR index)
                   else "")
             /\ neighbor_iface n
                = (if dict_truthy portdesc
                   then get_clean py_str portdesc
                          (oid_key LLDP_REM_PORT_DESC index)
                   else "")).
Proof.
  cbv zeta. revert m. induction l as [|[oid v] l IH]; intros m.
  { cbn. split; [|by left]. split; [by left|].
    intros [?|(? & ? & H & _)]; [done|]. by apply elem_of_nil in H. }
  cbn [foldl]. destruct (IH (<[oid_index oid :=
        mkNeighbor (clean (py_str v))
          (if dict_truthy manaddr
           then get_clean py_str manaddr
                  (oid_key LLDP_REM_MAN_ADDR (oid_index oid))
           else "")
          (if dict_truthy portdesc
           then get_clean py_str portdesc
                  (oid_key LLDP_REM_PORT_DESC (oid_index oid))
           else "")]> m)) as [IH1 IH2]. clear IH.
  split.
  - rewrite IH1. destruct (decide (oid_index oid = index)) as [E|E].
    + rewrite E, lookup_insert_eq. split; intros _.
      * right. exists oid, v. split; [by left|done].
      * left. by eexists.
    + rewrite lookup_insert_ne by done. split.
      * intros [?|(o & x & Hin & Ho)]; [by left|].
        right. exists o, x. split; [by right|done].
      * intros [?|(o & x & Hin & Ho)]; [by left|].
        apply elem_of_cons in Hin as [[= -> ->]|Hin]; [done|].
        right. by exists o, x.
  - intros n Hn. apply IH2 in Hn as [Hn|(o & x & Hin & Hrest)].
    + destruct (decide (oid_index oid = index)) as [E|E].
      * rewrite E, lookup_insert_eq in Hn. injection Hn as <-.
        right. exists oid, v. rewrite <- E. cbn.
        split; [by left|done].
      * rewrite lookup_insert_ne in Hn by done. by left.
    + right. exists o, x. split; [by right|done].
Qed.

(** X2. The neighbour table is empty when the system-name walk failed or
    is empty; otherwise an index is in the table exactly when an entry of
    the system-name walk ends in it, and each neighbour carries the cleaned
    name of such an entry, with an empty address (port) when the address
    (port) walk failed or is empty. *)
Theorem lldp_neighbors_gated sysnames portdesc manaddr :
  (dict_truthy sysnames = false ->
   get_lldp_neighbors py_str sysnames portdesc manaddr = ∅)
  /\ (forall index,
        is_Some (get_lldp_neighbors py_str sysnames portdesc manaddr !! index)
        <-> dict_truthy sysnames = true
            /\ exists oid v, (oid, v) ∈ items sysnames
                             /\ oid_index oid = index)
  /\ (forall index n,
        get_lldp_neighbors py_str sysnames portdesc manaddr !! index = Some n ->
        (exists oid v, (oid, v) ∈ items sysnames /\ oid_index oid = index
                       /\ neighbor_name n = clean (py_str v))
        /\ (dict_truthy manaddr = false -> neighbor_ip n = "")
        /\ (dict_truthy portdesc = false -> neighbor_iface n = "")).
Proof.
  unfold get_lldp_neighbors.
  destruct (dict_truthy sysnames) eqn:Ht; cbn [negb].
  2:{ split; [done|]. split.
      - intros index. rewrite lookup_empty. split; [by intros [? ?]|].
        by intros [? _].
      - intros index n H. by rewrite lookup_empty in H. }
  split; [done|].
  split.
  - intros index.
    destruct (lldp_fold_lookup portdesc manaddr (items sysnames) ∅ index)
      as [H _]. cbv zeta in H. rewrite H, lookup_empty.
    split.
    + intros [[? ?]|?]; [done|]. by split.
    + intros [_ ?]. by right.
  - intros index n Hn.
    destruct (lldp_fold_lookup portdesc manaddr (items sysnames) ∅ index)
      as [_ H]. cbv zeta in H.
    apply H in Hn as [Hn|(oid & v & Hin & Hi & Hname & Hip & Hif)].
    { by rewrite lookup_empty in Hn. }
    split; [by exists oid, v|].
    split; intros Hf; [by rewrite Hip, Hf|by rewrite Hif, Hf].
Qed.

End Lldp.

Lemma lldp_neighbors_gated_witness :
  get_lldp_neighbors sample_str None None None = ∅
  /\ neighbor_ip <$> (get_lldp_neighbors sample_str (sysnames phone_neighbor)
                        None None !! "1")
     = Some "".
Proof.
  destruct (lldp_neighbors_gated sample_str None None None) as (H0 & _).
  destruct (lldp_neighbors_gated sample_str (sysnames phone_neighbor)
              None None) as (_ & H1 & H2).
  split; [by apply H0|].
  destruct (proj2 (H1 "1")) as [n Hn].
  { split; [reflexivity|].
    exists "1.0.8802.1.1.2.1.4.1.1.9.1", (octets "SEP001122334455").
    split; [by left|reflexivity]. }
  rewrite Hn. cbn. f_equal.
  by apply (H2 "1" n Hn).
Defined.

(** ** What a successful cycle writes *)

Section Cycle.
Variable py_str : PyVal -> string.
Variable py_int : PyVal -> result Z.
Variable clock : nat -> Z.

Lemma upsert_interface_tables (P : Tables -> Prop) dev name st mac speed :
  (forall t f, P t -> P (with_interfaces f t)) ->
  keeps (on_tables P) (upsert_interface dev name st mac speed).
Proof.
  intros HP. unfold upsert_interface.
  repeat keeps_step; try (by intros); intros s Hs; by apply HP.
Qed.

Lemma process_neighbor_stats S dev name info :
  keeps (on_tables (fun t => interface_stats t = S))
        (process_neighbor clock dev name info).
Proof.
  unfold process_neighbor, find_or_create_discovered, upsert_link,
    add_fallback_link.
  repeat keeps_step; by intros.
Qed.

Lemma add_stats_run intf i o s :
  exists row s',
    add_stats clock intf i o s = (Ok tt, s')
    /\ interface_stats (session s') = interface_stats (session s) ++ [row]
    /\ InterfaceStats.in_bps row = i /\ InterfaceStats.out_bps row = o
    /\ InterfaceStats.interface_id row = interface_id_at (session s) intf.
Proof.
  unfold add_stats, mbind, M_bind, get_session, utcnow, modify_session. cbn.
  eexists _, _. split; [reflexivity|]. cbn. by repeat split.
Qed.

(** One iteration appends one sample when the item decodes, and leaves the
    session alone when it does not. *)
Lemma process_interface_stats dev interval w neighbors oid v s :
  let s' := run_logged (process_interface py_str py_int clock dev interval w
                                          neighbors oid v) s in
  match decode_interface py_str py_int interval w oid v with
  | Ok d =>
      exists row,
        interface_stats (session s') = interface_stats (session s) ++ [row]
        /\ InterfaceStats.in_bps row = dec_in_bps d
        /\ InterfaceStats.out_bps row = dec_out_bps d
  | Raise _ => s' = s
  end.
Proof.
  cbv zeta. unfold run_logged, process_interface.
  unfold mbind at 1. unfold M_bind at 1. unfold lift.
  destruct (decode_interface py_str py_int interval w oid v) as [d|e];
    [|done].
  unfold mbind at 1. unfold M_bind at 1.
  pose proof (upsert_interface_tables
                (fun t => interface_stats t = interface_stats (session s))
                dev (dec_name d) (dec_oper_status d) (dec_mac d)
                (dec_speed_bps d) ltac:(done) s eq_refl) as Hu.
  destruct (upsert_interface dev (dec_name d) (dec_oper_status d) (dec_mac d)
              (dec_speed_bps d) s) as [[ref|e] s1] eqn:E.
  2:{ destruct (upsert_interface_run dev (dec_name d) (dec_oper_status d)
                  (dec_mac d) (dec_speed_bps d) s) as (? & ? & E' & _).
      congruence. }
  cbn in Hu. unfold on_tables in Hu.
  unfold mbind at 1. unfold M_bind at 1.
  destruct (add_stats_run ref (dec_in_bps d) (dec_out_bps d) s1)
    as (row & s2 & -> & Hrow & Hi & Ho & _).
  exists row. rewrite <- Hu, <- Hrow. split; [|done].
  destruct (neighbors !! dec_index d) as [info|]; [|done].
  by apply (process_neighbor_stats (interface_stats (session s2))).
Qed.

Lemma poll_loop_stats dev interval w neighbors s :
  exists news,
    interface_stats
      (session (poll_loop py_str py_int clock dev interval w neighbors s))
    = interface_stats (session s) ++ news
    /\ (fun r => (InterfaceStats.in_bps r, InterfaceStats.out_bps r)) <$> news
       = (fun d => (dec_in_bps d, dec_out_bps d))
         <$> decoded py_str py_int interval w.
Proof.
  unfold poll_loop, decoded. generalize (items (if_descr w)). intros l.
  revert s. induction l as [|[oid v] l IH]; intros s.
  { exists []. by rewrite app_nil_r. }
  cbn [foldl omap list_omap fst snd].
  pose proof (process_interface_stats dev interval w neighbors oid v s) as H1.
  cbv zeta in H1.
  destruct (IH (run_logged (process_interface py_str py_int clock dev
                              interval w neighbors oid v) s))
    as (news & -> & Hnews).
  destruct (decode_interface py_str py_int interval w oid v) as [d|e].
  - destruct H1 as (row & -> & Hi & Ho). exists (row :: news).
    rewrite <- app_assoc. split; [done|].
    rewrite !fmap_cons, Hnews, Hi, Ho. done.
  - rewrite H1. by exists news.
Qed.

Lemma mark_up_stats dev s :
  interface_stats (session (run_logged (mark_up clock dev) s))
  = interface_stats (session s).
Proof.
  unfold run_logged, mark_up, mbind, M_bind, get_session. cbn.
  by destruct (list_find _ _).
Qed.

(** X3. A committed cycle whose description walk answered appends to the
    statistics table, after the rows it had, exactly one sample per item
    that decodes, in walk order and with the rates decoded for it, whatever
    happens to the item afterwards in neighbour handling; no older sample is
    changed or removed. *)
Theorem one_sample_per_decoded_interface info interval w db :
  nonempty (DeviceInfo.ip_address info) = true ->
  dict_truthy (if_descr w) = true ->
  exists news,
    interface_stats (poll_device py_str py_int clock info interval w true db)
    = interface_stats db ++ news
    /\ (fun r => (InterfaceStats.in_bps r, InterfaceStats.out_bps r)) <$> news
       = (fun d => (dec_in_bps d, dec_out_bps d))
         <$> decoded py_str py_int interval w.
Proof.
  intros Hip Hw. unfold poll_device.
  apply negb_true_iff in Hip. rewrite Hip, Hw. cbn [negb].
  rewrite mark_up_stats.
  match goal with |- context [poll_loop _ _ _ ?dev _ _ ?nb ?s0] =>
    destruct (poll_loop_stats dev interval w nb s0) as (news & Hn & Hv) end.
  exists news. by split.
Qed.

End Cycle.

Lemma one_sample_per_decoded_interface_witness :
  exists news,
    interface_stats (poll_device sample_str sample_int tick sw1_info (VInt 5)
                                 two_interfaces true poll_db)
    = interface_stats poll_db ++ news
    /\ (fun r => (InterfaceStats.in_bps r, InterfaceStats.out_bps r)) <$> news
       = [(1600, 800); (0, 0)].
Proof.
  destruct (one_sample_per_decoded_interface sample_str sample_int tick
              sw1_info (VInt 5) two_interfaces poll_db eq_refl eq_refl)
    as (news & Hn & Hv).
  exists news. split; [exact Hn|]. rewrite Hv. reflexivity.
Defined.

Section CycleRows.
Variable py_str : PyVal -> string.
Variable py_int : PyVal -> result Z.
Variable clock : nat -> Z.

Lemma decoded_item interval w d :
  d ∈ decoded py_str py_int interval w ->
  exists oid v, (oid, v) ∈ items (if_descr w)
                /\ decode_interface py_str py_int interval w oid v = Ok d.
Proof.
  unfold decoded. rewrite list_elem_of_omap. intros ([oid v] & Hin & Hd).
  exists oid, v. split; [done|]. cbn in Hd.
  by destruct (decode_interface py_str py_int interval w oid v);
    simplify_eq.
Qed.

(** X4. After a committed cycle whose description walk answered, the
    device has an interface row under the name of every item that decoded:
    an item that fails to decode, or whose neighbour handling raises, does
    not keep its siblings (or itself, once decoded) from being stored. *)
Theorem decoded_interfaces_are_stored info interval w db d :
  nonempty (DeviceInfo.ip_address info) = true ->
  dict_truthy (if_descr w) = true ->
  d ∈ decoded py_str py_int interval w ->
  dec_name d
  ∈ device_keys (DeviceInfo.id info)
      (interfaces (poll_device py_str py_int clock info interval w true db)).
Proof.
  intros Hip Hw Hd. apply negb_true_iff in Hip.
  apply decoded_item in Hd as (oid & v & Hin & Hd).
  rewrite (poll_device_committed py_str py_int clock info interval w db
             Hip Hw).
  pose proof (loop_invariant py_str py_int clock info interval w db _
                (dict_mirrors (DeviceInfo.id info))
                (dict_mirrors_closed _)
                (fun oid v d _ => decode_interface_name py_str py_int
                                    interval w oid v d)
                (index_ifaces_mirrors _ _)) as Hm.
  apply Hm. by eapply poll_loop_knows.
Qed.

(** X5. A committed cycle whose description walk answered ends with the
    first row of the polled id at status "up" with a last-seen reading of
    the clock, and changes no other device row. *)
Theorem answered_walk_marks_up info interval w db p d :
  nonempty (DeviceInfo.ip_address info) = true ->
  dict_truthy (if_descr w) = true ->
  list_find (fun d => Device.id d = DeviceInfo.id info) (devices db)
  = Some (p, d) ->
  exists n d',
    devices (poll_device py_str py_int clock info interval w true db)
    = <[p := d']> (devices db)
    /\ Device.status d' = "up"
    /\ Device.last_seen d' = Some (clock n)
    /\ same_but_status d d'.
Proof.
  intros Hip Hw Hf. apply negb_true_iff in Hip.
  unfold poll_device. rewrite Hip, Hw. cbn [negb].
  match goal with |- context [poll_loop ?a ?b ?c ?e ?f ?g ?h ?i] =>
    pose proof (poll_loop_devices a b c e f g h i) as Hd;
    set (s1 := poll_loop a b c e f g h i) in * end.
  clearbody s1. cbn in Hd.
  unfold run_logged, mark_up, mbind, M_bind, get_session, utcnow,
    modify_session. cbn. rewrite Hd, Hf. cbn. rewrite Hd.
  exists (clock_reads s1),
    (Device.set_status "up" (Some (clock (clock_reads s1))) d).
  split; [by apply mark_device_found|]. by repeat split.
Qed.

End CycleRows.

Lemma decoded_interfaces_are_stored_witness :
  "eth1"
  ∈ device_keys 1
      (interfaces (poll_device sample_str sample_int tick sw1_info (VInt 5)
                               two_interfaces true poll_db)).
Proof.
  apply (decoded_interfaces_are_stored sample_str sample_int tick sw1_info
           (VInt 5) two_interfaces poll_db
           (mkDecoded "eth1" "2" "down" None 0 0 None) eq_refl eq_refl).
  right. left.
Defined.

Lemma answered_walk_marks_up_witness :
  Device.status
  <$> devices (poll_device sample_str sample_int tick sw1_info (VInt 5)
                           two_interfaces true poll_db)
  = ["up"; "unknown"]
  /\ exists n,
       Device.last_seen
       <$> devices (poll_device sample_str sample_int tick sw1_info (VInt 5)
                                two_interfaces true poll_db)
       = [Some (tick n); None].
Proof.
  destruct (answered_walk_marks_up sample_str sample_int tick sw1_info
              (VInt 5) two_interfaces poll_db 0%nat sw1 eq_refl eq_refl
              eq_refl) as (n & d' & -> & Hst & Hseen & _).
  cbn. rewrite Hst, Hseen. split; [done|by exists n].
Defined.

(** ** Discovered devices and links across a cycle *)

Section CycleTables.
Variable py_str : PyVal -> string.
Variable py_int : PyVal -> result Z.
Variable clock : nat -> Z.

(** A property of the tables that the interface and statistics writes
    cannot disturb is kept by an iteration as soon as the neighbour
    handling keeps it. *)
Lemma process_interface_tables (P : Tables -> Prop) dev interval w
  (neighbors : gmap string Neighbor) oid v :
  (forall t f, P t -> P (with_interfaces f t)) ->
  (forall t f, P t -> P (with_interface_stats f t)) ->
  (forall name index info,
     neighbors !! index = Some info ->
     keeps (on_tables P) (process_neighbor clock dev name info)) ->
  keeps (on_tables P)
        (process_interface py_str py_int clock dev interval w neighbors
                           oid v).
Proof.
  intros Hi Hs Hn. unfold process_interface.
  keeps_step; [keeps_step|].
  keeps_step; [by apply upsert_interface_tables|].
  keeps_step.
  { unfold add_stats. repeat keeps_step; try (by intros).
    intros s Hs'. by apply Hs. }
  destruct (neighbors !! dec_index a) as [info|] eqn:E; [|keeps_step].
  by eapply Hn.
Qed.

Lemma poll_loop_tables (P : Tables -> Prop) dev interval w
  (neighbors : gmap string Neighbor) s :
  (forall t f, P t -> P (with_interfaces f t)) ->
  (forall t f, P t -> P (with_interface_stats f t)) ->
  (forall name index info,
     neighbors !! index = Some info ->
     keeps (on_tables P) (process_neighbor clock dev name info)) ->
  on_tables P s ->
  on_tables P (poll_loop py_str py_int clock dev interval w neighbors s).
Proof.
  intros Hi Hs Hn. unfold poll_loop. generalize (items (if_descr w)).
  intros l. revert s. induction l as [|[oid v] l IH]; intros s H0; [done|].
  cbn [foldl]. apply IH. by apply process_interface_tables.
Qed.

Lemma poll_device_tables (P : Tables -> Prop) info interval w commit_ok db :
  (forall t f, P t -> P (with_interfaces f t)) ->
  (forall t f, P t -> P (with_interface_stats f t)) ->
  (forall t k st seen, P t -> P (with_devices (mark_device k st seen) t)) ->
  (forall name index ninfo,
     get_lldp_neighbors py_str (sysnames w) (portdesc w) (manaddr w) !! index
     = Some ninfo ->
     keeps (on_tables P)
           (process_neighbor clock (DeviceInfo.id info) name ninfo)) ->
  P db ->
  P (poll_device py_str py_int clock info interval w commit_ok db).
Proof.
  intros Hi Hs Hd Hn H0. unfold poll_device.
  destruct (is_empty _); [done|].
  destruct (negb _).
  { destruct (list_find _ _); [|done]. destruct commit_ok; [|done].
    by apply Hd. }
  destruct commit_ok; [|done].
  match goal with |- context [poll_loop ?a ?b ?c ?e ?f ?g ?h ?i] =>
    pose proof (poll_loop_tables P e f g h i Hi Hs Hn H0) as Hloop;
    set (s1 := poll_loop a b c e f g h i) in * end.
  clearbody s1. unfold on_tables in Hloop.
  unfold run_logged, mark_up, mbind, M_bind, get_session. cbn.
  destruct (list_find _ _); cbn; [by apply Hd|done].
Qed.


Lemma find_or_create_discovered_names old info :
  keeps (on_tables (fun t =>
           discovered_names old `prefix_of` discovered_names t
           /\ (NoDup (discovered_names old) -> NoDup (discovered_names t))))
        (find_or_create_discovered clock info).
Proof.
  intros s [Hpre Hnd].
  unfold find_or_create_discovered, mbind, M_bind, get_session. cbn.
  destruct (list_find _ (discovered_devices (session s))) as [[found x]|]
    eqn:E; cbn; unfold on_tables, discovered_names in *; cbn.
  - by rewrite fmap_alter_same.
  - rewrite fmap_app. split; [by apply prefix_app_r|].
    intros Hold. apply NoDup_app. split; [by apply Hnd|].
    split; [|apply NoDup_singleton].
    intros n Hn Hn'. apply list_elem_of_singleton in Hn' as ->.
    apply list_elem_of_fmap in Hn as (dd & Hname & Hin).
    apply list_find_None in E. rewrite Forall_forall in E.
    by apply (E dd Hin).
Qed.

Lemma process_neighbor_discovered_names old dev name info :
  keeps (on_tables (fun t =>
           discovered_names old `prefix_of` discovered_names t
           /\ (NoDup (discovered_names old) -> NoDup (discovered_names t))))
        (process_neighbor clock dev name info).
Proof.
  unfold process_neighbor. keeps_step; [keeps_step|]. cbv zeta.
  apply keeps_bind.
  { destruct (negb _ && nonempty _); [|keeps_step].
    apply keeps_bind; [apply find_or_create_discovered_names|].
    intros ?. keeps_step. }
  intros dd. unfold upsert_link, add_fallback_link.
  repeat keeps_step; intros s Hs; exact Hs.
Qed.

(** X6. A cycle never removes or renames a discovered device: the names in
    the table before are still there, in place; and it never stores a name
    twice: names that were pairwise distinct stay so. *)
Theorem discovered_names_stay_unique info interval w commit_ok db :
  let db' := poll_device py_str py_int clock info interval w commit_ok db in
  discovered_names db `prefix_of` discovered_names db'
  /\ (NoDup (discovered_names db) -> NoDup (discovered_names db')).
Proof.
  cbv zeta.
  apply (poll_device_tables (fun t =>
           discovered_names db `prefix_of` discovered_names t
           /\ (NoDup (discovered_names db) -> NoDup (discovered_names t))));
    try done.
  intros name index ninfo _. apply process_neighbor_discovered_names.
Qed.

(** What the lookup-then-insert does to the tuples. *)
Lemma upsert_link_keys dev name dst dd same_dst
  `{!forall l, Decision (same_dst l)} info s :
  exists s',
    upsert_link clock dev name dst dd same_dst info s = (Ok tt, s')
    /\ devices (session s') = devices (session s)
    /\ (link_keys (session s') = link_keys (session s)
        \/ (link_keys (session s')
            = link_keys (session s) ++ [(dev, name, dst, dd,
                                         neighbor_iface info)]
            /\ Forall (fun l =>
                 ~ (TopologyLink.src_device_id l = dev
                    /\ TopologyLink.src_interface l = name
                    /\ same_dst l
                    /\ TopologyLink.dst_interface l = neighbor_iface info))
                 (topology_links (session s)))).
Proof.
  unfold upsert_link, mbind, M_bind, get_session, utcnow. cbn.
  destruct (list_find _ (topology_links (session s))) as [[link x]|] eqn:E;
    cbn; eexists; (split; [reflexivity|]); cbn; (split; [done|]).
  - left. unfold link_keys. cbn. by rewrite fmap_alter_same.
  - right. unfold link_keys. cbn. rewrite fmap_app. split; [done|].
    by apply list_find_None in E.
Qed.

Lemma process_neighbor_link_prefix old dev name info :
  keeps (on_tables (fun t => link_keys old `prefix_of` link_keys t))
        (process_neighbor clock dev name info).
Proof.
  unfold process_neighbor. keeps_step; [keeps_step|]. cbv zeta.
  apply keeps_bind.
  { destruct (negb _ && nonempty _); [|keeps_step].
    apply keeps_bind; [|intros ?; keeps_step].
    unfold find_or_create_discovered.
    repeat keeps_step; intros s Hs; exact Hs. }
  intros dd. destruct (_ || _); [|keeps_step].
  assert (Hup : forall dst dd' same_dst
                  (Hdec : forall l, Decision (same_dst l)),
             keeps (on_tables (fun t => link_keys old `prefix_of` link_keys t))
                   (upsert_link clock dev name dst dd' same_dst info)).
  { intros dst dd' same_dst Hdec s Hs.
    destruct (upsert_link_keys dev name dst dd' same_dst info s)
      as (s' & -> & _ & [Hk|[Hk _]]); unfold on_tables in *; cbn;
      rewrite Hk; [done|by apply prefix_app_r]. }
  destruct (if nonempty (neighbor_ip info) then _ else _) as [nd|].
  { apply Hup. }
  destruct dd as [dd|].
  - keeps_step; [keeps_step|]. cbv zeta. apply Hup.
  - unfold add_fallback_link. keeps_step; [keeps_step; by intros|].
    keeps_step. intros s Hs. unfold on_tables, link_keys in *. cbn.
    rewrite fmap_app. by apply prefix_app_r.
Qed.

(** X7. A cycle never removes a link and never rewrites its lookup tuple:
    the tuples in the table before are still there, in place. *)
Theorem links_are_append_only info interval w commit_ok db :
  link_keys db
  `prefix_of` link_keys (poll_device py_str py_int clock info interval w
                                     commit_ok db).
Proof.
  apply (poll_device_tables (fun t => link_keys db `prefix_of` link_keys t));
    try done.
  intros name index ninfo _. apply process_neighbor_link_prefix.
Qed.

Lemma process_neighbor_managed (ips : list string) dev name info :
  nonempty (neighbor_ip info) = true ->
  neighbor_ip info ∈ ips ->
  keeps (on_tables (fun t => Device.ip_address <$> devices t = ips
                             /\ NoDup (link_keys t)))
        (process_neighbor clock dev name info).
Proof.
  intros Hip Hd s [HD HN].
  unfold process_neighbor. unfold mbind at 1. unfold M_bind at 1.
  unfold get_session. cbv zeta. rewrite Hip.
  destruct (list_find (fun d0 => Device.ip_address d0 = neighbor_ip info)
                      (devices (session s)))
    as [[p nd]|] eqn:E.
  2:{ apply list_find_None in E. rewrite Forall_forall in E.
      rewrite <- HD in Hd.
      apply list_elem_of_fmap in Hd as (d & Hdip & Hin).
      by destruct (E d Hin). }
  cbn [fmap option_fmap option_map snd is_some negb andb orb].
  unfold mbind at 1. unfold M_bind at 1. cbn [mret M_ret].
  destruct (upsert_link_keys dev name (Some (Device.id nd)) None
              (fun l => TopologyLink.dst_device_id l = Some (Device.id nd))
              info s) as (s' & -> & Hdev & Hk).
  unfold on_tables. cbn [snd]. split; [congruence|].
  destruct Hk as [->|[-> Hfresh]]; [done|].
  apply NoDup_app. split; [done|]. split; [|apply NoDup_singleton].
  intros k Hk Hk'. apply list_elem_of_singleton in Hk' as ->.
  unfold link_keys in Hk. apply list_elem_of_fmap in Hk as (l & Hl & Hin).
  rewrite Forall_forall in Hfresh. apply (Hfresh l Hin).
  unfold TopologyLink.key in Hl. by simplify_eq.
Qed.

(** The lookup-then-insert leaves a row for its tuple, seen now, and keeps
    the rows seen before. *)
Lemma upsert_link_seen dev name dst info s :
  exists s',
    upsert_link clock dev name (Some dst) None
      (fun l => TopologyLink.dst_device_id l = Some dst) info s
    = (Ok tt, s')
    /\ devices (session s') = devices (session s)
    /\ link_seen clock dev name dst (neighbor_iface info) (session s')
    /\ forall dev' name' dst' iface',
         link_seen clock dev' name' dst' iface' (session s) ->
         link_seen clock dev' name' dst' iface' (session s').
Proof.
  unfold upsert_link, mbind, M_bind, get_session, utcnow. cbn.
  destruct (list_find _ (topology_links (session s))) as [[link x]|] eqn:E;
    cbn; eexists; (split; [reflexivity|]); cbn; (split; [done|]).
  - apply list_find_Some in E as (Hx & (Hd & Hn & Hdst & Hi) & _).
    split.
    + exists (TopologyLink.set_last_seen (clock (clock_reads s)) x),
        (clock_reads s).
      split; [|done]. apply (list_elem_of_lookup_2 _ link).
      cbn. by rewrite list_lookup_alter, decide_True, Hx.
    + intros dev' name' dst' iface' (l & n & Hl & Hk).
      apply list_elem_of_lookup in Hl as [j Hj].
      destruct (decide (j = link)) as [->|Hne].
      * exists (TopologyLink.set_last_seen (clock (clock_reads s)) l),
          (clock_reads s).
        split; [|by destruct Hk as (? & ? & ? & ? & _)].
        apply (list_elem_of_lookup_2 _ link).
        cbn. by rewrite list_lookup_alter, decide_True, Hj.
      * exists l, n. split; [|done]. apply (list_elem_of_lookup_2 _ j).
        cbn. by rewrite list_lookup_alter_ne.
  - split.
    + eexists _, (clock_reads s).
      split; [cbn; apply elem_of_app; right;
              by apply list_elem_of_singleton|done].
    + intros dev' name' dst' iface' (l & n & Hl & Hk).
      exists l, n. split; [|done]. cbn. apply elem_of_app. by left.
Qed.

(** Towards a neighbour whose address a managed device has, the neighbour
    handling is that lookup-then-insert. *)
Lemma process_neighbor_managed_run dev name info s p nd :
  nonempty (neighbor_ip info) = true ->
  list_find (fun d => Device.ip_address d = neighbor_ip info)
            (devices (session s)) = Some (p, nd) ->
  process_neighbor clock dev name info s
  = upsert_link clock dev name (Some (Device.id nd)) None
      (fun l => TopologyLink.dst_device_id l = Some (Device.id nd)) info s.
Proof.
  intros Hip Hf.
  unfold process_neighbor. unfold mbind at 1. unfold M_bind at 1.
  unfold get_session. cbv zeta. rewrite Hip, Hf.
  cbn [fmap option_fmap option_map snd is_some negb andb orb].
  unfold mbind at 1. unfold M_bind at 1. by cbn [mret M_ret].
Qed.

Lemma process_neighbor_seen D dev name info p nd :
  nonempty (neighbor_ip info) = true ->
  list_find (fun d => Device.ip_address d = neighbor_ip info) D
  = Some (p, nd) ->
  forall s, devices (session s) = D ->
    let s' := snd (process_neighbor clock dev name info s) in
    devices (session s') = D
    /\ link_seen clock dev name (Device.id nd) (neighbor_iface info)
                 (session s')
    /\ forall dev' name' dst' iface',
         link_seen clock dev' name' dst' iface' (session s) ->
         link_seen clock dev' name' dst' iface' (session s').
Proof.
  intros Hip Hf s HD. cbv zeta.
  rewrite (process_neighbor_managed_run dev name info s p nd Hip)
    by (by rewrite HD).
  destruct (upsert_link_seen dev name (Device.id nd) info s)
    as (s' & -> & Hdev & Hseen & Hkeep).
  cbn [snd]. split; [congruence|]. by split.
Qed.

Lemma link_seen_ext dev name dst iface t t' :
  topology_links t' = topology_links t ->
  link_seen clock dev name dst iface t ->
  link_seen clock dev name dst iface t'.
Proof. unfold link_seen. by intros ->. Qed.

Lemma add_stats_frame intf i o s :
  exists s',
    add_stats clock intf i o s = (Ok tt, s')
    /\ devices (session s') = devices (session s)
    /\ topology_links (session s') = topology_links (session s).
Proof. by eexists. Qed.

(** One iteration, seen from the link table, when every neighbour of the
    dict announces the address of a device of the list. *)
Lemma process_interface_seen D dev interval w
  (neighbors : gmap string Neighbor) oid v s :
  (forall index info,
     neighbors !! index = Some info ->
     nonempty (neighbor_ip info) = true
     /\ is_Some (list_find (fun d => Device.ip_address d = neighbor_ip info)
                           D)) ->
  devices (session s) = D ->
  let s' := run_logged (process_interface py_str py_int clock dev interval w
                                          neighbors oid v) s in
  devices (session s') = D
  /\ (forall dev' name' dst' iface',
        link_seen clock dev' name' dst' iface' (session s) ->
        link_seen clock dev' name' dst' iface' (session s'))
  /\ (forall d info p nd,
        decode_interface py_str py_int interval w oid v = Ok d ->
        neighbors !! dec_index d = Some info ->
        list_find (fun d => Device.ip_address d = neighbor_ip info) D
        = Some (p, nd) ->
        link_seen clock dev (dec_name d) (Device.id nd)
                  (neighbor_iface info) (session s')).
Proof.
  intros Hm HD. cbv zeta.
  set (s' := run_logged (process_interface py_str py_int clock dev interval w
                                           neighbors oid v) s).
  destruct (decode_interface py_str py_int interval w oid v) as [d|e] eqn:Hd.
  2:{ assert (s' = s) as ->; [|done].
      unfold s', run_logged, process_interface.
      rewrite bind_run. unfold lift. by rewrite Hd. }
  destruct (upsert_interface_run dev (dec_name d) (dec_oper_status d)
              (dec_mac d) (dec_speed_bps d) s) as (ref & s1 & Hu & _).
  pose proof (upsert_interface_tables
                (fun t => devices t = D
                          /\ topology_links t = topology_links (session s))
                dev (dec_name d) (dec_oper_status d) (dec_mac d)
                (dec_speed_bps d) ltac:(done) s (conj HD eq_refl))
    as [HD1 HL1].
  rewrite Hu in HD1, HL1. cbn [snd] in HD1, HL1.
  destruct (add_stats_frame ref (dec_in_bps d) (dec_out_bps d) s1)
    as (s2 & Hs2 & HD2 & HL2).
  rewrite HD1 in HD2. rewrite HL1 in HL2.
  assert (Hrun : s' = snd (match neighbors !! dec_index d with
                           | Some info =>
                               process_neighbor clock dev (dec_name d) info
                           | None => mret tt
                           end s2)).
  { unfold s', run_logged, process_interface.
    rewrite bind_run. unfold lift. rewrite Hd.
    by rewrite bind_run, Hu, bind_run, Hs2. }
  rewrite Hrun. clear Hrun s'.
  destruct (neighbors !! dec_index d) as [info|] eqn:E.
  - destruct (Hm _ _ E) as [Hip [[p nd] Hf]].
    destruct (process_neighbor_seen D dev (dec_name d) info p nd Hip Hf s2
                HD2) as (HD3 & Hseen & Hkeep).
    split; [done|]. split.
    + intros dev' name' dst' iface' H. apply Hkeep.
      by apply (link_seen_ext _ _ _ _ (session s)).
    + intros d' info' p' nd' [= <-] Hi Hf'. rewrite E in Hi.
      injection Hi as <-. rewrite Hf in Hf'. by injection Hf' as _ <-.
  - cbn. split; [done|]. split.
    + intros dev' name' dst' iface' H.
      by apply (link_seen_ext _ _ _ _ (session s)).
    + intros d' info' p' nd' [= <-] Hi. by rewrite E in Hi.
Qed.

Lemma poll_loop_seen D dev interval w (neighbors : gmap string Neighbor) l s :
  (forall index info,
     neighbors !! index = Some info ->
     nonempty (neighbor_ip info) = true
     /\ is_Some (list_find (fun d => Device.ip_address d = neighbor_ip info)
                           D)) ->
  devices (session s) = D ->
  let s' := foldl (fun s '(full_oid, name_val) =>
                     run_logged (process_interface py_str py_int clock dev
                                   interval w neighbors full_oid name_val) s)
                  s l in
  devices (session s') = D
  /\ (forall dev' name' dst' iface',
        link_seen clock dev' name' dst' iface' (session s) ->
        link_seen clock dev' name' dst' iface' (session s'))
  /\ (forall oid v d info p nd,
        (oid, v) ∈ l ->
        decode_interface py_str py_int interval w oid v = Ok d ->
        neighbors !! dec_index d = Some info ->
        list_find (fun d => Device.ip_address d = neighbor_ip info) D
        = Some (p, nd) ->
        link_seen clock dev (dec_name d) (Device.id nd)
                  (neighbor_iface info) (session s')).
Proof.
  intros Hm. cbv zeta. revert s.
  induction l as [|[oid v] l IH]; intros s HD.
  { cbn. split; [done|]. split; [done|].
    intros ? ? ? ? ? ? H. by apply elem_of_nil in H. }
  cbn [foldl].
  destruct (process_interface_seen D dev interval w neighbors oid v s Hm HD)
    as (HD1 & Hkeep1 & Hnew1).
  destruct (IH _ HD1) as (HD2 & Hkeep2 & Hnew2).
  split; [done|]. split; [by auto|].
  intros oid' v' d info p nd Hin Hd Hi Hf.
  apply elem_of_cons in Hin as [[= -> ->]|Hin]; [|by eapply Hnew2].
  apply Hkeep2. by eapply Hnew1.
Qed.

Lemma mark_up_links dev s :
  topology_links (session (run_logged (mark_up clock dev) s))
  = topology_links (session s).
Proof.
  unfold run_logged, mark_up, mbind, M_bind, get_session. cbn.
  by destruct (list_find _ _).
Qed.

(** X8. When every LLDP neighbour of the walks announces the address of a
    managed device, a cycle keeps the lookup tuples of the links pairwise
    distinct: re-observing such an adjacency never inserts a second row.
    And a committed cycle that reaches the loop leaves, for every item that
    decodes and has a neighbour, a link row from the polled device and the
    decoded interface name to the first device with the neighbour's address
    and to the neighbour's interface, whose last-seen is a reading this
    cycle took of the clock: the row the lookup found, refreshed, or a new
    one. *)
Theorem managed_links_stay_unique info interval w commit_ok db :
  let db' := poll_device py_str py_int clock info interval w commit_ok db in
  neighbors_managed py_str w db ->
  (NoDup (link_keys db) -> NoDup (link_keys db'))
  /\ (commit_ok = true -> answered info w ->
      forall oid v d ninfo,
        (oid, v) ∈ items (if_descr w) ->
        decode_interface py_str py_int interval w oid v = Ok d ->
        get_lldp_neighbors py_str (sysnames w) (portdesc w) (manaddr w)
        !! dec_index d = Some ninfo ->
        exists p nd l n,
          list_find (fun x => Device.ip_address x = neighbor_ip ninfo)
                    (devices db) = Some (p, nd)
          /\ l ∈ topology_links db'
          /\ TopologyLink.src_device_id l = DeviceInfo.id info
          /\ TopologyLink.src_interface l = dec_name d
          /\ TopologyLink.dst_device_id l = Some (Device.id nd)
          /\ TopologyLink.dst_interface l = neighbor_iface ninfo
          /\ TopologyLink.last_seen l = clock n).
Proof.
  cbv zeta. intros Hm. split.
  - intros Hnd.
    apply (poll_device_tables
             (fun t => Device.ip_address <$> devices t
                       = Device.ip_address <$> devices db
                       /\ NoDup (link_keys t)));
      try done.
    + intros t k st seen [Hd Hn]. split; [|done]. cbn.
      rewrite <- Hd. by apply mark_device_columns.
    + intros name index ninfo Hi.
      destruct (Hm index ninfo Hi) as [Hip (d & Hd & Hdip)].
      apply process_neighbor_managed; [done|].
      rewrite <- Hdip. by apply list_elem_of_fmap_2.
  - intros -> [Ht Hw] oid v d ninfo Hin Hd Hi.
    assert (Hall : forall index i,
              get_lldp_neighbors py_str (sysnames w) (portdesc w) (manaddr w)
              !! index = Some i ->
              nonempty (neighbor_ip i) = true
              /\ is_Some (list_find
                            (fun x => Device.ip_address x = neighbor_ip i)
                            (devices db))).
    { intros index i Hl. destruct (Hm index i Hl) as [Hip (x & Hx & Hxip)].
      split; [done|]. by eapply list_find_elem_of. }
    destruct (Hall _ _ Hi) as [_ [[p nd] Hf]].
    destruct (poll_loop_seen (devices db) (DeviceInfo.id info) interval w
                (get_lldp_neighbors py_str (sysnames w) (portdesc w)
                                    (manaddr w))
                (items (if_descr w)) (worker_start info db) Hall eq_refl)
      as (_ & _ & Hnew).
    destruct (Hnew oid v d ninfo p nd Hin Hd Hi Hf)
      as (l & n & Hl & Hk).
    exists p, nd, l, n. split; [done|]. split; [|exact Hk].
    unfold poll_device. rewrite Ht, Hw. cbn [negb].
    by rewrite mark_up_links.
Qed.

End CycleTables.

Lemma discovered_names_stay_unique_witness :
  discovered_names poll_db
  `prefix_of` discovered_names
                (poll_device sample_str sample_int tick sw1_info (VInt 60)
                             phone_neighbor true poll_db)
  /\ NoDup (discovered_names
              (poll_device sample_str sample_int tick sw1_info (VInt 60)
                           phone_neighbor true poll_db)).
Proof.
  destruct (discovered_names_stay_unique sample_str sample_int tick sw1_info
              (VInt 60) phone_neighbor true poll_db) as [H1 H2].
  split; [exact H1|]. apply H2. vm_compute. constructor.
Defined.

Lemma managed_links_stay_unique_witness :
  let db1 := poll_device sample_str sample_int tick sw1_info (VInt 60)
                         managed_neighbor true poll_db in
  let db2 := poll_device sample_str sample_int tock sw1_info (VInt 60)
                         managed_neighbor true db1 in
  NoDup (link_keys db2)
  /\ exists l n,
       l ∈ topology_links db2
       /\ TopologyLink.src_device_id l = 1
       /\ TopologyLink.src_interface l = "eth0"
       /\ TopologyLink.dst_device_id l = Some 2
       /\ TopologyLink.dst_interface l = "Gi0/24"
       /\ TopologyLink.last_seen l = tock n.
Proof.
  cbv zeta.
  destruct (managed_links_stay_unique sample_str sample_int tock sw1_info
              (VInt 60) managed_neighbor true
              (poll_device sample_str sample_int tick sw1_info (VInt 60)
                           managed_neighbor true poll_db))
    as [Hnd Hseen].
  { intros index info.
    replace (get_lldp_neighbors sample_str (sysnames managed_neighbor)
               (portdesc managed_neighbor) (manaddr managed_neighbor))
      with ({["1" := mkNeighbor "sw2" "10.0.0.2" "Gi0/24"]}
              : gmap string Neighbor) by (by vm_compute).
    intros [<- <-]%lookup_singleton_Some.
    split; [reflexivity|]. exists sw2.
    split; [|reflexivity]. vm_compute. right. left. }
  split.
  { apply Hnd. vm_compute. repeat constructor. intros H. inversion H. }
  destruct (Hseen eq_refl (conj eq_refl eq_refl)
              "1.3.6.1.2.1.2.2.1.2.1" (octets "eth0")
              (mkDecoded "eth0" "1" "down" None 0 0 None)
              (mkNeighbor "sw2" "10.0.0.2" "Gi0/24"))
    as (p & nd & l & n & Hf & Hl & Hsrc & Hname & Hdst & Hif & Hls).
  { left. }
  { reflexivity. }
  { reflexivity. }
  vm_compute in Hf. injection Hf as <- <-.
  exists l, n.
  split; [exact Hl|]. split; [exact Hsrc|]. split; [exact Hname|].
  split; [exact Hdst|]. split; [exact Hif|exact Hls].
Defined.



(** ** The reachability phase *)

Lemma mark_device_rows k st seen rows :
  NoDup (Device.id <$> rows) ->
  mark_device k st seen rows
  = (fun d => if decide (Device.id d = k) then Device.set_status st seen d
              else d) <$> rows.
Proof.
  unfold mark_device. induction rows as [|d rows IH]; [done|].
  rewrite fmap_cons. intros [Hd Hnd]%NoDup_cons. cbn [list_find].
  destruct (decide (Device.id d = k)) as [Hk|Hk].
  - cbn. rewrite decide_True by done. f_equal.
    rewrite <- (list_fmap_id rows) at 1. apply list_fmap_ext.
    intros i x Hx. rewrite decide_False; [done|].
    intros Hxk. apply Hd. rewrite Hk, <- Hxk.
    apply list_elem_of_fmap_2. by eapply list_elem_of_lookup_2.
  - specialize (IH Hnd). cbn [fmap list_fmap]. rewrite decide_False by done.
    destruct (list_find _ rows) as [[p x]|]; cbn.
    + by rewrite <- IH.
    + by rewrite <- IH.
Qed.

Section PhaseA.
Variable clock : nat -> Z.

Lemma apply_ping_rows dev_id ip ok s :
  exists seen n,
    apply_ping clock (dev_id, ip, ok) s
    = (Ok tt,
       mkPollState
         (with_devices
            (mark_device dev_id (if ok then "up" else "down") seen)
            (session s))
         (existing_ifaces s) n)
    /\ (is_Some seen <-> ok = true).
Proof.
  unfold apply_ping, mbind, M_bind, get_session. cbn.
  destruct (list_find _ (devices (session s))) as [[p d]|] eqn:E.
  - destruct ok; cbn; eexists _, _; (split; [reflexivity|]).
    + split; [done|by eexists].
    + split; [by intros [? ?]|done].
  - exists (if ok then Some 0 else None), (clock_reads s).
    split.
    + unfold with_devices, mark_device. rewrite E. by destruct s as [[] ? ?].
    + destruct ok; (split; [|done]); [done|by intros [? ?]].
Qed.

Lemma for_each_apply_ping_rows results s :
  NoDup ((fun r : Z * string * bool => fst (fst r)) <$> results) ->
  NoDup (Device.id <$> devices (session s)) ->
  exists s',
    for_each (apply_ping clock) results s = (Ok tt, s')
    /\ only_devices_differ (session s) (session s')
    /\ Forall2 (fun d d' =>
         ((Device.id d
           ∉ (fun r : Z * string * bool => fst (fst r)) <$> results)
          /\ d' = d)
         \/ exists ip ok seen,
              (Device.id d, ip, ok) ∈ results
              /\ d' = probed ok seen d
              /\ (is_Some seen <-> ok = true))
       (devices (session s)) (devices (session s')).
Proof.
  revert s. induction results as [|[[dev_id ip] ok] results IH];
    intros s Hr Hd.
  { exists s. split; [done|]. split; [done|].
    apply Forall2_same_length_lookup_2; [done|].
    intros i d d' H1 H2. left. split; [apply not_elem_of_nil|congruence]. }
  rewrite fmap_cons in Hr. apply NoDup_cons in Hr as [Hfresh Hr].
  cbn [fst] in Hfresh.
  destruct (apply_ping_rows dev_id ip ok s) as (seen & n & Hrun & Hseen).
  cbn [for_each]. unfold mbind, M_bind. rewrite Hrun.
  match goal with |- context [for_each _ results ?s1] =>
    destruct (IH s1) as (s' & -> & Hsame & Hrows) end; [done| |].
  { cbn. by rewrite mark_device_columns. }
  exists s'. split; [done|]. split; [exact Hsame|].
  cbn [session devices with_devices] in Hrows.
  rewrite mark_device_rows in Hrows by done.
  apply Forall2_fmap_l in Hrows.
  eapply Forall2_impl; [exact Hrows|].
  intros d d' H. cbv beta delta [compose] in H.
  destruct (decide (Device.id d = dev_id)) as [Hk|Hk].
  - right. exists ip, ok, seen.
    destruct H as [[_ ->]|(ip' & ok' & seen' & Hin & _)].
    + split; [rewrite Hk; apply elem_of_cons; by left|done].
    + exfalso. apply Hfresh. cbn in Hin. rewrite Hk in Hin.
      by apply (list_elem_of_fmap_2
                  (fun r : Z * string * bool => fst (fst r)) _ _ Hin).
  - destruct H as [[Hn ->]|(ip' & ok' & seen' & Hin & -> & Hs)].
    + left. split; [|done]. rewrite fmap_cons. cbn.
      apply not_elem_of_cons. by split.
    + right. exists ip', ok', seen'.
      split; [apply elem_of_cons; by right|done].
Qed.

Lemma reachability_phase_row connects db i d :
  NoDup (Device.id <$> devices db) ->
  devices db !! i = Some d ->
  let ok := async_ping (Device.ip_address d) (connects i) in
  exists seen,
    devices (reachability_phase clock
               (imap (fun i info => ping_worker info (connects i))
                     (device_infos db))
               true db) !! i
    = Some (probed ok seen d)
    /\ (is_Some seen <-> ok = true).
Proof.
  intros Hnd Hi. cbv zeta. unfold reachability_phase.
  destruct (for_each_apply_ping_rows
              (imap (fun i info => ping_worker info (connects i))
                    (device_infos db))
              (mkPollState db ∅ 0)) as (s' & -> & Hsame & Hrows);
    [by rewrite ping_results_ids|done|].
  cbn [session] in Hsame, Hrows.
  destruct (Forall2_lookup_l _ _ _ _ _ Hrows Hi) as (d' & Hi' & H).
  destruct H as [[Hn _]|(ip & ok & seen & Hin & -> & Hs)].
  { exfalso. apply Hn. rewrite ping_results_ids.
    apply list_elem_of_fmap_2. by eapply list_elem_of_lookup_2. }
  apply list_elem_of_lookup in Hin as [j Hj].
  apply list_lookup_imap_Some in Hj as (info & Hinfo & Hw).
  apply device_infos_lookup in Hinfo as (dj & Hdj & Hid & Hip).
  unfold ping_worker in Hw. injection Hw as Hw1 Hw2 Hw3.
  assert (j = i) as ->.
  { eapply (NoDup_lookup (Device.id <$> devices db)); [done| |].
    - by rewrite list_lookup_fmap, Hdj.
    - rewrite list_lookup_fmap, Hi. cbn. congruence. }
  rewrite Hi in Hdj. injection Hdj as <-.
  exists seen. rewrite <- Hip, <- Hw3. by split.
Qed.

(** X9. The reachability phase, on a device table with unique ids: no other
    table changes; a failing commit leaves the database as it was; after a
    committed phase every device row carries status "up" and a last-seen
    time when its probe answered, and status "down" and no last-seen time
    when it did not, its other columns staying as they were. *)
Theorem reachability_phase_rows connects commit_ok db :
  NoDup (Device.id <$> devices db) ->
  let db' :=
    reachability_phase clock
      (imap (fun i info => ping_worker info (connects i)) (device_infos db))
      commit_ok db in
  only_devices_differ db db'
  /\ (commit_ok = false -> db' = db)
  /\ (commit_ok = true ->
      forall i d, devices db !! i = Some d ->
        let ok := async_ping (Device.ip_address d) (connects i) in
        exists d',
          devices db' !! i = Some d'
          /\ Device.status d' = (if ok then "up" else "down")
          /\ (is_Some (Device.last_seen d') <-> ok = true)
          /\ same_but_status d d').
Proof.
  intros Hnd. cbv zeta. split; [|split].
  - unfold reachability_phase.
    destruct (for_each_apply_ping_rows
                (imap (fun i info => ping_worker info (connects i))
                      (device_infos db))
                (mkPollState db ∅ 0)) as (s' & -> & Hsame & _);
      [by rewrite ping_results_ids|done|].
    by destruct commit_ok.
  - intros ->. unfold reachability_phase.
    by destruct (for_each _ _ _) as [[?|?] ?].
  - intros -> i d Hi.
    destruct (reachability_phase_row connects db i d Hnd Hi)
      as (seen & Hrow & Hseen).
    cbv zeta in Hrow, Hseen. eexists. split; [exact Hrow|].
    split; [reflexivity|]. split; [exact Hseen|]. by repeat split.
Qed.

End PhaseA.

Lemma reachability_phase_rows_witness :
  Device.status
  <$> devices (reachability_phase tick
                 (imap (fun i info => ping_worker info (Nat.eqb i 0))
                       (device_infos poll_db))
                 true poll_db) !! 0%nat
  = Some "up"
  /\ Device.status
     <$> devices (reachability_phase tick
                    (imap (fun i info => ping_worker info (Nat.eqb i 0))
                          (device_infos poll_db))
                    true poll_db) !! 1%nat
     = Some "down"
  /\ Device.last_seen
     <$> devices (reachability_phase tick
                    (imap (fun i info => ping_worker info (Nat.eqb i 0))
                          (device_infos poll_db))
                    true poll_db) !! 1%nat
     = Some None.
Proof.
  assert (Hnd : NoDup (Device.id <$> devices poll_db))
    by (by apply (bool_decide_unpack _)).
  destruct (reachability_phase_rows tick (fun i => Nat.eqb i 0) true poll_db
              Hnd) as (_ & _ & H).
  destruct (H eq_refl 0%nat sw1 eq_refl) as (d1 & -> & Hs1 & _).
  destruct (H eq_refl 1%nat sw2 eq_refl) as (d2 & -> & Hs2 & Hl2 & _).
  cbn. rewrite Hs1, Hs2. split; [done|]. split; [done|].
  destruct (Device.last_seen d2) as [t|]; [|done].
  destruct Hl2 as [Hl2 _]. discriminate Hl2. by eexists.
Defined.

(** ** The polling phase *)

Lemma status_of_lookup rows i d :
  NoDup (Device.id <$> rows) ->
  rows !! i = Some d ->
  status_of rows (Device.id d) = Some (Device.status d).
Proof.
  intros Hnd Hi. unfold status_of.
  destruct (list_find (fun d0 => Device.id d0 = Device.id d) rows)
    as [[p x]|] eqn:E.
  - apply list_find_Some in E as (Hp & Hx & _). cbn.
    assert (p = i) as ->; [|congruence].
    eapply (NoDup_lookup (Device.id <$> rows)); [done| |].
    + by rewrite list_lookup_fmap, Hp.
    + rewrite list_lookup_fmap, Hi. cbn. by rewrite Hx.
  - apply list_find_None in E. rewrite Forall_forall in E.
    exfalso. apply (E d); [|done]. by eapply list_elem_of_lookup_2.
Qed.

Section SweepUp.
Variable py_str : PyVal -> string.
Variable py_int : PyVal -> result Z.

Lemma reachability_marks_up clock connects db i info :
  NoDup (Device.id <$> devices db) ->
  device_infos db !! i = Some info ->
  async_ping (DeviceInfo.ip_address info) (connects i) = true ->
  status_of
    (devices
       (reachability_phase clock
          (imap (fun i info => ping_worker info (connects i))
                (device_infos db))
          true db))
    (DeviceInfo.id info) = Some "up".
Proof.
  intros Hnd Hi Hping.
  apply device_infos_lookup in Hi as (d & Hd & Hid & Hip).
  destruct (reachability_phase_row clock connects db i d Hnd Hd)
    as (seen & Hrow & _).
  cbv zeta in Hrow. rewrite <- Hip, Hping in Hrow.
  rewrite Hid.
  change (Device.id d) with (Device.id (probed true seen d)).
  change (Some "up") with (Some (Device.status (probed true seen d))).
  eapply status_of_lookup; [|exact Hrow].
  unfold reachability_phase.
  destruct (for_each_apply_ping clock
              (imap (fun i info => ping_worker info (connects i))
                    (device_infos db))
              (mkPollState db ∅ 0)) as (s' & E & _).
  destruct (for_each_apply_ping_rows clock
              (imap (fun i info => ping_worker info (connects i))
                    (device_infos db))
              (mkPollState db ∅ 0)) as (s2 & E2 & _ & Hrows);
    [by rewrite ping_results_ids|done|].
  rewrite E2. cbn [session] in Hrows.
  replace (Device.id <$> devices (session s2)) with (Device.id <$> devices db);
    [done|].
  apply list_eq. intros j. rewrite !list_lookup_fmap.
  destruct (devices db !! j) as [x|] eqn:Ex.
  - destruct (Forall2_lookup_l _ _ _ _ _ Hrows Ex) as (x' & -> & H).
    cbn. f_equal.
    by destruct H as [[_ ->]|(? & ? & ? & _ & -> & _)].
  - apply Forall2_length in Hrows.
    apply lookup_ge_None in Ex. rewrite Hrows in Ex.
    apply lookup_ge_None in Ex. by rewrite Ex.
Qed.

(** Until the task of a device that answered its probe has ended, the
    database keeps saying "up" for it and the task is not skipped. *)
Lemma sweep_keeps_up_unskipped infos interval s0 s i info :
  NoDup (DeviceInfo.id <$> infos) ->
  infos !! i = Some info ->
  rtc (sweep_step py_str py_int infos interval) s0 s ->
  status_of (devices (sweep_db s0)) (DeviceInfo.id info) = Some "up" ->
  sweep_tasks s0 !! i = Some Waiting ->
  (sweep_tasks s !! i = Some Polled
   \/ sweep_tasks s !! i = Some PollFailed
   \/ sweep_tasks s !! i = Some ReadFailed)
  \/ (status_of (devices (sweep_db s)) (DeviceInfo.id info) = Some "up"
      /\ (sweep_tasks s !! i = Some Waiting
          \/ sweep_tasks s !! i = Some Holding
          \/ sweep_tasks s !! i = Some Polling)).
Proof.
  intros Hnd Hi Hrtc Hu0 Ht0. revert s Hrtc.
  apply (rtc_ind_r (fun s =>
    (sweep_tasks s !! i = Some Polled
     \/ sweep_tasks s !! i = Some PollFailed
     \/ sweep_tasks s !! i = Some ReadFailed)
    \/ (status_of (devices (sweep_db s)) (DeviceInfo.id info) = Some "up"
        /\ (sweep_tasks s !! i = Some Waiting
            \/ sweep_tasks s !! i = Some Holding
            \/ sweep_tasks s !! i = Some Polling)))); [right; by auto|].
  intros s1 s2 Hrtc Hstep Hinv.
  assert (Hother : forall j info_j clock w ok,
            infos !! j = Some info_j -> i <> j ->
            status_of (devices (sweep_db s1)) (DeviceInfo.id info)
            = Some "up" ->
            status_of
              (devices (poll_device py_str py_int clock info_j interval w ok
                                    (sweep_db s1)))
              (DeviceInfo.id info) = Some "up").
  { intros j info_j clock w ok Hij Hne Hu.
    rewrite poll_device_status_other; [done|].
    intros Heq. apply Hne.
    eapply (NoDup_lookup (DeviceInfo.id <$> infos)); [done| |].
    - by rewrite list_lookup_fmap, Hi.
    - rewrite list_lookup_fmap, Hij. cbn. by rewrite Heq. }
  destruct Hstep as [s1 j Hj Hfree|s1 j info_j Hj Hij Hdown
                    |s1 j info_j Hj Hij Hup|s1 j info_j clock w ok Hj Hij
                    |s1 j Hj|s1 j info_j clock w ok Hj Hij];
    cbn [sweep_db sweep_tasks];
    (destruct (decide (i = j)) as [->|Hne];
     [rewrite list_lookup_insert_eq by (by eapply lookup_lt_Some)
     |rewrite list_lookup_insert_ne by done]).
  - destruct Hinv as [[Hp|[Hp|Hp]]|[Hu _]]; [congruence..|]. right. by auto.
  - done.
  - destruct Hinv as [[Hp|[Hp|Hp]]|[Hu _]]; [congruence..|].
    rewrite Hi in Hij. injection Hij as <-.
    apply says_down_status in Hdown. congruence.
  - done.
  - destruct Hinv as [[Hp|[Hp|Hp]]|[Hu _]]; [congruence..|]. right. by auto.
  - done.
  - left. by left.
  - destruct Hinv as [Hp|[Hu Ht]]; [by left|]. right. split; [|done].
    by eapply Hother.
  - left. right. by right.
  - done.
  - left. right. by left.
  - destruct Hinv as [Hp|[Hu Ht]]; [by left|]. right. split; [|done].
    by eapply Hother.
Qed.

(** X10. In a cycle whose reachability phase is committed, a device that
    answered its probe is never skipped as down: until its task has ended,
    by its worker returning or by an exception of the status read or of the
    poll, the database keeps saying "up" for it, whatever the sibling
    workers write, so the status check never turns it away. *)
Theorem up_device_is_never_skipped clock_a connects interval db s i info :
  NoDup (Device.id <$> devices db) ->
  device_infos db !! i = Some info ->
  async_ping (DeviceInfo.ip_address info) (connects i) = true ->
  cycle_reaches py_str py_int clock_a connects true interval db s ->
  sweep_tasks s !! i <> Some Skipped
  /\ ((sweep_tasks s !! i = Some Polled
       \/ sweep_tasks s !! i = Some PollFailed
       \/ sweep_tasks s !! i = Some ReadFailed)
      \/ status_of (devices (sweep_db s)) (DeviceInfo.id info) = Some "up").
Proof.
  intros Hnd Hi Hping Hreach. unfold cycle_reaches in Hreach.
  assert (Hnd' : NoDup (DeviceInfo.id <$> device_infos db)).
  { unfold device_infos. by rewrite <- list_fmap_compose. }
  destruct (sweep_keeps_up_unskipped _ _ _ _ i info Hnd' Hi Hreach)
    as [Hp|[Hu Ht]].
  - cbn. by apply (reachability_marks_up clock_a connects db i info).
  - cbn. apply lookup_replicate_2. apply (lookup_lt_Some _ _ _ Hi).
  - split; [|by left]. destruct Hp as [?|[?|?]]; congruence.
  - split; [|by right]. destruct Ht as [?|[?|?]]; congruence.
Qed.

End SweepUp.

Lemma up_device_is_never_skipped_witness :
  let db_a := reachability_phase tick
                (imap (fun i info => ping_worker info true)
                      (device_infos poll_db)) true poll_db in
  let s := mkSweep db_a [Polling; Waiting] in
  cycle_reaches sample_str sample_int tick (fun _ => true) true (VInt 5)
                poll_db s
  /\ sweep_tasks s !! 0%nat <> Some Skipped
  /\ status_of (devices (sweep_db s)) 1 = Some "up".
Proof.
  cbv zeta.
  assert (Hreach : cycle_reaches sample_str sample_int tick (fun _ => true)
                     true (VInt 5) poll_db
                     (mkSweep (reachability_phase tick
                                 (imap (fun i info => ping_worker info true)
                                       (device_infos poll_db)) true poll_db)
                              [Polling; Waiting])).
  { unfold cycle_reaches.
    set (db_a := reachability_phase tick _ true poll_db).
    refine (rtc_l _ _ _ _
              (step_acquire sample_str sample_int (device_infos poll_db)
                 (VInt 5) (sweep_start db_a (device_infos poll_db)) 0%nat
                 eq_refl _) _); [vm_compute; lia|].
    refine (rtc_l _ _ _ _
              (step_start sample_str sample_int (device_infos poll_db)
                 (VInt 5) (mkSweep db_a [Holding; Waiting]) 0%nat sw1_info
                 eq_refl eq_refl eq_refl)
              (rtc_refl _ _)). }
  split; [exact Hreach|].
  assert (Hnd : NoDup (Device.id <$> devices poll_db))
    by (by apply (bool_decide_unpack _)).
  destruct (up_device_is_never_skipped sample_str sample_int tick
              (fun _ => true) (VInt 5) poll_db _ 0%nat sw1_info
              Hnd eq_refl eq_refl Hreach)
    as (Ht & [[Hp|[Hp|Hp]]|Hu]); [discriminate Hp..|].
  split; [exact Ht|exact Hu].
Defined.


(** ** The backfill end point: what it writes and what it answers *)

Lemma scan_contains_candidate n ds c c' d :
  scan_contains n ds c = Ok c' ->
  candidate c' = Some d ->
  In d ds \/ candidate c = Some d.
Proof.
  induction ds as [|x ds IH]; simpl.
  - intros [= <-] H. by right.
  - destruct (Device.hostname x) as [h|]; [|done].
    destruct (nonempty h && contains (lower h) (lower n)).
    { intros [= <-] [= <-]. left. by left. }
    destruct (contains (lower n) (lower h)).
    { intros [= <-] [= <-]. left. by left. }
    intros H1 H2. destruct (IH H1 H2); [left; by right|by right].
Qed.

(** Whatever strategy hits, the candidate is a row of the device table. *)
Lemma match_link_candidate db ifs link c d :
  match_link db (devices db) ifs link = Ok (Some c) ->
  candidate c = Some d ->
  In d (devices db).
Proof.
  unfold match_link. destruct (is_non_device _); [done|].
  set (n := strip _).
  set (c1 := try_exact (devices db) n no_candidate).
  assert (H1 : forall x, candidate c1 = Some x -> In x (devices db)).
  { subst c1. unfold try_exact. destruct (nonempty n); [|done].
    destruct (List.find _ _) as [y|] eqn:E; [|done].
    intros x [= <-]. by apply find_some in E as [? _]. }
  set (c2 := try_short (devices db) n c1).
  assert (H2 : forall x, candidate c2 = Some x -> In x (devices db)).
  { subst c2. unfold try_short. destruct (_ && _); [|done].
    destruct (List.find _ _) as [y|] eqn:E; [|done].
    intros x [= <-]. by apply find_some in E as [? _]. }
  destruct (try_contains (devices db) n c2) as [c3|] eqn:E3; [|done].
  assert (H3 : forall x, candidate c3 = Some x -> In x (devices db)).
  { unfold try_contains in E3. destruct (_ && _).
    - intros x Hx.
      destruct (scan_contains_candidate _ _ _ _ _ E3 Hx); [done|by apply H2].
    - by injection E3 as <-. }
  cbn [mbind result_bind].
  set (c4 := try_ip (devices db) n c3).
  assert (H4 : forall x, candidate c4 = Some x -> In x (devices db)).
  { subst c4. unfold try_ip. destruct (_ && _); [|done].
    destruct (re_search _ _); [|done].
    destruct (List.find _ _) as [y|] eqn:E; [|done].
    intros x [= <-]. by apply find_some in E as [? _]. }
  intros [= <-]. unfold try_mac. destruct (_ && _); [|by apply H4].
  destruct (re_search _ _); [|by apply H4].
  destruct (List.find _ ifs); [|by apply H4].
  cbn. unfold session_get_device. intros E.
  by apply find_some in E as [? _].
Qed.

Lemma backfill_one_cases dry_run db ifs st ref link st' :
  backfill_one dry_run db (devices db) ifs st (ref, link) = Ok st' ->
  st' = mkBackfill (bf_links st) (bf_processed st + 1) (bf_updated st)
                   (bf_suggestions st)
  \/ exists d r,
       match_link db (devices db) ifs link
       = Ok (Some (mkCandidate (Some d) r))
       /\ In d (devices db)
       /\ st' = mkBackfill
                  (if dry_run then bf_links st
                   else <[ref := resolve_to d link]> (bf_links st))
                  (bf_processed st + 1)
                  (if dry_run then bf_updated st else bf_updated st + 1)
                  (bf_suggestions st
                   ++ [Suggestion.mk (TopologyLink.id link)
                         (TopologyLink.src_device_id link)
                         (TopologyLink.src_interface link)
                         (TopologyLink.dst_hostname link)
                         (Device.id d) (Device.hostname d) r]).
Proof.
  unfold backfill_one.
  destruct (match_link db (devices db) ifs link) as [m|] eqn:Hm; [|done].
  cbn [mbind result_bind].
  destruct m as [[[d|] r]|]; [|intros [= <-]; by left..].
  intros H. right. exists d, r. split; [done|].
  split; [by eapply match_link_candidate|].
  destruct dry_run; by injection H as <-.
Qed.

Lemma backfill_loop_rows dry_run db ifs all links st st' :
  (forall pl, In pl links -> In pl all) ->
  (forall p l, In (p, l) all ->
     topology_links db !! p = Some l /\ TopologyLink.dst_device_id l = None) ->
  backfill_loop dry_run db (devices db) ifs links st = Ok st' ->
  let inv st :=
    Forall2 (same_or_resolved db) (topology_links db) (bf_links st)
    /\ (dry_run = true -> bf_links st = topology_links db)
    /\ bf_updated st
       = (if dry_run then 0 else Z.of_nat (length (bf_suggestions st)))
    /\ Z.of_nat (length (bf_suggestions st)) <= bf_processed st
    /\ Forall (suggestion_for db all) (bf_suggestions st) in
  inv st -> inv st'.
Proof.
  intros Hsub Hall. cbv zeta. revert st.
  induction links as [|[ref link] links IH]; intros st H Hinv.
  { by injection H as <-. }
  cbn [backfill_loop] in H.
  destruct (backfill_one dry_run db (devices db) ifs st (ref, link))
    as [st1|] eqn:H1; [|done]. cbn [mbind result_bind] in H.
  apply IH in H; [done|intros; apply Hsub; by right|].
  clear IH. destruct Hinv as (Hrows & Hdry & Hupd & Hle & Hsg).
  apply backfill_one_cases in H1 as [->|(d & r & Hm & Hd & ->)]; cbn.
  { repeat split; [done..|lia|done]. }
  destruct (Hall ref link (Hsub _ (or_introl eq_refl))) as [Href Hnone].
  split; [|split; [|split; [|split]]].
  - destruct dry_run; [done|].
    rewrite <- (list_insert_id (topology_links db) ref link Href).
    apply Forall2_insert; [done|]. right. eauto.
  - intros ->. by apply Hdry.
  - rewrite length_app. cbn. destruct dry_run; lia.
  - rewrite length_app. cbn. lia.
  - apply Forall_app. split; [done|]. constructor; [|constructor].
    exists ref, link, d. cbn.
    split; [apply Hsub; by left|]. by repeat split.
Qed.

Lemma backfill_links_run dry_run limit commit_ok db resp db' :
  backfill_links dry_run limit commit_ok db = Ok (resp, db') ->
  exists st,
    backfill_loop dry_run db (devices db)
      (List.filter (fun i => is_some (Interface.mac_address i))
                   (interfaces db))
      (cap limit (unresolved db)) (mkBackfill (topology_links db) 0 0 [])
    = Ok st
    /\ resp = mkResponse (bf_processed st) (bf_updated st) (bf_suggestions st)
    /\ db' = (if negb dry_run && commit_ok
              then with_topology_links (fun _ => bf_links st) db else db).
Proof.
  unfold backfill_links.
  match goal with |- context [backfill_loop ?a ?b ?c ?d ?e ?f] =>
    destruct (backfill_loop a b c d e f) as [st|] eqn:Hloop end; [|done].
  cbn [mbind result_bind]. intros [= <- <-]. by exists st.
Qed.

Lemma backfill_loop_inv dry_run limit db st :
  backfill_loop dry_run db (devices db)
    (List.filter (fun i => is_some (Interface.mac_address i)) (interfaces db))
    (cap limit (unresolved db)) (mkBackfill (topology_links db) 0 0 [])
  = Ok st ->
  Forall2 (same_or_resolved db) (topology_links db) (bf_links st)
  /\ (dry_run = true -> bf_links st = topology_links db)
  /\ bf_updated st
     = (if dry_run then 0 else Z.of_nat (length (bf_suggestions st)))
  /\ Z.of_nat (length (bf_suggestions st)) <= bf_processed st
  /\ Forall (suggestion_for db (cap limit (unresolved db)))
            (bf_suggestions st).
Proof.
  intros H.
  eapply (backfill_loop_rows dry_run db _ (cap limit (unresolved db)));
    [done| |exact H|].
  - intros p l Hin. by apply cap_sublist, unresolved_spec in Hin.
  - cbn. split; [|by destruct dry_run].
    apply Forall2_same_length_lookup_2; [done|].
    intros i x y Hx Hy. left. congruence.
Qed.

(** X12. The backfill end point writes nothing but link rows: every other
    table stays as it was and the link table keeps its length; a link row
    either stays as it was or was unresolved and is now resolved to a device
    of the device table, with that device's hostname when it has one; a dry
    run, and a run whose commit fails, leave the database untouched. *)
Theorem backfill_writes_only_resolutions dry_run limit commit_ok db resp db' :
  backfill_links dry_run limit commit_ok db = Ok (resp, db') ->
  only_links_differ db db'
  /\ Forall2 (same_or_resolved db) (topology_links db) (topology_links db')
  /\ (dry_run = true \/ commit_ok = false -> db' = db).
Proof.
  intros H. apply backfill_links_run in H as (st & Hloop & -> & ->).
  apply backfill_loop_inv in Hloop as (Hrows & _).
  split; [|split].
  - by destruct (negb dry_run && commit_ok).
  - destruct (negb dry_run && commit_ok); [done|].
    apply Forall2_same_length_lookup_2; [done|].
    intros i x y Hx Hy. left. congruence.
  - intros [-> | ->]; [done|]. by rewrite andb_false_r.
Qed.

(** X13. The answer of the backfill end point: [updated] is zero in a dry
    run and the number of suggestions otherwise, whether or not the commit
    went through; there are never more suggestions than processed links;
    and every suggestion describes one of the processed links and a device
    of the device table. *)
Theorem backfill_answer_counts dry_run limit commit_ok db resp db' :
  backfill_links dry_run limit commit_ok db = Ok (resp, db') ->
  updated resp = (if dry_run then 0 else Z.of_nat (length (suggestions resp)))
  /\ Z.of_nat (length (suggestions resp)) <= processed resp
  /\ Forall (suggestion_for db (cap limit (unresolved db))) (suggestions resp).
Proof.
  intros H. apply backfill_links_run in H as (st & Hloop & -> & ->).
  by apply backfill_loop_inv in Hloop as (_ & _ & Hupd & Hle & Hsg).
Qed.

Lemma backfill_one_links db st ref link st' :
  backfill_one false db (devices db) (mac_ifaces db) st (ref, link) = Ok st' ->
  bf_links st !! ref = Some link ->
  bf_links st' = <[ref := backfilled db link]> (bf_links st).
Proof.
  unfold backfill_one, backfilled. intros H Href.
  destruct (match_link db (devices db) (mac_ifaces db) link) as [m|];
    [|done]. cbn [mbind result_bind] in H.
  destruct m as [[[d|] r]|]; injection H as <-; cbn;
    [reflexivity|symmetry; by apply list_insert_id..].
Qed.

Lemma backfill_loop_applied db links st st' :
  NoDup (fst <$> links) ->
  (forall p l, In (p, l) links -> bf_links st !! p = Some l) ->
  backfill_loop false db (devices db) (mac_ifaces db) links st = Ok st' ->
  (forall p l, In (p, l) links ->
     bf_links st' !! p = Some (backfilled db l))
  /\ (forall p, p ∉ fst <$> links -> bf_links st' !! p = bf_links st !! p).
Proof.
  revert st. induction links as [|[ref link] links IH]; intros st Hnd Hst H.
  { injection H as <-. split; [by intros ? ? []|done]. }
  rewrite fmap_cons in Hnd. apply NoDup_cons in Hnd as [Hfresh Hnd].
  cbn [fst] in Hfresh. cbn [backfill_loop] in H.
  destruct (backfill_one false db (devices db) (mac_ifaces db) st (ref, link))
    as [st1|] eqn:H1; [|done]. cbn [mbind result_bind] in H.
  pose proof (Hst ref link (or_introl eq_refl)) as Href.
  apply backfill_one_links in H1; [|done].
  assert (Hne : forall p l, In (p, l) links -> p <> ref).
  { intros p l Hin ->. apply Hfresh.
    apply list_elem_of_In in Hin.
    by apply (list_elem_of_fmap_2 fst _ _ Hin). }
  destruct (IH st1 Hnd) as [Hin Hout]; [|done|].
  { intros p l Hpl. rewrite H1, list_lookup_insert_ne.
    - apply Hst. by right.
    - intros Heq. by apply (Hne p l Hpl). }
  split.
  - intros p l [[= -> ->]|Hpl]; [|by apply Hin].
    rewrite Hout by done. rewrite H1.
    apply list_lookup_insert_eq. by eapply lookup_lt_Some.
  - intros p Hp. rewrite fmap_cons in Hp. apply not_elem_of_cons in Hp.
    destruct Hp as [Hp1 Hp2]. cbn in Hp1.
    rewrite Hout by done. rewrite H1. by apply list_lookup_insert_ne.
Qed.

Lemma imap_pair_positions {X} (l : list X) k :
  NoDup (fst <$> imap (fun i x => (k + i, x)%nat) l)
  /\ forall p, p ∈ fst <$> imap (fun i x => (k + i, x)%nat) l -> (k <= p)%nat.
Proof.
  revert k. induction l as [|x l IH]; intros k.
  - split; [constructor|]. intros p Hp. by apply elem_of_nil in Hp.
  - cbn [imap fmap list_fmap].
    rewrite (imap_ext _ (fun i y => (S k + i, y)%nat) l)
      by (intros; unfold compose; f_equal; lia).
    destruct (IH (S k)) as [Hnd Hge]. split.
    + apply NoDup_cons. split; [|done]. intros Hin.
      apply Hge in Hin. cbn in Hin. lia.
    + intros p Hp. apply elem_of_cons in Hp as [->|Hp]; [cbn; lia|].
      apply Hge in Hp. lia.
Qed.

Lemma unresolved_positions db : NoDup (fst <$> unresolved db).
Proof.
  unfold unresolved.
  destruct (imap_pair_positions (topology_links db) 0%nat) as [Hnd _].
  refine (sublist_NoDup _ _ Hnd _).
  apply fmap_sublist.
  rewrite (imap_ext pair (fun i x => (0 + i, x)%nat)) by done.
  generalize (imap (fun i x => (0 + i, x)%nat) (topology_links db)).
  intros l. induction l as [|y l IH]; [done|]. cbn.
  destruct (negb _); [by apply sublist_skip|by apply sublist_cons].
Qed.

Lemma cap_positions limit db : NoDup (fst <$> cap limit (unresolved db)).
Proof.
  unfold cap. destruct (_ && _); [|apply unresolved_positions].
  rewrite fmap_take.
  refine (sublist_NoDup _ _ (unresolved_positions db) _).
  apply sublist_take.
Qed.

(** X14. A backfill that is not a dry run and whose commit goes through:
    every processed link ends resolved to the device its label matched, and
    stays as it was when nothing matched or its label was skipped; the rows
    that were not processed are not written. *)
Theorem backfill_applies_matches limit db resp db' :
  backfill_links false limit true db = Ok (resp, db') ->
  (forall p l, In (p, l) (cap limit (unresolved db)) ->
     topology_links db' !! p = Some (backfilled db l))
  /\ (forall p, p ∉ fst <$> cap limit (unresolved db) ->
        topology_links db' !! p = topology_links db !! p).
Proof.
  intros H. apply backfill_links_run in H as (st & Hloop & -> & ->).
  cbn [negb andb topology_links with_topology_links].
  apply (backfill_loop_applied db) in Hloop; [done|apply cap_positions|].
  intros p l Hin. cbn. by apply cap_sublist, unresolved_lookup in Hin.
Qed.

Lemma backfill_writes_only_resolutions_witness :
  match backfill_links false 0 true backfill_db with
  | Ok (_, db') =>
      devices db' = devices backfill_db
      /\ length (topology_links db') = 2%nat
  | Raise _ => False
  end.
Proof.
  destruct (backfill_links false 0 true backfill_db) as [[resp db']|e] eqn:E;
    [|by vm_compute in E].
  destruct (backfill_writes_only_resolutions false 0 true backfill_db _ _ E)
    as ((Hd & _) & Hrows & _).
  split; [exact Hd|]. by rewrite <- (Forall2_length _ _ _ Hrows).
Defined.

Lemma backfill_answer_counts_witness :
  match backfill_links false 0 false backfill_db with
  | Ok (resp, db') =>
      updated resp = Z.of_nat (length (suggestions resp))
      /\ Z.of_nat (length (suggestions resp)) <= processed resp
  | Raise _ => False
  end.
Proof.
  destruct (backfill_links false 0 false backfill_db) as [[resp db']|e] eqn:E;
    [|by vm_compute in E].
  destruct (backfill_answer_counts false 0 false backfill_db _ _ E)
    as (Hu & Hle & _).
  split; [exact Hu|exact Hle].
Defined.

Lemma backfill_applies_matches_witness :
  match backfill_links false 0 true backfill_db with
  | Ok (_, db') =>
      topology_links db' !! 1%nat = Some (resolve_to core_sw1 exact_link)
      /\ topology_links db' !! 0%nat = Some adapter_link
  | Raise _ => False
  end.
Proof.
  destruct (backfill_links false 0 true backfill_db) as [[resp db']|e] eqn:E;
    [|by vm_compute in E].
  destruct (backfill_applies_matches 0 backfill_db _ _ E) as [H _].
  split.
  - apply (H 1%nat exact_link). right. by left.
  - apply (H 0%nat adapter_link). by left.
Defined.

(** ** [snmp_walk]: what the dict of a walk holds *)

Lemma dict_get_set key value results k :
  dict_get (Some (dict_set key value results)) k
  = if String.eqb key k then Some value else dict_get (Some results) k.
Proof.
  unfold dict_get. cbn [items default].
  induction results as [|[a b] rest IH]; cbn.
  - by destruct (String.eqb key k).
  - destruct (String.eqb a key) eqn:Ea; cbn.
    + apply String.eqb_eq in Ea as ->. by destruct (String.eqb key k).
    + destruct (String.eqb a k) eqn:Ek; cbn; [|exact IH].
      apply String.eqb_eq in Ek as ->.
      rewrite String.eqb_sym in Ea. by rewrite Ea.
Qed.

Lemma dict_set_keys key value results :
  NoDup results.*1 -> NoDup (dict_set key value results).*1.
Proof.
  induction results as [|[a b] rest IH]; cbn.
  - intros _. apply NoDup_singleton.
  - intros [Ha Hnd]%NoDup_cons.
    destruct (String.eqb a key) eqn:Ea; cbn.
    + by apply NoDup_cons.
    + apply NoDup_cons. split; [|by apply IH].
      intros Hin. apply Ha. clear IH Hnd Ha.
      induction rest as [|[c d] rest IH]; cbn in *.
      * apply list_elem_of_singleton in Hin as ->.
        by rewrite String.eqb_refl in Ea.
      * destruct (String.eqb c key); cbn in Hin; [done|].
        apply elem_of_cons in Hin as [->|Hin];
          [by left|right; by apply IH].
Qed.

Lemma find_key_app (l1 l2 : list (string * PyVal)) k :
  dict_get (Some (l1 ++ l2)) k
  = match dict_get (Some l1) k with
    | Some v => Some v
    | None => dict_get (Some l2) k
    end.
Proof.
  unfold dict_get. cbn [items default].
  induction l1 as [|[a b] l1 IH]; cbn; [done|].
  by destruct (String.eqb a k).
Qed.

Lemma dict_get_fold binds results k :
  dict_get (Some (foldl (fun results '(oid_val, value) =>
                           dict_set oid_val value results)
                        results binds)) k
  = match dict_get (Some (rev binds)) k with
    | Some v => Some v
    | None => dict_get (Some results) k
    end.
Proof.
  revert results. induction binds as [|[a b] binds IH]; intros results.
  - done.
  - cbn [foldl rev]. rewrite IH, find_key_app, dict_get_set.
    destruct (dict_get (Some (rev binds)) k); [done|].
    unfold dict_get at 1. cbn. by destruct (String.eqb a k).
Qed.

Lemma keys_fold binds results :
  NoDup results.*1 ->
  NoDup (foldl (fun results '(oid_val, value) =>
                  dict_set oid_val value results)
               results binds).*1.
Proof.
  revert results. induction binds as [|[a b] binds IH]; intros results H.
  - done.
  - cbn [foldl]. by apply IH, dict_set_keys.
Qed.

Lemma collect_walk_spec walk_results results :
  collect_walk walk_results results
  = if existsb (fun r => errInd r || errStat r) walk_results then None
    else Some (foldl (fun results '(oid_val, value) =>
                        dict_set oid_val value results)
                     results (concat (varBinds <$> walk_results))).
Proof.
  revert results. induction walk_results as [|r rest IH]; intros results.
  - done.
  - cbn [collect_walk existsb fmap list_fmap concat].
    destruct (errInd r || errStat r); [done|].
    cbn [orb]. by rewrite IH, foldl_app.
Qed.

(** X15. [snmp_walk] gives no dict when the walk raises or when any one of
    its responses carries an error, whatever was gathered before it;
    otherwise it gives a dict in which every oid occurs once and is bound
    to the value of the last var-bind that carried it. *)
Theorem snmp_walk_collects walk_results :
  snmp_walk None = None
  /\ (snmp_walk (Some walk_results) = None
      <-> Exists (fun r => errInd r = true \/ errStat r = true) walk_results)
  /\ (forall results,
        snmp_walk (Some walk_results) = Some results ->
        NoDup results.*1
        /\ forall k,
             dict_get (Some results) k
             = dict_get (Some (rev (concat (varBinds <$> walk_results)))) k).
Proof.
  split; [done|]. unfold snmp_walk. rewrite collect_walk_spec.
  split.
  - destruct (existsb _ walk_results) eqn:E.
    + split; [intros _|done]. apply existsb_exists in E as (r & Hin & Hr).
      apply Exists_exists. exists r.
      split; [by apply list_elem_of_In|]. by apply orb_true_iff.
    + split; [done|]. intros H. apply Exists_exists in H as (r & Hin & Hr).
      assert (existsb (fun r => errInd r || errStat r) walk_results = true);
        [|congruence].
      apply existsb_exists. exists r.
      split; [by apply list_elem_of_In|]. by apply orb_true_iff.
  - intros results. destruct (existsb _ walk_results); [done|].
    intros [= <-]. split; [apply keys_fold; constructor|].
    intros k. rewrite dict_get_fold.
    by destruct (dict_get (Some (rev _)) k).
Qed.

Lemma snmp_walk_collects_witness :
  dict_get (snmp_walk (Some [mkWalkResponse false false
                               [("1.3.6.1.2.1.2.2.1.2.1", octets "eth0")];
                             mkWalkResponse false false
                               [("1.3.6.1.2.1.2.2.1.2.1", octets "eth9")]]))
           "1.3.6.1.2.1.2.2.1.2.1"
  = Some (octets "eth9")
  /\ snmp_walk (Some [mkWalkResponse false false
                        [("1.3.6.1.2.1.2.2.1.2.1", octets "eth0")];
                      mkWalkResponse false true []])
     = None.
Proof.
  split.
  - destruct (snmp_walk_collects
                [mkWalkResponse false false
                   [("1.3.6.1.2.1.2.2.1.2.1", octets "eth0")];
                 mkWalkResponse false false
                   [("1.3.6.1.2.1.2.2.1.2.1", octets "eth9")]])
      as (_ & _ & H).
    destruct (H _ eq_refl) as [_ Hk]. by rewrite Hk.
  - apply (proj1 (proj2 (snmp_walk_collects
             [mkWalkResponse false false
                [("1.3.6.1.2.1.2.2.1.2.1", octets "eth0")];
              mkWalkResponse false true []]))).
    apply Exists_cons_tl, Exists_cons_hd. by right.
Defined.

(** ** [get_graph]: nodes and edges *)

Lemma order_by_perm {A} (key : A -> Z) (rows : list A) :
  order_by key rows ≡ₚ rows.
Proof. unfold order_by. apply merge_sort_Permutation. Qed.

Lemma fold_discovered dds (m : gmap Z Z) (ns : list Node.t) :
  (forall k nid, m !! k = Some nid ->
     nid = discovered_node_id k /\ nid ∈ Node.id <$> ns) ->
  exists m',
    foldl add_discovered (m, ns) dds = (m', ns ++ (discovered_node <$> dds))
    /\ forall k nid, m' !! k = Some nid ->
         nid = discovered_node_id k
         /\ nid ∈ Node.id <$> (ns ++ (discovered_node <$> dds)).
Proof.
  revert m ns. induction dds as [|dd dds IH]; intros m ns Hm.
  { exists m. rewrite app_nil_r. by split. }
  cbn [foldl add_discovered].
  destruct (IH (<[DiscoveredDevice.id dd
                  := discovered_node_id (DiscoveredDevice.id dd)]> m)
               (ns ++ [discovered_node dd])) as (m' & E & Hm').
  { intros k nid Hk. rewrite fmap_app. cbn.
    destruct (decide (DiscoveredDevice.id dd = k)) as [<-|Hne].
    - rewrite lookup_insert_eq in Hk. injection Hk as <-.
      split; [done|]. apply elem_of_app. right. by left.
    - rewrite lookup_insert_ne in Hk by done.
      destruct (Hm k nid Hk) as [? ?]. split; [done|].
      apply elem_of_app. by left. }
  exists m'. unfold discovered_node in *. cbn [fmap list_fmap].
  rewrite <- app_assoc in E, Hm'. by split.
Qed.

Lemma get_graph_nodes db :
  (get_graph db).1
  = (device_node <$> order_by Device.id (devices db))
    ++ (discovered_node
          <$> order_by DiscoveredDevice.id (discovered_devices db)).
Proof.
  unfold get_graph.
  destruct (fold_discovered
              (order_by DiscoveredDevice.id (discovered_devices db)) ∅
              (device_node <$> order_by Device.id (devices db)))
    as (m' & -> & _); [|done].
  intros k nid Hk. by rewrite lookup_empty in Hk.
Qed.

Lemma add_edge_cases existing (m : gmap Z Z) edges link :
  add_edge existing m edges link = edges
  \/ exists e,
       add_edge existing m edges link = edges ++ [e]
       /\ Edge.id e = TopologyLink.id link
       /\ Edge.source e = TopologyLink.src_device_id link
       /\ Edge.sourceInterface e = TopologyLink.src_interface link
       /\ Edge.targetInterface e = TopologyLink.dst_interface link
       /\ Edge.source e ∈ existing
       /\ ((TopologyLink.dst_device_id link = Some (Edge.target e)
            /\ Edge.target e ∈ existing)
           \/ exists k,
                TopologyLink.dst_discovered_device_id link = Some k
                /\ m !! k = Some (Edge.target e)).
Proof.
  unfold add_edge.
  set (src := TopologyLink.src_device_id link).
  assert (Hd :
    (if bool_decide (src ∈ existing) then
       match TopologyLink.dst_discovered_device_id link with
       | Some discovered_dst =>
           match m !! discovered_dst with
           | Some node_id =>
               edges ++ [Edge.mk (TopologyLink.id link) src node_id
                                 (TopologyLink.src_interface link)
                                 (TopologyLink.dst_interface link)]
           | None => edges
           end
       | None => edges
       end
     else edges) = edges
    \/ exists e,
         (if bool_decide (src ∈ existing) then
            match TopologyLink.dst_discovered_device_id link with
            | Some discovered_dst =>
                match m !! discovered_dst with
                | Some node_id =>
                    edges ++ [Edge.mk (TopologyLink.id link) src node_id
                                      (TopologyLink.src_interface link)
                                      (TopologyLink.dst_interface link)]
                | None => edges
                end
            | None => edges
            end
          else edges) = edges ++ [e]
         /\ Edge.id e = TopologyLink.id link
         /\ Edge.source e = src
         /\ Edge.sourceInterface e = TopologyLink.src_interface link
         /\ Edge.targetInterface e = TopologyLink.dst_interface link
         /\ Edge.source e ∈ existing
         /\ ((TopologyLink.dst_device_id link = Some (Edge.target e)
              /\ Edge.target e ∈ existing)
             \/ exists k,
                  TopologyLink.dst_discovered_device_id link = Some k
                  /\ m !! k = Some (Edge.target e))).
  { destruct (bool_decide (src ∈ existing)) eqn:Es; [|by left].
    apply bool_decide_eq_true in Es.
    destruct (TopologyLink.dst_discovered_device_id link) as [k|];
      [|by left].
    destruct (m !! k) as [nid|] eqn:Ek; [|by left].
    right. eexists. split; [reflexivity|]. cbn.
    repeat split; [done|]. right. by exists k. }
  destruct (TopologyLink.dst_device_id link) as [dst|]; [|exact Hd].
  destruct (bool_decide (src ∈ existing)) eqn:Es; cbn [andb]; [|exact Hd].
  destruct (bool_decide (dst ∈ existing)) eqn:Et; [|exact Hd].
  apply bool_decide_eq_true in Es, Et.
  right. eexists. split; [reflexivity|]. cbn.
  repeat split; [done|]. by left.
Qed.

Lemma fold_edges (P : Edge.t -> Prop) existing (m : gmap Z Z) links edges :
  (forall link e es,
     link ∈ links -> add_edge existing m es link = es ++ [e] ->
     add_edge existing m [] link = [e] /\ P e) ->
  Forall P edges ->
  Forall P (foldl (add_edge existing m) edges links)
  /\ (length (foldl (add_edge existing m) edges links)
      <= length edges + length links)%nat.
Proof.
  revert edges. induction links as [|link links IH]; intros edges HP He.
  { split; [done|]. cbn. lia. }
  cbn [foldl length].
  destruct (add_edge_cases existing m edges link) as [->|(e & E & _)].
  - destruct (IH edges) as [H1 H2]; [|done|].
    + intros l e es Hl. apply HP. by right.
    + split; [done|]. lia.
  - rewrite E. destruct (IH (edges ++ [e])) as [H1 H2].
    + intros l e' es Hl. apply HP. by right.
    + apply Forall_app. split; [done|]. constructor; [|done].
      eapply HP; [|exact E]. by left.
    + split; [done|]. rewrite length_app in H2. cbn in H2. lia.
Qed.

Lemma add_edge_new existing (m : gmap Z Z) es link e :
  add_edge existing m es link = es ++ [e] ->
  add_edge existing m [] link = [e].
Proof.
  unfold add_edge.
  destruct (TopologyLink.dst_device_id link) as [dst|];
    destruct (bool_decide (_ ∈ existing)); cbn [andb];
    try destruct (bool_decide (dst ∈ existing));
    try destruct (TopologyLink.dst_discovered_device_id link) as [k|];
    try destruct (m !! k);
    intros H;
    first [ by apply app_inv_head in H as ->
          | exfalso; apply (f_equal length) in H;
            rewrite length_app in H; cbn in H; lia ].
Qed.

(** The common part of the two statements on edges. *)
Lemma get_graph_edges db :
  Forall (fun e =>
            (exists link, link ∈ topology_links db /\ edge_of_link link e)
            /\ Edge.source e ∈ Node.id <$> (get_graph db).1
            /\ Edge.target e ∈ Node.id <$> (get_graph db).1)
         (get_graph db).2
  /\ (length (get_graph db).2 <= length (topology_links db))%nat.
Proof.
  rewrite get_graph_nodes. unfold get_graph.
  destruct (fold_discovered
              (order_by DiscoveredDevice.id (discovered_devices db)) ∅
              (device_node <$> order_by Device.id (devices db)))
    as (m' & -> & Hm).
  { intros k nid Hk. by rewrite lookup_empty in Hk. }
  cbn [snd].
  match goal with |- context [foldl (add_edge ?ex m') [] ?ls] =>
    destruct (fold_edges
      (fun e =>
         (exists link, link ∈ topology_links db /\ edge_of_link link e)
         /\ Edge.source e ∈ Node.id <$>
              (device_node <$> order_by Device.id (devices db)) ++
              (discovered_node
                 <$> order_by DiscoveredDevice.id (discovered_devices db))
         /\ Edge.target e ∈ Node.id <$>
              (device_node <$> order_by Device.id (devices db)) ++
              (discovered_node
                 <$> order_by DiscoveredDevice.id (discovered_devices db)))
      ex m' ls []) as [H1 H2]
  end; [|constructor|].
  - intros link e es Hl E. split; [by eapply add_edge_new|].
    destruct (add_edge_cases
                (list_to_set (Node.id <$>
                   (device_node <$> order_by Device.id (devices db)) ++
                   (discovered_node
                      <$> order_by DiscoveredDevice.id
                            (discovered_devices db))))
                m' es link)
      as [E'|(e' & E' & Hid & Hsrc & Hsi & Hti & Hs & Ht)].
    { rewrite E' in E. exfalso. apply (f_equal length) in E.
      rewrite length_app in E. cbn in E. lia. }
    rewrite E' in E. apply app_inv_head in E. injection E as <-.
    apply elem_of_list_to_set in Hs.
    rewrite (order_by_perm TopologyLink.id) in Hl.
    split; [exists link; split; [done|]|split; [done|]].
    + unfold edge_of_link. repeat split; [done..|].
      destruct Ht as [[Hd _]|(k & Hk & Hmk)]; [by left|].
      right. exists k. split; [done|]. by destruct (Hm _ _ Hmk).
    + destruct Ht as [[_ Ht]|(k & Hk & Hmk)].
      * by apply elem_of_list_to_set in Ht.
      * by destruct (Hm _ _ Hmk).
  - split; [done|]. cbn [length] in H2.
    pose proof (Permutation_length
                  (order_by_perm TopologyLink.id (topology_links db))) as HL.
    lia.
Qed.

(** X16. The graph never has a dangling edge: the source and the target of
    every edge are ids of nodes of the same answer. *)
Theorem graph_edges_join_nodes db e :
  e ∈ (get_graph db).2 ->
  Edge.source e ∈ Node.id <$> (get_graph db).1
  /\ Edge.target e ∈ Node.id <$> (get_graph db).1.
Proof.
  intros He. destruct (get_graph_edges db) as [H _].
  rewrite Forall_forall in H. by destruct (H e He) as (_ & ? & ?).
Qed.

(** X17. Every edge of the graph is drawn for a link of the table, whose id,
    source and interfaces it copies, and ends at the managed destination of
    that link or at the node of its discovered destination; so a link
    without either destination is never drawn, and there are at most as
    many edges as links. *)
Theorem graph_edges_stem_from_links db :
  (forall e, e ∈ (get_graph db).2 ->
     exists link, link ∈ topology_links db /\ edge_of_link link e)
  /\ (length (get_graph db).2 <= length (topology_links db))%nat.
Proof.
  destruct (get_graph_edges db) as [H Hlen]. split; [|done].
  intros e He. rewrite Forall_forall in H. by destruct (H e He) as (? & _).
Qed.

(** X18. When the ids of the device table and of the discovered-device
    table are unique and not negative, as generated keys are: the node ids
    of the graph are the device ids together with [-(id + 1000)] for every
    discovered device, no two nodes share an id, and a node has a negative
    id exactly when it stands for a discovered device. *)
Theorem graph_node_ids_distinct db :
  NoDup (Device.id <$> devices db) ->
  NoDup (DiscoveredDevice.id <$> discovered_devices db) ->
  Forall (fun d => 0 <= Device.id d) (devices db) ->
  Forall (fun dd => 0 <= DiscoveredDevice.id dd) (discovered_devices db) ->
  Node.id <$> (get_graph db).1
  ≡ₚ (Device.id <$> devices db)
     ++ ((fun dd => discovered_node_id (DiscoveredDevice.id dd))
         <$> discovered_devices db)
  /\ NoDup (Node.id <$> (get_graph db).1)
  /\ forall n, n ∈ (get_graph db).1 ->
       (Node.isDiscovered n = true <-> Node.id n < 0).
Proof.
  intros Hd Hdd Hpos Hpos'. rewrite get_graph_nodes.
  assert (Hperm :
    Node.id <$> (device_node <$> order_by Device.id (devices db)) ++
                (discovered_node
                   <$> order_by DiscoveredDevice.id (discovered_devices db))
    ≡ₚ (Device.id <$> devices db)
       ++ ((fun dd => discovered_node_id (DiscoveredDevice.id dd))
           <$> discovered_devices db)).
  { rewrite fmap_app, <- !list_fmap_compose.
    by rewrite (order_by_perm Device.id),
               (order_by_perm DiscoveredDevice.id). }
  split; [exact Hperm|]. split.
  - rewrite Hperm. apply NoDup_app. split; [done|]. split.
    + intros x Hx Hx'.
      apply list_elem_of_fmap in Hx as (d & -> & Hin).
      apply list_elem_of_fmap in Hx' as (dd & E & Hin').
      rewrite Forall_forall in Hpos. rewrite Forall_forall in Hpos'.
      specialize (Hpos d Hin). specialize (Hpos' dd Hin').
      unfold discovered_node_id in E. lia.
    + assert (Hinj : Inj (=) (=) discovered_node_id)
        by (intros x y; unfold discovered_node_id; lia).
      rewrite (list_fmap_compose DiscoveredDevice.id discovered_node_id).
      by apply (NoDup_fmap_2 discovered_node_id).
  - intros n Hn. apply elem_of_app in Hn as [Hn|Hn].
    + apply list_elem_of_fmap in Hn as (d & -> & Hin).
      rewrite (order_by_perm Device.id) in Hin.
      rewrite Forall_forall in Hpos. specialize (Hpos d Hin). cbn.
      split; [done|lia].
    + apply list_elem_of_fmap in Hn as (dd & -> & Hin).
      rewrite (order_by_perm DiscoveredDevice.id) in Hin.
      rewrite Forall_forall in Hpos'. specialize (Hpos' dd Hin). cbn.
      unfold discovered_node_id. split; [lia|done].
Qed.

Lemma graph_edges_join_nodes_witness :
  Edge.mk 2 1 (-1001) "eth1" "" ∈ (get_graph graph_db).2
  /\ (-1001) ∈ Node.id <$> (get_graph graph_db).1.
Proof.
  assert (H : Edge.mk 2 1 (-1001) "eth1" "" ∈ (get_graph graph_db).2).
  { replace (get_graph graph_db).2
      with [Edge.mk 1 1 2 "eth0" "Gi0/24"; Edge.mk 2 1 (-1001) "eth1" ""]
      by (by vm_compute).
    apply elem_of_cons. right. apply elem_of_cons. by left. }
  split; [exact H|].
  exact (proj2 (graph_edges_join_nodes graph_db _ H)).
Defined.

Lemma graph_edges_stem_from_links_witness :
  (length (get_graph graph_db).2 <= 3)%nat
  /\ exists link,
       link ∈ topology_links graph_db
       /\ edge_of_link link (Edge.mk 1 1 2 "eth0" "Gi0/24").
Proof.
  destruct (graph_edges_stem_from_links graph_db) as [H Hlen].
  split; [exact Hlen|]. apply H.
  replace (get_graph graph_db).2
    with [Edge.mk 1 1 2 "eth0" "Gi0/24"; Edge.mk 2 1 (-1001) "eth1" ""]
    by (by vm_compute).
  apply elem_of_cons. by left.
Defined.

Lemma graph_node_ids_distinct_witness :
  NoDup (Node.id <$> (get_graph graph_db).1).
Proof.
  apply graph_node_ids_distinct.
  - apply (bool_decide_unpack _). by vm_compute.
  - apply NoDup_singleton.
  - repeat constructor; by vm_compute.
  - repeat constructor; by vm_compute.
Defined.

(** ** An interval of zero *)

Section ZeroInterval.
Variable py_str : PyVal -> string.
Variable py_int : PyVal -> result Z.
Variable clock : nat -> Z.

Lemma octets_to_bps_unusable octets interval :
  unusable_interval interval ->
  exists e, octets_to_bps octets interval = Raise e.
Proof.
  unfold unusable_interval, octets_to_bps, py_truediv.
  destruct interval as [|z|f|s|bs]; cbn; eauto.
  - intros ->. cbn. eauto.
  - intros Hf. destruct (float_of_int (octets * 8)); cbn; [|eauto].
    rewrite Hf. cbn. eauto.
Qed.

Lemma decode_interface_unusable interval w oid v :
  unusable_interval interval ->
  exists e, decode_interface py_str py_int interval w oid v = Raise e.
Proof.
  intros H. unfold decode_interface.
  repeat match goal with
  | |- exists e, mbind _ (octets_to_bps ?z interval) = Raise e =>
      destruct (octets_to_bps_unusable z interval H) as [e ->]; by exists e
  | |- exists e, mbind _ ?m = Raise e =>
      destruct m as [?|?]; cbn [mbind result_bind]; [|by eexists]
  end.
Qed.

Lemma poll_loop_unusable dev interval w neighbors s :
  unusable_interval interval ->
  poll_loop py_str py_int clock dev interval w neighbors s = s.
Proof.
  intros H. unfold poll_loop.
  induction (items (if_descr w)) as [|[oid v] l IH] in s |- *; [done|].
  cbn [foldl]. rewrite <- (IH s) at 2. f_equal.
  unfold run_logged, process_interface.
  destruct (decode_interface_unusable interval w oid v H) as [e ->].
  reflexivity.
Qed.

(** X19. With an interval of zero, or one that is no number, no interface
    decodes: a cycle then writes no interface, sample, discovered device or
    link, and yet, when the description walk answered and the commit goes
    through, marks the device "up". *)
Theorem unusable_interval_stores_nothing info interval w commit_ok db :
  unusable_interval interval ->
  let db' := poll_device py_str py_int clock info interval w commit_ok db in
  only_devices_differ db db'
  /\ (nonempty (DeviceInfo.ip_address info) = true ->
      dict_truthy (if_descr w) = true ->
      commit_ok = true ->
      devices db'
      = mark_device (DeviceInfo.id info) "up" (Some (clock 0)) (devices db)).
Proof.
  intros H. cbv zeta. unfold poll_device.
  rewrite poll_loop_unusable by done.
  unfold nonempty.
  destruct (is_empty _); [by split|].
  destruct (dict_truthy _); cbn [negb].
  2:{ split; [|done]. destruct (list_find _ _); [|done].
      by destruct commit_ok. }
  unfold run_logged, mark_up, mbind, M_bind, get_session, utcnow,
    modify_session. cbn [fst snd session clock_reads].
  destruct commit_ok; [|by split].
  destruct (list_find _ (devices db)) as [[p d]|] eqn:E; cbn.
  - by split.
  - split; [done|]. intros _ _ _. unfold mark_device. by rewrite E.
Qed.

End ZeroInterval.

Lemma unusable_interval_stores_nothing_witness :
  interfaces (poll_device sample_str sample_int tick sw1_info (VInt 0)
                          two_interfaces true poll_db) = []
  /\ status_of (devices (poll_device sample_str sample_int tick sw1_info
                                     (VInt 0) two_interfaces true poll_db)) 1
     = Some "up".
Proof.
  destruct (unusable_interval_stores_nothing sample_str sample_int tick
              sw1_info (VInt 0) two_interfaces true poll_db eq_refl)
    as [(Hi & _) Hd].
  split; [exact Hi|]. by rewrite Hd.
Defined.

(** ** [format_mac_address] on its own output *)

Lemma replace_nul_free s :
  str_forallb (fun c => negb (Ascii.eqb c zero)) (replace_nul s) = true.
Proof.
  induction s as [|c s IH]; [done|]. cbn.
  destruct (Ascii.eqb c zero) eqn:E; [done|]. cbn. by rewrite E.
Qed.

Lemma replace_nul_fixed s :
  str_forallb (fun c => negb (Ascii.eqb c zero)) s = true ->
  replace_nul s = s.
Proof.
  induction s as [|c s IH]; [done|]. cbn.
  intros [Hc Hs]%andb_true_iff. apply negb_true_iff in Hc.
  by rewrite Hc, IH.
Qed.

Lemma lstrip_forallb p s :
  str_forallb p s = true -> str_forallb p (lstrip s) = true.
Proof.
  induction s as [|c s IH]; [done|]. cbn.
  intros H. destruct (is_space c); [|done].
  apply andb_true_iff in H as [_ H]. by apply IH.
Qed.

Lemma rstrip_forallb p s :
  str_forallb p s = true -> str_forallb p (rstrip s) = true.
Proof.
  induction s as [|c s IH]; [done|]. cbn.
  intros [Hc Hs]%andb_true_iff.
  destruct (is_space c && is_empty (rstrip s)); [done|].
  cbn. by rewrite Hc, IH.
Qed.

Lemma clean_idemp s : clean (clean s) = clean s.
Proof.
  unfold clean. rewrite replace_nul_fixed; [apply strip_idemp|].
  unfold strip. apply lstrip_forallb, rstrip_forallb, replace_nul_free.
Qed.

Lemma rstrip_plain s :
  str_forallb (fun c => negb (is_space c)) s = true -> rstrip s = s.
Proof.
  induction s as [|c s IH]; [done|]. cbn.
  intros [Hc Hs]%andb_true_iff. apply negb_true_iff in Hc.
  by rewrite Hc, IH.
Qed.

Lemma clean_plain s :
  str_forallb (fun c => negb (Ascii.eqb c zero)) s = true ->
  str_forallb (fun c => negb (is_space c)) s = true ->
  clean s = s.
Proof.
  intros H0 Hs. unfold clean, strip.
  rewrite replace_nul_fixed, rstrip_plain by done.
  destruct s as [|c s]; [done|]. cbn in *.
  apply andb_true_iff in Hs as [Hc _]. apply negb_true_iff in Hc.
  by rewrite Hc.
Qed.

Lemma lower_hex_plain c :
  is_lower_hex c = true ->
  Ascii.eqb c zero = false /\ is_space c = false
  /\ Ascii.eqb ":"%char c = false.
Proof. by destruct c as [[] [] [] [] [] [] [] []]. Qed.

Lemma hex_groups_plain n m :
  hex_groups n m = true ->
  str_forallb (fun c => negb (Ascii.eqb c zero)) m = true
  /\ str_forallb (fun c => negb (is_space c)) m = true
  /\ ((2 <= n)%nat -> contains ":" m = true).
Proof.
  revert m. induction n as [|n IH]; intros m;
    [destruct m; cbn; discriminate|].
  destruct m as [|a [|b m]]; [destruct n; cbn; discriminate..|].
  destruct n as [|n].
  - destruct m as [|c m].
    2:{ cbn. intros [_ H]%andb_true_iff. by destruct m. }
    cbn.
    intros [Ha Hb]%andb_true_iff.
    apply lower_hex_plain in Ha as (-> & -> & _).
    apply lower_hex_plain in Hb as (-> & -> & _).
    repeat split. lia.
  - destruct m as [|c m]; [cbn; discriminate|].
    change (hex_groups (S (S n)) (String a (String b (String c m))))
      with (is_lower_hex a && is_lower_hex b && Ascii.eqb c ":"%char
            && hex_groups (S n) m).
    intros [[[Ha Hb]%andb_true_iff Hc]%andb_true_iff Hm]%andb_true_iff.
    apply Ascii.eqb_eq in Hc as ->.
    destruct (IH m Hm) as (H0 & Hs & _).
    apply lower_hex_plain in Ha as (Ha0 & Has & Hac).
    apply lower_hex_plain in Hb as (Hb0 & Hbs & Hbc).
    split; [|split].
    + cbn [str_forallb]. by rewrite Ha0, Hb0, H0.
    + cbn [str_forallb]. by rewrite Has, Hbs, Hs.
    + intros _. cbn [contains]. rewrite !orb_true_iff.
      right. right. by left.
Qed.

Lemma canonical_mac_fixed m :
  canonical_mac m = true -> format_mac_address (VStr m) = Some m.
Proof.
  intros H. destruct (hex_groups_plain 6 m H) as (H0 & Hs & Hc).
  rewrite format_mac_str, clean_plain by done.
  rewrite Hc by lia. by destruct m.
Qed.

(** X20. [format_mac_address] is stable on its own output: whatever it
    returns for a value, it returns again when it is given that text, so a
    stored address that is formatted once more does not change. *)
Theorem format_mac_address_stable v m :
  format_mac_address v = Some m ->
  format_mac_address (VStr m) = Some m.
Proof.
  assert (Hbytes : forall bs, format_mac_address (VBytes bs) = Some m ->
                              format_mac_address (VStr m) = Some m).
  { intros bs. rewrite format_mac_bytes.
    destruct (Nat.leb 6 (length bs)) eqn:E; [|done].
    intros [= <-]. apply canonical_mac_fixed, format_mac_canonical.
    by apply Nat.leb_le. }
  destruct v as [|z|q|s|bs]; [done| | | |by apply Hbytes].
  - unfold format_mac_address. by destruct (truthy (VInt z)).
  - unfold format_mac_address. by destruct (truthy (VFloat q)).
  - rewrite format_mac_str.
    destruct (is_empty (clean s)) eqn:He; [done|].
    destruct (contains ":" (clean s)) eqn:Hc; [|by apply Hbytes].
    intros [= <-]. by rewrite format_mac_str, clean_idemp, He, Hc.
Qed.

Lemma format_mac_address_stable_witness :
  format_mac_address (VStr "aa:bb:cc:dd:ee:ff") = Some "aa:bb:cc:dd:ee:ff"
  /\ format_mac_address (VStr "00:1A:2b") = Some "00:1A:2b".
Proof.
  split.
  - apply (format_mac_address_stable (VBytes [xaa; xbb; xcc; xdd; xee; xff])).
    reflexivity.
  - apply (format_mac_address_stable (VStr " 00:1A:2b ")). reflexivity.
Defined.

(** ** The two patterns the backfill searches labels for *)

Lemma append_cons x (a b : string) : String x a +:+ b = String x (a +:+ b).
Proof. reflexivity. Qed.

Lemma append_assoc' (a b c : string) : (a +:+ b) +:+ c = a +:+ (b +:+ c).
Proof.
  induction a as [|x a IH]; [done|]. rewrite !append_cons. by rewrite IH.
Qed.

Lemma append_nil_r (a : string) : a +:+ "" = a.
Proof.
  induction a as [|x a IH]; [done|]. rewrite append_cons. by rewrite IH.
Qed.

Lemma take_drop_string n s : substring 0 n s +:+ str_drop n s = s.
Proof.
  revert s. induction n as [|n IH]; intros [|c s]; try done.
  cbn [substring str_drop]. rewrite append_cons. by rewrite IH.
Qed.

Lemma substring_app n head rest :
  String.length head = n -> substring 0 n (head +:+ rest) = head.
Proof.
  revert head. induction n as [|n IH]; intros [|c head]; try done.
  - intros _. by destruct rest.
  - rewrite append_cons. cbn [substring String.length].
    intros [= H]. by rewrite IH.
Qed.

Lemma str_drop_app n head rest :
  String.length head = n -> str_drop n (head +:+ rest) = rest.
Proof.
  revert head. induction n as [|n IH]; intros [|c head]; try done.
  rewrite append_cons. cbn [str_drop String.length].
  intros [= H]. by apply IH.
Qed.

Lemma exactly_Some n p k s m :
  exactly n p k s = Some m ->
  exists head rest m',
    s = head +:+ rest /\ String.length head = n
    /\ str_forallb p head = true /\ k rest = Some m' /\ m = head +:+ m'.
Proof.
  unfold exactly.
  destruct (Nat.eqb _ n && str_forallb p _) eqn:E; [|done].
  apply andb_true_iff in E as [Hl Hp]. apply Nat.eqb_eq in Hl.
  destruct (k (str_drop n s)) as [m'|] eqn:Ek; [|done].
  intros [= <-]. exists (substring 0 n s), (str_drop n s), m'.
  by rewrite take_drop_string.
Qed.

Lemma exactly_app n p k head rest :
  String.length head = n -> str_forallb p head = true ->
  exactly n p k (head +:+ rest) = (fun m' => head +:+ m') <$> k rest.
Proof.
  intros Hl Hp. unfold exactly.
  rewrite substring_app, str_drop_app by done.
  by rewrite Hl, Nat.eqb_refl, Hp.
Qed.

Lemma digits_1_3_Some k s m :
  digits_1_3 k s = Some m ->
  exists a rest m',
    s = a +:+ rest /\ octet_text a /\ k rest = Some m' /\ m = a +:+ m'.
Proof.
  unfold digits_1_3, octet_text. intros H.
  destruct (exactly 3 is_digit k s) as [m3|] eqn:E3.
  { injection H as <-.
    apply exactly_Some in E3 as (a & rest & m' & -> & Hl & Hp & Hk & ->).
    exists a, rest, m'. repeat split; [lia..|done|done]. }
  destruct (exactly 2 is_digit k s) as [m2|] eqn:E2.
  { injection H as <-.
    apply exactly_Some in E2 as (a & rest & m' & -> & Hl & Hp & Hk & ->).
    exists a, rest, m'. repeat split; [lia..|done|done]. }
  apply exactly_Some in H as (a & rest & m' & -> & Hl & Hp & Hk & ->).
  exists a, rest, m'. repeat split; [lia..|done|done].
Qed.

Lemma digits_1_3_complete k a rest :
  octet_text a -> is_Some (k rest) -> is_Some (digits_1_3 k (a +:+ rest)).
Proof.
  intros [[H1 H3] Hp] [m' Hk]. unfold digits_1_3.
  destruct (exactly 3 is_digit k (a +:+ rest)) as [m3|] eqn:E3; [done|].
  destruct (exactly 2 is_digit k (a +:+ rest)) as [m2|] eqn:E2; [done|].
  destruct (decide (String.length a = 3%nat)) as [L3|N3].
  { rewrite exactly_app, Hk in E3 by done. done. }
  destruct (decide (String.length a = 2%nat)) as [L2|N2].
  { rewrite exactly_app, Hk in E2 by done. done. }
  rewrite exactly_app, Hk by (done || lia). done.
Qed.

Lemma dot_Some k s m :
  dot k s = Some m ->
  exists rest m', s = "." +:+ rest /\ k rest = Some m' /\ m = "." +:+ m'.
Proof.
  unfold dot. destruct s as [|c s]; [done|].
  destruct (Ascii.eqb c ".") eqn:E; [|done].
  apply Ascii.eqb_eq in E as ->.
  destruct (k s) as [m'|] eqn:Ek; [|done].
  intros [= <-]. by exists s, m'.
Qed.

Lemma match_ip_at_Some s m :
  match_ip_at s = Some m -> dotted_quad m /\ exists post, s = m +:+ post.
Proof.
  unfold match_ip_at. intros H.
  apply digits_1_3_Some in H as (a & r1 & m1 & -> & Ha & H & ->).
  apply dot_Some in H as (r2 & m2 & -> & H & ->).
  apply digits_1_3_Some in H as (b & r3 & m3 & -> & Hb & H & ->).
  apply dot_Some in H as (r4 & m4 & -> & H & ->).
  apply digits_1_3_Some in H as (c & r5 & m5 & -> & Hc & H & ->).
  apply dot_Some in H as (r6 & m6 & -> & H & ->).
  apply digits_1_3_Some in H as (d & r7 & m7 & -> & Hd & H & ->).
  injection H as <-. rewrite append_nil_r. split.
  - by exists a, b, c, d.
  - exists r7. by rewrite !append_assoc'.
Qed.

Lemma match_ip_at_complete m post :
  dotted_quad m -> is_Some (match_ip_at (m +:+ post)).
Proof.
  intros (a & b & c & d & Ha & Hb & Hc & Hd & ->). unfold match_ip_at.
  rewrite !append_assoc'.
  assert (Hdot : forall k r, is_Some (k r) -> is_Some (dot k ("." +:+ r))).
  { intros k r H. change (is_Some (String "." <$> k r)).
    by apply fmap_is_Some. }
  do 3 (apply digits_1_3_complete; [done|]; apply Hdot).
  by apply digits_1_3_complete.
Qed.

Lemma re_search_Some match_at s m :
  re_search match_at s = Some m ->
  exists pre t,
    s = pre +:+ t /\ match_at t = Some m
    /\ forall pre' t',
         s = pre' +:+ t' ->
         (String.length pre' < String.length pre)%nat ->
         match_at t' = None.
Proof.
  induction s as [|c s IH]; cbn.
  - destruct (match_at "") eqn:E; [|done]. intros [= <-].
    exists "", "". repeat split; [done|]. intros ? ? _ H. cbn in H. lia.
  - destruct (match_at (String c s)) eqn:E.
    + intros [= <-]. exists "", (String c s). repeat split; [done|].
      intros ? ? _ H. cbn in H. lia.
    + intros H. destruct (IH H) as (pre & t & -> & Ht & Hleft).
      exists (String c pre), t. repeat split; [done|].
      intros [|c' pre'] t' Heq Hlen.
      * change ("" +:+ t') with t' in Heq. by subst t'.
      * rewrite !append_cons in Heq. injection Heq as -> Heq.
        apply (Hleft pre' t' Heq). cbn in Hlen. lia.
Qed.

Lemma re_search_complete match_at pre t :
  is_Some (match_at t) -> is_Some (re_search match_at (pre +:+ t)).
Proof.
  intros Ht. induction pre as [|c pre IH].
  - change ("" +:+ t) with t. destruct t; cbn; by destruct (match_at _).
  - rewrite append_cons. cbn [re_search].
    by destruct (match_at (String c (pre +:+ t))).
Qed.

(** X21. The search for an address in a label finds a dotted quad of one to
    three digits per group, taken from the label as it stands, and finds
    one whenever the label contains such a text; the groups are not checked
    against 255. *)
Theorem embedded_ip_search s :
  (forall m, re_search match_ip_at s = Some m ->
     dotted_quad m /\ exists pre post, s = pre +:+ m +:+ post)
  /\ (forall pre m post,
        dotted_quad m -> s = pre +:+ m +:+ post ->
        is_Some (re_search match_ip_at s)).
Proof.
  split.
  - intros m H. apply re_search_Some in H as (pre & t & -> & Ht & _).
    apply match_ip_at_Some in Ht as [Hq [post ->]].
    split; [done|]. by exists pre, post.
  - intros pre m post Hq ->.
    by apply re_search_complete, match_ip_at_complete.
Qed.

Lemma match_hex12_at_spec t m :
  match_hex12_at t = Some m <-> hex12 m /\ exists post, t = m +:+ post.
Proof.
  unfold match_hex12_at, hex12. split.
  - intros H.
    apply exactly_Some in H as (head & rest & m' & -> & Hl & Hp & Hk & ->).
    injection Hk as <-. rewrite append_nil_r. split; [done|by exists rest].
  - intros [[Hl Hp] [post ->]]. rewrite exactly_app by done.
    cbn. by rewrite append_nil_r.
Qed.

(** X22. The search for a MAC-like text in a label finds the leftmost run of
    twelve hex digits of the label, and finds one whenever the label
    contains such a run. *)
Theorem embedded_hex12_search s :
  (forall m, re_search match_hex12_at s = Some m ->
     hex12 m
     /\ exists pre post,
          s = pre +:+ m +:+ post
          /\ forall pre' m' post',
               hex12 m' -> s = pre' +:+ m' +:+ post' ->
               (String.length pre <= String.length pre')%nat)
  /\ (forall pre m post,
        hex12 m -> s = pre +:+ m +:+ post ->
        is_Some (re_search match_hex12_at s)).
Proof.
  split.
  - intros m H. apply re_search_Some in H as (pre & t & -> & Ht & Hleft).
    apply match_hex12_at_spec in Ht as [Hm [post ->]].
    split; [done|]. exists pre, post. split; [done|].
    intros pre' m' post' Hm' Heq.
    destruct (le_lt_dec (String.length pre) (String.length pre'))
      as [Hle|Hlt]; [done|].
    specialize (Hleft pre' (m' +:+ post') Heq Hlt).
    assert (Hs : match_hex12_at (m' +:+ post') = Some m')
      by (apply match_hex12_at_spec; split; [done|by exists post']).
    congruence.
  - intros pre m post Hm ->. apply re_search_complete.
    exists m. apply match_hex12_at_spec. split; [done|by exists post].
Qed.

Lemma embedded_ip_search_witness :
  re_search match_ip_at "gw 10.0.0.2 (core)" = Some "10.0.0.2"
  /\ is_Some (re_search match_ip_at "999.1.22.333x").
Proof.
  split; [reflexivity|].
  apply (proj2 (embedded_ip_search "999.1.22.333x") "" "999.1.22.333" "x");
    [|reflexivity].
  exists "999", "1", "22", "333".
  repeat split; cbn; lia.
Defined.

Lemma embedded_hex12_search_witness :
  is_Some (re_search match_hex12_at "SEP001122334455")
  /\ hex12 "001122334455".
Proof.
  assert (H : hex12 "001122334455") by (split; reflexivity).
  split; [|exact H].
  by apply (proj2 (embedded_hex12_search "SEP001122334455")
              "SEP" "001122334455" "").
Defined.

(** ** A cycle without LLDP data *)

Section NoLldp.
Variable py_str : PyVal -> string.
Variable py_int : PyVal -> result Z.
Variable clock : nat -> Z.

(** X23. When the walk of the neighbours' system names fails or is empty,
    a cycle leaves the discovered devices and the links exactly as they
    were, whatever the other LLDP walks hold. *)
Theorem no_sysnames_no_topology info interval w commit_ok db :
  dict_truthy (sysnames w) = false ->
  let db' := poll_device py_str py_int clock info interval w commit_ok db in
  discovered_devices db' = discovered_devices db
  /\ topology_links db' = topology_links db.
Proof.
  intros Hs. cbv zeta.
  apply (poll_device_tables py_str py_int clock
           (fun t => discovered_devices t = discovered_devices db
                     /\ topology_links t = topology_links db));
    try done.
  intros name index ninfo. unfold get_lldp_neighbors. rewrite Hs. cbn [negb].
  by rewrite lookup_empty.
Qed.

End NoLldp.

Lemma no_sysnames_no_topology_witness :
  topology_links (poll_device sample_str sample_int tick sw1_info (VInt 5)
                              two_interfaces true poll_db)
  = topology_links poll_db.
Proof.
  exact (proj2 (no_sysnames_no_topology sample_str sample_int tick sw1_info
                  (VInt 5) two_interfaces true poll_db eq_refl)).
Defined.

(** ** The backfill end point on a device without a hostname *)

Lemma find_all_false {X} (f : X -> bool) (l : list X) :
  (forall x, In x l -> f x = false) -> List.find f l = None.
Proof.
  induction l as [|y l IH]; [done|]. intros H. cbn.
  rewrite (H y) by (by left). apply IH. intros x Hx. apply H. by right.
Qed.

Lemma scan_contains_raises n ds c e :
  scan_contains n ds c = Raise e -> e = AttributeError.
Proof.
  induction ds as [|d ds IH]; [done|]. cbn.
  destruct (Device.hostname d) as [h|]; [|by intros [= <-]].
  destruct (nonempty h && contains (lower h) (lower n)); [done|].
  by destruct (contains (lower n) (lower h)).
Qed.

Lemma match_link_raises db ds ifs link e :
  match_link db ds ifs link = Raise e -> e = AttributeError.
Proof.
  unfold match_link. destruct (is_non_device _); [done|].
  unfold try_contains. destruct (negb _ && nonempty _); [|done].
  destruct (scan_contains _ ds _) as [c|e'] eqn:E; [done|].
  cbn. intros [= <-]. by eapply scan_contains_raises.
Qed.

Lemma backfill_loop_raises dry_run db ds ifs links st e :
  backfill_loop dry_run db ds ifs links st = Raise e -> e = AttributeError.
Proof.
  revert st. induction links as [|[ref link] links IH]; intros st; [done|].
  cbn [backfill_loop].
  destruct (backfill_one dry_run db ds ifs st (ref, link)) as [st1|e1] eqn:E1;
    cbn [mbind result_bind]; [apply IH|].
  intros [= <-]. unfold backfill_one in E1.
  destruct (match_link db ds ifs link) as [m|e2] eqn:E2.
  - cbn in E1. destruct m as [[[cand|] r]|]; [by destruct dry_run|done..].
  - cbn in E1. injection E1 as <-. by eapply match_link_raises.
Qed.

Lemma match_link_nameless db d ds ifs link :
  Device.hostname d = None ->
  nonempty (dst_name_of link) = true ->
  is_non_device (dst_name_of link) = false ->
  (forall x, In x (d :: ds) ->
     hostname_is (dst_name_of link) x = false
     /\ hostname_is (before_first_dot (dst_name_of link)) x = false) ->
  match_link db (d :: ds) ifs link = Raise AttributeError.
Proof.
  intros Hd Hn Hm Hno. unfold match_link. fold (dst_name_of link).
  rewrite Hm. unfold try_exact. rewrite Hn.
  rewrite find_all_false by (intros x Hx; by destruct (Hno x Hx)).
  unfold try_short.
  replace (match List.find (hostname_is (before_first_dot (dst_name_of link)))
                           (d :: ds) with
           | Some d0 => mkCandidate (Some d0) (Some "short")
           | None => no_candidate
           end) with no_candidate
    by (rewrite find_all_false;
        [done|intros x Hx; by destruct (Hno x Hx)]).
  assert (Hc : (if negb (has_candidate no_candidate)
                   && nonempty (dst_name_of link)
                   && contains "." (dst_name_of link)
                then no_candidate else no_candidate) = no_candidate)
    by (by destruct (_ && _)).
  cbv zeta. rewrite Hc. unfold try_contains. rewrite Hn. cbn. by rewrite Hd.
Qed.

(** X24. The backfill end point fails with an attribute error, before
    anything is committed, when the first device row has no hostname and
    one of the processed links carries a non-empty label without marker
    that no device is named after, exactly or by its short form: the
    substring scan then reads the hostname of that row. *)
Theorem backfill_fails_on_nameless_device dry_run limit commit_ok db p link
  d ds :
  devices db = d :: ds ->
  Device.hostname d = None ->
  In (p, link) (cap limit (unresolved db)) ->
  nonempty (dst_name_of link) = true ->
  is_non_device (dst_name_of link) = false ->
  (forall x, In x (devices db) ->
     hostname_is (dst_name_of link) x = false
     /\ hostname_is (before_first_dot (dst_name_of link)) x = false) ->
  backfill_links dry_run limit commit_ok db = Raise AttributeError.
Proof.
  intros Hds Hd Hin Hn Hm Hno. unfold backfill_links.
  match goal with |- context [backfill_loop ?a ?b ?c ?e ?f ?g] =>
    destruct (backfill_loop a b c e f g) as [st|e'] eqn:Hloop end.
  2:{ cbn. f_equal. by eapply backfill_loop_raises. }
  exfalso. revert Hloop.
  generalize (mkBackfill (topology_links db) 0 0 []).
  induction (cap limit (unresolved db)) as [|[ref l] links IH]; [done|].
  intros st0. cbn [backfill_loop].
  destruct Hin as [[= -> ->]|Hin].
  - unfold backfill_one. rewrite Hds.
    rewrite match_link_nameless; [done..|by rewrite <- Hds].
  - destruct (backfill_one _ _ _ _ _ _) as [st1|]; [|done].
    cbn [mbind result_bind]. by apply IH.
Qed.

Lemma backfill_fails_on_nameless_device_witness :
  backfill_links true 0 true nameless_db = Raise AttributeError.
Proof.
  apply (backfill_fails_on_nameless_device true 0 true nameless_db 0%nat
           stray_link nameless_box [core_sw1]);
    [reflexivity|reflexivity|by left|reflexivity|reflexivity|].
  intros x [<-|[<-|[]]]; split; reflexivity.
Defined.
